(** * Stock_Predict: the A-share acquisition pipeline and the US-market store

    A shallow embedding of the logic of [stock.py] (symbol parsing, schema
    normalisation, the retry loop, the SQLite merge, the incremental update
    and the query) and of the [DataManager] of [US_stock.py] (the two
    tables, saving, deleting and listing, the download loop), followed by
    the properties stated about them.

    Conventions.
    - A Python [str] is the list of its code points ([pystr]); literals are
      written [py "..."] and decoded from UTF-8.
    - Python exceptions are explicit: a computation that may raise returns
      [exc A].
    - pandas and sqlite3 are libraries outside the repository.  The parts of
      their behaviour the code relies on are written out next to the
      definition that uses them. *)

From Stdlib Require Import ZArith List String Ascii Bool Lia Sorting.Sorted Permutation.
From stdpp Require Import base list gmap sets.
Import ListNotations.

Local Open Scope Z_scope.

(* ===================================================================== *)
(** ** Python strings *)
(* ===================================================================== *)

Module PyStr.

(** A Python string: its Unicode code points. *)
Definition pystr := list Z.

Definition byte_val (b : Byte.byte) : Z := Z.of_N (Byte.to_N b).

(** UTF-8 decoding of the literals of the source files. *)
Fixpoint utf8_decode (bs : list Z) : pystr :=
  match bs with
  | [] => []
  | b :: r =>
      if b <? 128 then b :: utf8_decode r
      else if b <? 224 then
        match r with
        | b1 :: r' => ((b - 192) * 64 + (b1 - 128)) :: utf8_decode r'
        | _ => []
        end
      else if b <? 240 then
        match r with
        | b1 :: b2 :: r' =>
            ((b - 224) * 4096 + (b1 - 128) * 64 + (b2 - 128)) :: utf8_decode r'
        | _ => []
        end
      else
        match r with
        | b1 :: b2 :: b3 :: r' =>
            ((b - 240) * 262144 + (b1 - 128) * 4096 + (b2 - 128) * 64 + (b3 - 128))
              :: utf8_decode r'
        | _ => []
        end
  end.

Definition py (s : string) : pystr :=
  utf8_decode (map byte_val (list_byte_of_string s)).

(** [a == b] *)
Fixpoint str_eqb (a b : pystr) : bool :=
  match a, b with
  | [], [] => true
  | x :: a', y :: b' => (x =? y) && str_eqb a' b'
  | _, _ => false
  end.

(** [x in l] *)
Definition str_in (x : pystr) (l : list pystr) : bool := existsb (str_eqb x) l.

(** [bool(s)]: a string is truthy when it is not empty. *)
Definition truthy (s : pystr) : bool :=
  match s with [] => false | _ => true end.

(** [a < b] on strings: lexicographic on code points. *)
Fixpoint str_ltb (a b : pystr) : bool :=
  match a, b with
  | _, [] => false
  | [], _ :: _ => true
  | x :: a', y :: b' =>
      if x <? y then true else if y <? x then false else str_ltb a' b'
  end.

Definition str_leb (a b : pystr) : bool := negb (str_ltb b a).
Definition str_gtb (a b : pystr) : bool := str_ltb b a.

(** [s.replace(old, new)] for one-character [old] and [new]. *)
Definition replace (old new : Z) (s : pystr) : pystr :=
  map (fun c => if c =? old then new else c) s.

(** [s.split(sep)] for a one-character separator: one token more than
    there are separators, empty tokens included. *)
Fixpoint split (sep : Z) (s : pystr) : list pystr :=
  match s with
  | [] => [[]]
  | c :: s' =>
      if c =? sep then [] :: split sep s'
      else match split sep s' with
           | t :: ts => (c :: t) :: ts
           | [] => [[c]]
           end
  end.

(** [str.isspace] on one character (the code points CPython lists). *)
Definition isspace (c : Z) : bool :=
  ((9 <=? c) && (c <=? 13)) || ((28 <=? c) && (c <=? 32))
  || (c =? 133) || (c =? 160) || (c =? 5760)
  || ((8192 <=? c) && (c <=? 8202))
  || (c =? 8232) || (c =? 8233) || (c =? 8239) || (c =? 8287) || (c =? 12288).

Fixpoint lstrip (s : pystr) : pystr :=
  match s with
  | [] => []
  | c :: s' => if isspace c then lstrip s' else s
  end.

Definition rstrip (s : pystr) : pystr := rev (lstrip (rev s)).

(** [s.strip()] *)
Definition strip (s : pystr) : pystr := rstrip (lstrip s).

(** [list(set(l))]: the distinct elements of [l]; Python fixes no order,
    the one of the finite set stands for it. *)
Definition list_set (l : list pystr) : list pystr :=
  elements (list_to_set l : gset pystr).

(** ASCII lower-casing (SQLite resolves column names this way). *)
Definition lower (s : pystr) : pystr :=
  map (fun c => if (65 <=? c) && (c <=? 90) then c + 32 else c) s.

End PyStr.
Export PyStr.

(* ===================================================================== *)
(** ** Calendar dates: [datetime], [timedelta(days=1)], ["%Y-%m-%d"] *)
(* ===================================================================== *)

Module Dates.

Record date := mkdate { year : Z; month : Z; day : Z }.

Definition is_leap (y : Z) : bool :=
  (y mod 4 =? 0) && (negb (y mod 100 =? 0) || (y mod 400 =? 0)).

Definition days_in_month (y m : Z) : Z :=
  if m =? 2 then (if is_leap y then 29 else 28)
  else if (m =? 4) || (m =? 6) || (m =? 9) || (m =? 11) then 30
  else 31.

(** The dates [datetime] can hold (MINYEAR = 1, MAXYEAR = 9999). *)
Definition valid_date (d : date) : bool :=
  (1 <=? year d) && (year d <=? 9999)
  && (1 <=? month d) && (month d <=? 12)
  && (1 <=? day d) && (day d <=? days_in_month (year d) (month d)).

(** [d + timedelta(days=1)]; [None] is the OverflowError past 9999-12-31. *)
Definition add_one_day (d : date) : option date :=
  if day d <? days_in_month (year d) (month d)
  then Some (mkdate (year d) (month d) (day d + 1))
  else if month d <? 12 then Some (mkdate (year d) (month d + 1) 1)
  else if year d <? 9999 then Some (mkdate (year d + 1) 1 1)
  else None.

(** Chronological order. *)
Definition date_ltb (a b : date) : bool :=
  (year a <? year b)
  || ((year a =? year b)
      && ((month a <? month b)
          || ((month a =? month b) && (day a <? day b)))).

Definition digit (n : Z) : Z := 48 + n.

Fixpoint decimal_aux (fuel : nat) (n : Z) (acc : pystr) : pystr :=
  match fuel with
  | O => acc
  | S f =>
      let acc' := digit (n mod 10) :: acc in
      if n <? 10 then acc' else decimal_aux f (n / 10) acc'
  end.

(** [str(n)] for [0 <= n < 100000], enough for every year. *)
Definition decimal (n : Z) : pystr := decimal_aux 5 n [].

(** ["%02d"] *)
Definition pad2 (n : Z) : pystr := [digit (n / 10); digit (n mod 10)].

(** [d.strftime("%Y-%m-%d")]: the year is printed without padding (glibc),
    month and day on two digits. *)
Definition strftime (d : date) : pystr :=
  decimal (year d) ++ [45] ++ pad2 (month d) ++ [45] ++ pad2 (day d).

(** ["%04d"] *)
Definition pad4 (n : Z) : pystr :=
  [digit (n / 1000); digit (n / 100 mod 10); digit (n / 10 mod 10);
   digit (n mod 10)].

(** [d.isoformat()]: the year on four digits, month and day on two. *)
Definition isoformat (d : date) : pystr :=
  pad4 (year d) ++ [45] ++ pad2 (month d) ++ [45] ++ pad2 (day d).

(** An ASCII digit, as the classes [[0-9]] of a regular expression read
    it. *)
Definition digit_val (c : Z) : option Z :=
  if (48 <=? c) && (c <=? 57) then Some (c - 48) else None.

(** The decimal digits of Unicode (category Nd, Unicode 14.0) come in runs
    of ten, zero first; these are the code points of the zeros.  ASCII is
    the first run, the Arabic-Indic digits the second, the fullwidth digits
    start at 65296. *)
Definition digit_zeros : list Z :=
  [48; 1632; 1776; 1984; 2406; 2534; 2662; 2790; 2918; 3046; 3174; 3302;
   3430; 3558; 3664; 3792; 3872; 4160; 4240; 6112; 6160; 6470; 6608; 6784;
   6800; 6992; 7088; 7232; 7248; 42528; 43216; 43264; 43472; 43504; 43600;
   44016; 65296; 66720; 68912; 69734; 69872; 69942; 70096; 70384; 70736;
   70864; 71248; 71360; 71472; 71904; 72016; 72784; 73040; 73120; 92768;
   92864; 93008; 120782; 120792; 120802; 120812; 120822; 123200; 123632;
   125264; 130032].

Fixpoint digit_in (zeros : list Z) (c : Z) : option Z :=
  match zeros with
  | [] => None
  | z :: zeros' =>
      if (z <=? c) && (c <=? z + 9) then Some (c - z) else digit_in zeros' c
  end.

(** A decimal digit as [\d] matches it and [int] reads it: any Unicode
    decimal digit. *)
Definition unicode_digit (c : Z) : option Z := digit_in digit_zeros c.

(** The [%m] field: [1[0-2]|0[1-9]|[1-9]] *)
Definition parse_month (s : pystr) : option Z :=
  match s with
  | [a; b] =>
      match digit_val a, digit_val b with
      | Some 1, Some y => if y <=? 2 then Some (10 + y) else None
      | Some 0, Some y => if 1 <=? y then Some y else None
      | _, _ => None
      end
  | [a] =>
      match digit_val a with
      | Some x => if 1 <=? x then Some x else None
      | None => None
      end
  | _ => None
  end.

(** The [%d] field: [3[01]|[12]\d|0[1-9]|[1-9]| [1-9]]; its one [\d] is
    the second character after a [1] or a [2]. *)
Definition parse_day (s : pystr) : option Z :=
  match s with
  | [a; b] =>
      if a =? 32 then
        match digit_val b with
        | Some y => if 1 <=? y then Some y else None
        | None => None
        end
      else
        match digit_val a with
        | Some 3 =>
            match digit_val b with
            | Some y => if y <=? 1 then Some (30 + y) else None
            | None => None
            end
        | Some 0 =>
            match digit_val b with
            | Some y => if 1 <=? y then Some y else None
            | None => None
            end
        | Some x =>
            if x <=? 2 then
              match unicode_digit b with
              | Some y => Some (10 * x + y)
              | None => None
              end
            else None
        | None => None
        end
  | [a] =>
      match digit_val a with
      | Some x => if 1 <=? x then Some x else None
      | None => None
      end
  | _ => None
  end.

(** The [%Y] field: [\d\d\d\d], exactly four decimal digits. *)
Definition parse_year (s : pystr) : option Z :=
  match s with
  | [a; b; c; d] =>
      match unicode_digit a, unicode_digit b, unicode_digit c,
            unicode_digit d with
      | Some x3, Some x2, Some x1, Some x0 =>
          Some (1000 * x3 + 100 * x2 + 10 * x1 + x0)
      | _, _, _, _ => None
      end
  | _ => None
  end.

(** [datetime.strptime(s, "%Y-%m-%d")]; [None] is the ValueError.  The
    whole string has to match, and the fields have to form a date.  The
    year, and the second digit of a day from 10 to 29, may be written with
    any Unicode decimal digits; the month and the rest of the day take
    ASCII digits only. *)
Definition strptime (s : pystr) : option date :=
  match split 45 s with
  | [ys; ms; ds] =>
      match parse_year ys, parse_month ms, parse_day ds with
      | Some y, Some m, Some d =>
          let r := mkdate y m d in
          if valid_date r then Some r else None
      | _, _, _ => None
      end
  | _ => None
  end.

End Dates.
Export Dates.

(* ===================================================================== *)
(** ** Python exceptions *)
(* ===================================================================== *)

Module PyExc.

(** The exception classes that occur; all of them derive from
    [Exception].  [RequestException] stands for the whole
    [requests.exceptions.RequestException] hierarchy. *)
Inductive exn :=
| ValueError
| KeyError
| AttributeError
| TypeError
| RequestException
| OverflowError
| OperationalError     (* sqlite3: no such table, no such column *)
| IntegrityError       (* sqlite3: constraint failed *)
| ProgrammingError     (* sqlite3: value of an unsupported type *)
| OtherException.

Inductive exc (A : Type) :=
| Ok (a : A)
| Raise (e : exn).
Arguments Ok {A} a.
Arguments Raise {A} e.

Definition is_request_exception (e : exn) : bool :=
  match e with RequestException => true | _ => false end.

Definition bind_exc {A B} (m : exc A) (k : A -> exc B) : exc B :=
  match m with
  | Ok a => k a
  | Raise e => Raise e
  end.

End PyExc.
Export PyExc.

#[export] Instance exc_bind : MBind exc := fun A B k m => bind_exc m k.
#[export] Instance exc_ret : MRet exc := @Ok.

(* ===================================================================== *)
(** ** pandas: the part of DataFrame the two programs use *)
(* ===================================================================== *)

Module Pandas.

(** One value of a frame. *)
Inductive cell :=
| CMissing              (* None, NaN, NaT *)
| CStr (s : pystr)
| CInt (n : Z)
| CFloat (bits : Z)     (* a float, by its bit pattern *)
| CTime (d : date) (clock : pystr)
                        (* a Timestamp: its calendar day, and what
                           [isoformat(' ')] prints after the day, that is
                           the blank, the time of day and the UTC offset *)
| CDate (d : date).     (* a [datetime.date] *)

Definition is_missing (c : cell) : bool :=
  match c with CMissing => true | _ => false end.

Definition date_eqb (x y : date) : bool :=
  (year x =? year y) && (month x =? month y) && (day x =? day y).

Definition cell_eqb (a b : cell) : bool :=
  match a, b with
  | CMissing, CMissing => true
  | CStr x, CStr y => str_eqb x y
  | CInt x, CInt y => x =? y
  | CFloat x, CFloat y => x =? y
  | CTime x cx, CTime y cy => date_eqb x y && str_eqb cx cy
  | CDate x, CDate y => date_eqb x y
  | _, _ => false
  end.

(** A row as [iterrows()] yields it: the labelled values, in column
    order.  Labels may repeat. *)
Abbreviation Series := (list (pystr * cell)).

(** A frame: the name of its index, its column labels and, for every
    row, the index value and the row.  Every row carries the labels of
    [columns]. *)
Record DataFrame := mkframe {
  index_name : option pystr;
  columns : list pystr;
  rows : list (cell * Series)
}.

(** [df.empty] *)
Definition empty (df : DataFrame) : bool :=
  match rows df, columns df with
  | [], _ => true
  | _, [] => true
  | _, _ => false
  end.

(** What [row.get(label)] or [df[label]] hands back: one value, or a
    sub-series / sub-frame when the label is repeated. *)
Inductive pyobj :=
| ObjCell (c : cell)
| ObjMany.

Definition entries (label : pystr) (s : Series) : list cell :=
  map snd (filter (fun p => str_eqb (fst p) label) s).

(** [row.get(label, default)] *)
Definition series_get (s : Series) (label : pystr) (default : cell) : pyobj :=
  match entries label s with
  | [] => ObjCell default
  | [c] => ObjCell c
  | _ => ObjMany
  end.

(** [row[label] = v]: every column of that label is overwritten, a new
    one is appended when there is none. *)
Definition series_set (label : pystr) (v : cell) (s : Series) : Series :=
  if str_in label (map fst s)
  then map (fun p => if str_eqb (fst p) label then (fst p, v) else p) s
  else s ++ [(label, v)].

(** [df[label] = v] for a scalar [v]. *)
Definition set_column (label : pystr) (v : cell) (df : DataFrame) : DataFrame :=
  {| index_name := index_name df;
     columns := if str_in label (columns df) then columns df
                else columns df ++ [label];
     rows := map (fun r => (fst r, series_set label v (snd r))) (rows df) |}.

(** Applying [f] to the values of one column. *)
Definition map_column (label : pystr) (f : cell -> cell) (df : DataFrame) : DataFrame :=
  {| index_name := index_name df;
     columns := columns df;
     rows := map (fun r =>
               (fst r, map (fun p => if str_eqb (fst p) label
                                     then (fst p, f (snd p)) else p) (snd r)))
             (rows df) |}.

Fixpoint number_from (k : Z) (l : list (cell * Series)) : list (cell * Series) :=
  match l with
  | [] => []
  | r :: l' => (CInt k, snd r) :: number_from (k + 1) l'
  end.

(** [df.reset_index()]: the index becomes the first column, named after
    the index, or "index" ("level_0" when "index" is taken); pandas
    refuses to insert a label that exists.  The new index counts from 0. *)
Definition reset_index (df : DataFrame) : exc DataFrame :=
  let name :=
    match index_name df with
    | Some n => n
    | None => if str_in (py "index") (columns df) then py "level_0" else py "index"
    end in
  if str_in name (columns df) then Raise ValueError
  else Ok {| index_name := None;
             columns := name :: columns df;
             rows := number_from 0
                       (map (fun r => (fst r, (name, fst r) :: snd r)) (rows df)) |}.

Fixpoint lookup_label (k : pystr) (m : list (pystr * pystr)) : option pystr :=
  match m with
  | [] => None
  | (k', v) :: m' => if str_eqb k k' then Some v else lookup_label k m'
  end.

Definition rename_label (m : list (pystr * pystr)) (c : pystr) : pystr :=
  match lookup_label c m with Some v => v | None => c end.

(** [df.rename(columns=m)] *)
Definition rename (m : list (pystr * pystr)) (df : DataFrame) : DataFrame :=
  {| index_name := index_name df;
     columns := map (rename_label m) (columns df);
     rows := map (fun r => (fst r, map (fun p => (rename_label m (fst p), snd p)) (snd r)))
                 (rows df) |}.

(** [df.dropna(subset=[label])] for a label that occurs once. *)
Definition dropna (label : pystr) (df : DataFrame) : DataFrame :=
  {| index_name := index_name df;
     columns := columns df;
     rows := filter (fun r => negb (existsb is_missing (entries label (snd r))))
                    (rows df) |}.

(** How often a label occurs among the columns. *)
Definition count_label (label : pystr) (df : DataFrame) : nat :=
  length (filter (str_eqb label) (columns df)).

End Pandas.
Export Pandas.

(* ===================================================================== *)
(** ** stock.py: configuration, side effects, symbol parsing *)
(* ===================================================================== *)

Module AShare.

(** Column labels and constants of the source, decoded once. *)
Definition c_date : pystr := Eval vm_compute in py "date".
Definition c_index : pystr := Eval vm_compute in py "index".
Definition c_open : pystr := Eval vm_compute in py "open".
Definition c_close : pystr := Eval vm_compute in py "close".
Definition c_high : pystr := Eval vm_compute in py "high".
Definition c_low : pystr := Eval vm_compute in py "low".
Definition c_volume : pystr := Eval vm_compute in py "volume".
Definition c_amount : pystr := Eval vm_compute in py "amount".
Definition c_amplitude : pystr := Eval vm_compute in py "amplitude".
Definition c_change_percent : pystr := Eval vm_compute in py "change_percent".
Definition c_change : pystr := Eval vm_compute in py "change".
Definition c_turnover : pystr := Eval vm_compute in py "turnover".
Definition c_symbol : pystr := Eval vm_compute in py "symbol".
Definition c_period : pystr := Eval vm_compute in py "period".
Definition c_adjust : pystr := Eval vm_compute in py "adjust".
Definition s_None : pystr := Eval vm_compute in py "None".
Definition s_empty : pystr := [].
Definition s_daily : pystr := Eval vm_compute in py "daily".
Definition s_qfq : pystr := Eval vm_compute in py "qfq".
Definition s_hfq : pystr := Eval vm_compute in py "hfq".
Definition s_1990_01_01 : pystr := Eval vm_compute in py "1990-01-01".
Definition c_riqi : pystr := Eval vm_compute in py "日期".
Definition c_trade_date : pystr := Eval vm_compute in py "trade_date".

(** [REQUEST_CONFIG]; the sidebar of [main] overwrites its entries, so the
    functions below take the current value as an argument. *)
Record request_config := mkconfig {
  min_delay : Z;
  max_delay : Z;
  max_retries : Z;
  timeout : Z
}.

Definition REQUEST_CONFIG : request_config :=
  {| min_delay := 3; max_delay := 5; max_retries := 3; timeout := 30 |}.

(** [x or y] for an optional number: [None] and [0] are falsy. *)
Definition py_or (x : option Z) (y : Z) : Z :=
  match x with
  | Some v => if v =? 0 then y else v
  | None => y
  end.

Inductive st_level := StInfo | StWarning | StError | StSuccess.

(** What the program does to the outside world, in order. *)
Inductive event :=
| EvDelay (lo hi : Z)         (* time.sleep(random.uniform(lo, hi)) *)
| EvFetch (symbol period start_date end_date adjust : pystr)
                              (* ak.stock_zh_a_hist(...) *)
| EvSleep (seconds : Z)       (* time.sleep(seconds) *)
| EvSt (l : st_level).        (* st.info, st.warning, st.error, st.success *)

Abbreviation trace := (list event).

(** The vendor library: what the call just recorded at the end of the
    trace produces, an exception, [None] or a frame. *)
Definition vendor := trace -> exc (option DataFrame).

Definition is_fetch (e : event) : bool :=
  match e with EvFetch _ _ _ _ _ => true | _ => false end.

Definition is_sleep (e : event) : bool :=
  match e with EvSleep _ => true | _ => false end.

(** The calls to the vendor in a trace. *)
Definition fetches (tr : trace) : list event := filter is_fetch tr.

Definition add_random_delay (cfg : request_config)
    (min_seconds max_seconds : option Z) (tr : trace) : trace :=
  let min_sec := py_or min_seconds (min_delay cfg) in
  let max_sec := py_or max_seconds (max_delay cfg) in
  tr ++ [EvDelay min_sec max_sec].

(** [process_symbols]: the separators are U+FF0C, ';' and ' '. *)
Definition process_symbols (symbols_str : pystr) : list pystr :=
  let symbols := replace 32 44 (replace 59 44 (replace 65292 44 symbols_str)) in
  let symbols := map strip (filter (fun s => truthy (strip s)) (split 44 symbols)) in
  list_set symbols.

(* ------------------------------------------------------------------- *)
(** *** [process_stock_data] *)

Definition column_mapping : list (pystr * pystr) := Eval vm_compute in
  [ (py "日期", py "date"); (py "trade_date", py "date"); (py "index", py "date");
    (py "开盘", py "open"); (py "收盘", py "close"); (py "最高", py "high");
    (py "最低", py "low"); (py "成交量", py "volume"); (py "成交额", py "amount");
    (py "振幅", py "amplitude"); (py "涨跌幅", py "change_percent");
    (py "涨跌额", py "change"); (py "换手率", py "turnover") ].

Definition required_columns : list pystr :=
  [c_date; c_open; c_close; c_high; c_low; c_volume].

(** What [pd.to_datetime(column, errors='coerce')] returns for a column
    of values.  pandas settles the format on the column as a whole, so
    what a value becomes depends on the values around it. *)
Inductive converted :=
| Datetimes (at_row : nat -> option (date * pystr))
      (* a datetime64 column: at each position a Timestamp, given by its
         day and clock, or NaT *)
| Objects
      (* a column of object dtype, as for values of several UTC offsets:
         it has no [.dt] *)
| Refused (type_error : bool).
      (* the conversion raises: a TypeError, or else a ValueError; it
         makes no request, so what it raises is no request error *)

(** pandas' conversion itself is not part of the repository: it is a
    function of the column. *)
Abbreviation converter := (list cell -> converted).

(** The column [df["date"]] when the label occurs once. *)
Definition date_column (df : DataFrame) : list cell :=
  map (fun r => match entries c_date (snd r) with
                | c :: _ => c
                | [] => CMissing
                end) (rows df).

Fixpoint set_dates (at_row : nat -> option (date * pystr)) (i : nat)
    (l : list (cell * Series)) : list (cell * Series) :=
  match l with
  | [] => []
  | r :: l' =>
      let v := match at_row i with
               | Some (d, clock) => CTime d clock
               | None => CMissing
               end in
      (fst r, map (fun p => if str_eqb (fst p) c_date then (fst p, v) else p)
                  (snd r))
        :: set_dates at_row (S i) l'
  end.

(** [df["date"] = pd.to_datetime(df["date"], errors='coerce')].  With a
    repeated label [df["date"]] is a frame, which [pd.to_datetime] rejects
    with a ValueError.  When the result is of object dtype the assignment
    and the [dropna] go through and [df["date"].dt] raises AttributeError
    two lines later; nothing else happens in between, so the error is
    raised here. *)
Definition convert_dates (to_datetime : converter) (df : DataFrame)
    : exc DataFrame :=
  match count_label c_date df with
  | 1%nat =>
      match to_datetime (date_column df) with
      | Datetimes at_row =>
          Ok {| index_name := index_name df;
                columns := columns df;
                rows := set_dates at_row 0 (rows df) |}
      | Objects => Raise AttributeError
      | Refused type_error => Raise (if type_error then TypeError else ValueError)
      end
  | _ => Raise ValueError
  end.

(** [df["date"] = df["date"].dt.strftime("%Y-%m-%d")] *)
Definition format_dates (df : DataFrame) : DataFrame :=
  map_column c_date
    (fun c => match c with CTime d _ => CStr (strftime d) | _ => c end) df.

Definition process_stock_data (to_datetime : converter)
    (df : DataFrame) (symbol period adjust : pystr) : exc DataFrame :=
  df ← (if negb (str_in c_date (columns df)) then reset_index df else Ok df);
  let df :=
    rename (filter (fun kv => str_in (fst kv) (columns df)) column_mapping) df in
  df ← (if str_in c_date (columns df)
        then df ← convert_dates to_datetime df;
             Ok (format_dates (dropna c_date df))
        else Ok df);
  let df := set_column c_symbol (CStr symbol) df in
  let df := set_column c_period (CStr period) df in
  let df := set_column c_adjust
              (CStr (if negb (str_eqb adjust s_empty) then adjust else s_None)) df in
  let df := fold_left
              (fun df col => if negb (str_in col (columns df))
                             then set_column col CMissing df else df)
              required_columns df in
  Ok df.

(* ------------------------------------------------------------------- *)
(** *** [safe_fetch_stock_data] and [fetch_multiple_stocks] *)

Section Fetch.

Variable cfg : request_config.
Variable ak_stock_zh_a_hist : vendor.
Variable to_datetime : converter.

(** The body of [for attempt in range(max_retries)]; [remaining] counts
    the iterations left.  Running out of iterations ends the function
    without a [return], that is with [None]. *)
Fixpoint retry_loop (symbol start_date end_date period adjust : pystr)
    (max_retries : Z) (remaining : nat) (attempt : Z) (tr : trace)
    : exc (option DataFrame) * trace :=
  match remaining with
  | O => (Ok None, tr)
  | S remaining' =>
      let tr := add_random_delay cfg None None tr in
      let adjust_param :=
        if negb (str_eqb adjust s_None) then adjust else s_empty in
      let tr := tr ++ [EvFetch symbol period start_date end_date adjust_param] in
      let body : exc (option DataFrame) :=
        df ← ak_stock_zh_a_hist tr;
        match df with
        | None => Ok None
        | Some df =>
            if empty df then Ok None
            else r ← process_stock_data to_datetime df symbol period adjust;
                 Ok (Some r)
        end in
      match body with
      | Ok r => (Ok r, tr)
      | Raise e =>
          if is_request_exception e then
            if attempt <? max_retries - 1 then
              let wait_time := 2 ^ (attempt + 1) in
              retry_loop symbol start_date end_date period adjust max_retries
                remaining' (attempt + 1)
                (tr ++ [EvSt StWarning; EvSleep wait_time])
            else (Ok None, tr ++ [EvSt StError])
          else (Ok None, tr ++ [EvSt StError])
      end
  end.

Definition safe_fetch_stock_data (symbol start_date end_date period adjust : pystr)
    (max_retries : option Z) (tr : trace) : exc (option DataFrame) * trace :=
  let max_retries := py_or max_retries (AShare.max_retries cfg) in
  retry_loop symbol start_date end_date period adjust max_retries
    (Z.to_nat max_retries) 0 tr.

(** The loop of [fetch_multiple_stocks] over [enumerate(symbols)];
    [total] is [len(symbols)].  Progress bar and status text are
    display only and left out. *)
Fixpoint fetch_loop (start_date end_date period adjust : pystr)
    (total : Z) (i : Z) (symbols : list pystr) (results : list DataFrame)
    (tr : trace) : exc (list DataFrame) * trace :=
  match symbols with
  | [] => (Ok results, tr)
  | symbol :: rest =>
      match safe_fetch_stock_data symbol start_date end_date period adjust None tr with
      | (Raise e, tr) => (Raise e, tr)
      | (Ok df, tr) =>
          let results :=
            match df with
            | Some d => if negb (empty d) then results ++ [d] else results
            | None => results
            end in
          let tr := if i <? total - 1
                    then add_random_delay cfg (Some 2) (Some 4) tr else tr in
          fetch_loop start_date end_date period adjust total (i + 1) rest results tr
      end
  end.

Definition fetch_multiple_stocks (symbols_str start_date end_date period adjust : pystr)
    (tr : trace) : exc (list DataFrame) * trace :=
  let symbols := process_symbols symbols_str in
  match symbols with
  | [] => (Ok [], tr ++ [EvSt StError])
  | _ =>
      fetch_loop start_date end_date period adjust
        (Z.of_nat (length symbols)) 0 symbols [] tr
  end.

End Fetch.

(* ------------------------------------------------------------------- *)
(** *** The table [stock_zh_a_hist] *)

(** A stored row.  [r_values] holds open, close, high, low, volume,
    amount, amplitude, change_percent, change and turnover.  Values are
    kept as they were bound; the program binds text or NULL to the four
    key columns, and column affinity leaves those as they are. *)
Record hist_row := mkrow {
  r_id : Z;
  r_symbol : cell;
  r_date : cell;
  r_values : list cell;
  r_period : cell;
  r_adjust : cell;
  r_create_time : Z
}.

(** The table and its AUTOINCREMENT counter. *)
Record table := mktable {
  t_rows : list hist_row;
  t_seq : Z
}.

(** The database file: [None] while the table has not been created. *)
Definition database := option table.

(** [init_db]: CREATE TABLE IF NOT EXISTS (the indexes hold no data). *)
Definition init_db (db : database) : database :=
  match db with
  | None => Some (mktable [] 0)
  | Some t => Some t
  end.

(** A connection: what is on disk, what the open transaction sees, and
    [conn.total_changes]. *)
Record connection := mkconn {
  committed : database;
  working : database;
  total_changes : Z
}.

Definition get_db_connection (db : database) : connection :=
  mkconn db db 0.

Definition rollback (c : connection) : connection :=
  mkconn (committed c) (committed c) (total_changes c).

Definition commit (c : connection) : connection :=
  mkconn (working c) (working c) (total_changes c).

(** [conn.close()]: what stays on disk. *)
Definition close (c : connection) : database := committed c.

(** One tuple of [data_to_insert]. *)
Record params := mkparams {
  q_symbol : pyobj;
  q_date : pyobj;
  q_values : list pyobj;
  q_period : pyobj;
  q_adjust : pyobj
}.

Definition value_columns : list pystr :=
  [c_open; c_close; c_high; c_low; c_volume; c_amount; c_amplitude;
   c_change_percent; c_change; c_turnover].

Definition data_row (row : Series) : params :=
  {| q_symbol := series_get row c_symbol CMissing;
     q_date := series_get row c_date CMissing;
     q_values := map (fun c => series_get row c CMissing) value_columns;
     q_period := series_get row c_period (CStr s_daily);
     q_adjust := series_get row c_adjust (CStr s_qfq) |}.

(** Binding one parameter: sqlite3 takes None, numbers and strings (a
    missing value is bound as NULL) and, by its default adapter, a
    [datetime.date], bound as its ISO text; it rejects a sub-series and a
    Timestamp. *)
Definition bind_value (o : pyobj) : option cell :=
  match o with
  | ObjCell (CTime _ _) => None
  | ObjCell (CDate d) => Some (CStr (isoformat d))
  | ObjCell c => Some c
  | ObjMany => None
  end.

Fixpoint bind_all (l : list pyobj) : option (list cell) :=
  match l with
  | [] => Some []
  | o :: l' =>
      match bind_value o, bind_all l' with
      | Some c, Some cs => Some (c :: cs)
      | _, _ => None
      end
  end.

(** SQL equality: NULL equals nothing. *)
Definition sql_eq (a b : cell) : bool :=
  negb (is_missing a) && negb (is_missing b) && cell_eqb a b.

(** UNIQUE(symbol, date, period, adjust) *)
Definition same_key (sym dat per adj : cell) (r : hist_row) : bool :=
  sql_eq (r_symbol r) sym && sql_eq (r_date r) dat
  && sql_eq (r_period r) per && sql_eq (r_adjust r) adj.

(** INSERT OR IGNORE of one row at time [now].  The row is skipped when
    symbol or date is NULL (NOT NULL) or when its key is stored already;
    the AUTOINCREMENT counter advances either way. *)
Definition insert_or_ignore (now : Z) (t : table)
    (sym dat : cell) (vals : list cell) (per adj : cell) : table * bool :=
  let id := t_seq t + 1 in
  if is_missing sym || is_missing dat then (mktable (t_rows t) id, false)
  else if existsb (same_key sym dat per adj) (t_rows t)
  then (mktable (t_rows t) id, false)
  else (mktable (t_rows t ++ [mkrow id sym dat vals per adj now]) id, true).

(** The rows of [executemany], one after the other; a value that cannot
    be bound stops it with the rows before it already inserted. *)
Fixpoint insert_rows (now : Z) (data : list params) (t : table) (changes : Z)
    : option exn * table * Z :=
  match data with
  | [] => (None, t, changes)
  | p :: rest =>
      match bind_value (q_symbol p), bind_value (q_date p), bind_all (q_values p),
            bind_value (q_period p), bind_value (q_adjust p) with
      | Some sym, Some dat, Some vals, Some per, Some adj =>
          let '(t', changed) := insert_or_ignore now t sym dat vals per adj in
          insert_rows now rest t' (if changed then changes + 1 else changes)
      | _, _, _, _, _ => (Some ProgrammingError, t, changes)
      end
  end.

(** [conn.executemany('INSERT OR IGNORE ...', data)] *)
Definition executemany (now : Z) (data : list params) (c : connection)
    : exc unit * connection :=
  match working c with
  | None => (Raise OperationalError, c)
  | Some t =>
      let '(err, t', changes) := insert_rows now data t (total_changes c) in
      let c' := mkconn (committed c) (Some t') changes in
      match err with
      | None => (Ok tt, c')
      | Some e => (Raise e, c')
      end
  end.

(** The loop of [save_stocks_to_db] over [df_list]. *)
Fixpoint save_loop (now : Z) (df_list : list DataFrame) (conn : connection)
    (total_inserted : Z) : exc Z * connection :=
  match df_list with
  | [] => (Ok total_inserted, conn)
  | df :: rest =>
      if empty df then save_loop now rest conn total_inserted
      else if negb (str_in c_symbol (columns df)) then (Raise KeyError, conn)
      else
        let data_to_insert := map (fun r => data_row (snd r)) (rows df) in
        match executemany now data_to_insert conn with
        | (Ok _, conn) =>
            let inserted := total_changes conn in
            save_loop now rest conn (total_inserted + inserted)
        | (Raise _, conn) =>
            save_loop now rest (rollback conn) total_inserted
        end
  end.

(** [save_stocks_to_db], called at time [now]: the returned count and the
    database it leaves. *)
Definition save_stocks_to_db (now : Z) (df_list : list DataFrame) (db : database)
    : exc Z * database :=
  match df_list with
  | [] => (Ok 0, db)
  | _ =>
      let conn := get_db_connection db in
      match save_loop now df_list conn 0 with
      | (Ok total_inserted, conn) => (Ok total_inserted, close (commit conn))
      | (Raise e, conn) => (Raise e, close conn)
      end
  end.

(* ------------------------------------------------------------------- *)
(** *** [update_stock_data] *)

(** WHERE symbol=? AND period=? AND adjust=? with text parameters. *)
Definition matches_triple (symbol period adjust : pystr) (r : hist_row) : bool :=
  sql_eq (r_symbol r) (CStr symbol) && sql_eq (r_period r) (CStr period)
  && sql_eq (r_adjust r) (CStr adjust).

Definition str_max (a b : pystr) : pystr := if str_ltb a b then b else a.

(** MAX over the text dates of the given rows; [None] is NULL. *)
Fixpoint max_text_date (l : list hist_row) : option pystr :=
  match l with
  | [] => None
  | r :: l' =>
      match r_date r, max_text_date l' with
      | CStr d, Some m => Some (str_max d m)
      | CStr d, None => Some d
      | _, m => m
      end
  end.

(** SELECT MAX(date) ... WHERE symbol=? AND period=? AND adjust=? *)
Definition select_max_date (db : database) (symbol period adjust : pystr)
    : exc (option pystr) :=
  match db with
  | None => Raise OperationalError
  | Some t => Ok (max_text_date (filter (matches_triple symbol period adjust) (t_rows t)))
  end.

(** The start of the window computed from [result["max_date"]]. *)
Definition start_date_of (max_date : option pystr) : exc pystr :=
  match max_date with
  | Some last_date =>
      if truthy last_date then
        match strptime last_date with
        | None => Raise ValueError
        | Some d =>
            match add_one_day d with
            | None => Raise OverflowError
            | Some d' => Ok (strftime d')
            end
        end
      else Ok s_1990_01_01
  | None => Ok s_1990_01_01
  end.

(** [update_stock_data]; [today] is [datetime.now()]. *)
Definition update_stock_data (cfg : request_config) (ak_stock_zh_a_hist : vendor)
    (to_datetime : converter) (today : date)
    (symbol period adjust : pystr) (db : database) (tr : trace)
    : exc (option DataFrame) * trace :=
  match select_max_date db symbol period
          (if negb (str_eqb adjust s_None) then adjust else s_empty) with
  | Raise e => (Raise e, tr)
  | Ok max_date =>
      match start_date_of max_date with
      | Raise e => (Raise e, tr)
      | Ok start_date =>
          let end_date := strftime today in
          if str_gtb start_date end_date then (Ok None, tr ++ [EvSt StInfo])
          else safe_fetch_stock_data cfg ak_stock_zh_a_hist to_datetime
                 symbol start_date end_date period adjust None (tr ++ [EvSt StInfo])
      end
  end.

(* ------------------------------------------------------------------- *)
(** *** [query_stocks_data] *)

(** SQLite orders storage classes: NULL, then numbers, then text; text
    is compared code point by code point.  Only text is ordered further
    here: the program stores no other symbol or date. *)
Definition cell_rank (c : cell) : Z :=
  match c with
  | CMissing => 0
  | CInt _ | CFloat _ => 1
  | CStr _ | CTime _ _ | CDate _ => 2
  end.

Definition cell_leb (a b : cell) : bool :=
  match a, b with
  | CStr x, CStr y => str_leb x y
  | _, _ => cell_rank a <=? cell_rank b
  end.

Definition cell_ltb (a b : cell) : bool := negb (cell_leb b a).

(** White space as SQLite's numeric conversion skips it. *)
Definition sql_space (c : Z) : bool := (c =? 32) || ((9 <=? c) && (c <=? 13)).

Fixpoint skip_spaces (s : pystr) : pystr :=
  match s with
  | [] => []
  | c :: s' => if sql_space c then skip_spaces s' else s
  end.

(** The ASCII digits at the head of [s]: how many, and what follows. *)
Fixpoint skip_digits (s : pystr) : nat * pystr :=
  match s with
  | [] => (O, [])
  | c :: s' =>
      if (48 <=? c) && (c <=? 57)
      then let '(n, r) := skip_digits s' in (S n, r)
      else (O, s)
  end.

Definition skip_sign (s : pystr) : pystr :=
  match s with
  | c :: s' => if (c =? 43) || (c =? 45) then s' else s
  | [] => []
  end.

(** Whether a text is a numeral for SQLite: white space, a sign, digits
    with at most one point and at least one digit, an exponent with at
    least one digit, white space, and nothing else. *)
Definition looks_numeric (s : pystr) : bool :=
  let s := skip_sign (skip_spaces s) in
  let '(n1, s) := skip_digits s in
  let '(n2, s) :=
    match s with
    | c :: s' => if c =? 46 then skip_digits s' else (O, s)
    | [] => (O, [])
    end in
  if (n1 + n2 =? 0)%nat then false
  else
    let rest :=
      match s with
      | c :: s' =>
          if (c =? 101) || (c =? 69) then
            let '(n3, r) := skip_digits (skip_sign s') in
            if (n3 =? 0)%nat then None else Some r
          else Some s
      | [] => Some []
      end in
    match rest with
    | Some r => match skip_spaces r with [] => true | _ => false end
    | None => false
    end.

(** [date >= ?] and [date <= ?] with a text parameter.  A comparison with
    NULL selects nothing.  The column is declared DATE, which gives it
    NUMERIC affinity: a parameter that is a numeral is compared as a
    number, below every text; numbers are not ordered further here. *)
Definition sql_ge (a : cell) (s : pystr) : bool :=
  negb (is_missing a)
  && (if looks_numeric s then 1 <=? cell_rank a else cell_leb (CStr s) a).
Definition sql_le (a : cell) (s : pystr) : bool :=
  negb (is_missing a)
  && (if looks_numeric s then cell_rank a <=? 1 else cell_leb a (CStr s)).

(** ORDER BY symbol, date ASC *)
Definition order_leb (a b : hist_row) : bool :=
  cell_ltb (r_symbol a) (r_symbol b)
  || (cell_leb (r_symbol a) (r_symbol b) && cell_leb (r_date a) (r_date b)).

Fixpoint insert_sorted (r : hist_row) (l : list hist_row) : list hist_row :=
  match l with
  | [] => [r]
  | x :: l' => if order_leb r x then r :: l else x :: insert_sorted r l'
  end.

Definition order_by (l : list hist_row) : list hist_row :=
  fold_right insert_sorted [] l.

(** The WHERE clause [query_stocks_data] assembles. *)
Definition selected (symbols : list pystr) (period adjust : pystr)
    (start_date end_date : option pystr) (r : hist_row) : bool :=
  existsb (fun s => sql_eq (r_symbol r) (CStr s)) symbols
  && sql_eq (r_period r) (CStr period)
  && sql_eq (r_adjust r) (CStr adjust)
  && match start_date with
     | Some s => if truthy s then sql_ge (r_date r) s else true
     | None => true
     end
  && match end_date with
     | Some e => if truthy e then sql_le (r_date r) e else true
     | None => true
     end.

(** [pd.read_sql(query, conn, params)]: the selected rows in order, or
    the error of a missing table. *)
Definition read_sql (db : database) (symbols : list pystr) (period adjust : pystr)
    (start_date end_date : option pystr) : exc (list hist_row) :=
  match db with
  | None => Raise OperationalError
  | Some t =>
      Ok (order_by (filter (selected symbols period adjust start_date end_date)
                           (t_rows t)))
  end.

(** What [db_path] names when [sqlite3.connect] is called: a database
    file (one that does not exist yet is created, without tables), or a
    path that cannot be opened, as one in a missing directory. *)
Inductive db_file :=
| DbFile (db : database)
| NoFile.

(** [get_db_connection(db_path)] on such a path. *)
Definition connect (f : db_file) : exc connection :=
  match f with
  | DbFile db => Ok (get_db_connection db)
  | NoFile => Raise OperationalError
  end.

(** [query_stocks_data]; the frame is given by its records, and the empty
    frame [pd.DataFrame()] by the empty list.  The connection is opened
    before the [try]. *)
Definition query_stocks_data (symbols_str : pystr) (start_date end_date : option pystr)
    (period adjust : pystr) (f : db_file) : exc (list hist_row) :=
  let symbols := process_symbols symbols_str in
  match symbols with
  | [] => Ok []
  | _ =>
      conn ← connect f;
      match read_sql (working conn) symbols period
              (if negb (str_eqb adjust s_None) then adjust else s_empty)
              start_date end_date with
      | Ok df => Ok df
      | Raise _ => Ok []
      end
  end.

(* ------------------------------------------------------------------- *)
(** *** [update_multiple_stocks] *)

(** The loop of [update_multiple_stocks] over [enumerate(symbols)];
    [total] is [len(symbols)] and [today i] what [datetime.now()] gives
    during the call for the symbol at position [i].  The database is only
    read.  The progress bar is display only and left out. *)
Fixpoint update_loop (cfg : request_config) (ak_stock_zh_a_hist : vendor)
    (to_datetime : converter) (today : Z -> date)
    (period adjust : pystr) (db : database)
    (total : Z) (i : Z) (symbols : list pystr) (results : list DataFrame)
    (tr : trace) : exc (list DataFrame) * trace :=
  match symbols with
  | [] => (Ok results, tr)
  | symbol :: rest =>
      match update_stock_data cfg ak_stock_zh_a_hist to_datetime (today i)
              symbol period adjust db tr with
      | (Raise e, tr) => (Raise e, tr)
      | (Ok df, tr) =>
          let results :=
            match df with
            | Some d => if negb (empty d) then results ++ [d] else results
            | None => results
            end in
          let tr := if i <? total - 1
                    then add_random_delay cfg (Some 2) (Some 4) tr else tr in
          update_loop cfg ak_stock_zh_a_hist to_datetime today period adjust db
            total (i + 1) rest results tr
      end
  end.

Definition update_multiple_stocks (cfg : request_config) (ak_stock_zh_a_hist : vendor)
    (to_datetime : converter) (today : Z -> date)
    (symbols_str period adjust : pystr) (db : database) (tr : trace)
    : exc (list DataFrame) * trace :=
  let symbols := process_symbols symbols_str in
  match symbols with
  | [] => (Ok [], tr)
  | _ =>
      update_loop cfg ak_stock_zh_a_hist to_datetime today period adjust db
        (Z.of_nat (length symbols)) 0 symbols [] tr
  end.

End AShare.
Export AShare.

(* ===================================================================== *)
(** ** US_stock.py: [DataManager] *)
(* ===================================================================== *)

Module USStock.

Definition u_Date : pystr := Eval vm_compute in py "Date".
Definition u_Datetime : pystr := Eval vm_compute in py "Datetime".
Definition u_date : pystr := Eval vm_compute in py "date".
Definition u_symbol : pystr := Eval vm_compute in py "symbol".
Definition u_Symbol : pystr := Eval vm_compute in py "Symbol".

(** The columns of [ticker.history()]. *)
Definition yf_columns : list pystr := Eval vm_compute in
  [ py "Open"; py "High"; py "Low"; py "Close"; py "Volume";
    py "Dividends"; py "Stock Splits" ].

(** [fetch_stock_data] adds the symbol to the history it received:
    [data['Symbol'] = symbol]. *)
Definition fetched_frame (symbol : pystr) (history : DataFrame) : DataFrame :=
  set_column u_Symbol (CStr symbol) history.

Definition rename_map : list (pystr * pystr) := Eval vm_compute in
  [ (py "Open", py "open"); (py "High", py "high"); (py "Low", py "low");
    (py "Close", py "close"); (py "Volume", py "volume");
    (py "Dividends", py "dividends"); (py "Stock Splits", py "stock_splits") ].

Definition db_columns : list pystr := Eval vm_compute in
  [ py "symbol"; py "date"; py "open"; py "high"; py "low"; py "close";
    py "volume"; py "dividends"; py "stock_splits" ].

(** The measurement columns of the table [stocks], in table order. *)
Definition price_columns : list pystr := Eval vm_compute in
  [ py "open"; py "high"; py "low"; py "close"; py "volume";
    py "dividends"; py "stock_splits" ].

(** The names SQLite takes for the rowid of [stocks], which its column
    [id INTEGER PRIMARY KEY AUTOINCREMENT] is. *)
Definition rowid_names : list pystr := Eval vm_compute in
  [ py "id"; py "rowid"; py "oid"; py "_rowid_" ].

(** A row of [stocks]; [s_prices] follows [price_columns].  Values are
    kept as they were bound. *)
Record stock_row := mkstock {
  s_id : Z;
  s_symbol : cell;
  s_date : cell;
  s_prices : list cell
}.

(** The table and its AUTOINCREMENT counter, taken to stay below the
    largest rowid. *)
Record stocks_table := mkstocks {
  st_rows : list stock_row;
  st_seq : Z
}.

(** [init_database] runs in the constructor and leaves an existing table
    alone; a new one is empty. *)
Definition init_database (t : option stocks_table) : stocks_table :=
  match t with
  | None => mkstocks [] 0
  | Some t => t
  end.

(** The value an INSERT takes for a table column: SQLite resolves the
    listed names without regard to case and, when several resolve to the
    same column, reads the first; a column that is not listed is NULL. *)
Definition column_value (tc : pystr) (row : Series) : cell :=
  match filter (fun p => str_eqb (lower (fst p)) tc) row with
  | p :: _ => snd p
  | [] => CMissing
  end.

(** What is bound for a value of the frame: pandas hands a Timestamp
    over as a [datetime], which goes in as the text of [isoformat(' ')],
    and a date as its ISO text. *)
Definition sql_value (c : cell) : cell :=
  match c with
  | CTime d clock => CStr (isoformat d ++ clock)
  | CDate d => CStr (isoformat d)
  | _ => c
  end.

(** The value an INSERT takes for the rowid: of the listed names that
    resolve to it, SQLite reads the last; NULL when none is listed. *)
Definition rowid_cell (row : Series) : cell :=
  match rev (filter (fun p => str_in (lower (fst p)) rowid_names) row) with
  | p :: _ => sql_value (snd p)
  | [] => CMissing
  end.

(** UNIQUE(symbol, date), on the stored values. *)
Definition same_stock_key (sym dat : cell) (r : stock_row) : bool :=
  sql_eq (s_symbol r) sym && sql_eq (s_date r) dat.

Section Insert.

(** The integer SQLite makes of a float or a text given for the rowid,
    [None] when there is none (a datatype mismatch): the arithmetic is
    SQLite's own. *)
Variable as_integer : cell -> option Z.

(** The rowid asked for; [None] leaves the choice to AUTOINCREMENT.  An
    integer outside 64 bits cannot be bound. *)
Definition rowid_of (c : cell) : exc (option Z) :=
  match c with
  | CMissing => Ok None
  | CInt n =>
      if (- 2 ^ 63 <=? n) && (n <? 2 ^ 63) then Ok (Some n)
      else Raise OverflowError
  | _ =>
      match as_integer c with
      | Some n => Ok (Some n)
      | None => Raise IntegrityError
      end
  end.

(** A plain INSERT of one row: a NULL symbol or date, a rowid that is
    taken and a stored key are constraint failures.  A rowid that is
    given raises the counter to it. *)
Definition insert_stock (t : stocks_table) (row : Series) : exc stocks_table :=
  let sym := sql_value (column_value u_symbol row) in
  let dat := sql_value (column_value u_date row) in
  given ← rowid_of (rowid_cell row);
  let id := match given with Some n => n | None => st_seq t + 1 end in
  if is_missing sym || is_missing dat then Raise IntegrityError
  else if match given with
          | Some n => existsb (fun r => s_id r =? n) (st_rows t)
          | None => false
          end
  then Raise IntegrityError
  else if existsb (same_stock_key sym dat) (st_rows t) then Raise IntegrityError
  else Ok (mkstocks
             (st_rows t ++ [mkstock id sym dat
                              (map (fun tc => sql_value (column_value tc row))
                                   price_columns)])
             (Z.max (st_seq t) id)).

Fixpoint insert_stocks (t : stocks_table) (l : list Series) : exc stocks_table :=
  match l with
  | [] => Ok t
  | row :: l' => t' ← insert_stock t row; insert_stocks t' l'
  end.

(** [data.to_sql('stocks', conn, if_exists='append', index=False, ...)]
    on the existing table.  For a frame without rows pandas issues no
    statement.  Otherwise every column of the frame is listed in the
    INSERT, so each has to resolve to a column of the table or to its
    rowid; the rows go in within one transaction. *)
Definition to_sql (data : DataFrame) (t : stocks_table) : exc stocks_table :=
  match rows data with
  | [] => Ok t
  | _ =>
      if forallb (fun c => str_in (lower c) (db_columns ++ rowid_names))
                 (columns data)
      then insert_stocks t (map snd (rows data))
      else Raise OperationalError
  end.

(** [data['date'] = data[label].dt.date]: needs a single datetime
    column of that label. *)
Definition assign_date_from (label : pystr) (data : DataFrame) : exc DataFrame :=
  match count_label label data with
  | 1%nat =>
      if forallb (fun r => forallb (fun c => match c with
                                             | CTime _ _ | CMissing => true
                                             | _ => false
                                             end) (entries label (snd r)))
                 (rows data)
      then Ok {| index_name := index_name data;
                 columns := if str_in u_date (columns data) then columns data
                            else columns data ++ [u_date];
                 rows := map (fun r =>
                           (fst r,
                            series_set u_date
                              (match entries label (snd r) with
                               | CTime d _ :: _ => CDate d
                               | _ => CMissing
                               end) (snd r)))
                         (rows data) |}
      else Raise AttributeError
  | _ => Raise AttributeError
  end.

(** The body of the [try] of [save_stock_data].  The frame written is
    [data], not the selection [data_to_save], which is computed and not
    used. *)
Definition save_body (symbol : pystr) (data : DataFrame) (t : stocks_table)
    : exc stocks_table :=
  data ← reset_index data;
  data ← (if str_in u_Date (columns data) then assign_date_from u_Date data
          else if str_in u_Datetime (columns data)
               then assign_date_from u_Datetime data
               else Ok data);
  let data := set_column u_symbol (CStr symbol) data in
  let data := rename rename_map data in
  to_sql data t.

(** [save_stock_data]: the returned flag and the table afterwards. *)
Definition save_stock_data (symbol : pystr) (data : DataFrame) (t : stocks_table)
    : bool * stocks_table :=
  match save_body symbol data t with
  | Ok t' => (true, t')
  | Raise _ => (false, t)
  end.

End Insert.

(* ------------------------------------------------------------------- *)
(** *** The table [stock_info] and the other methods of [DataManager] *)

(** A row of [stock_info] (symbol TEXT PRIMARY KEY, name, sector,
    industry, market_cap, last_updated).  The values are kept as they
    were bound; [i_last_updated] is the day that was bound. *)
Record info_row := mkinfo {
  i_symbol : cell;
  i_name : cell;
  i_sector : cell;
  i_industry : cell;
  i_market_cap : cell;
  i_last_updated : date
}.

(** The database file of [DataManager], with the two tables that
    [init_database] creates. *)
Record manager_db := mkdb {
  db_stocks : stocks_table;
  db_info : list info_row
}.

(** The dict handed to [save_stock_info].  Its one caller puts a string
    under 'symbol' and a [datetime.date] under 'last_updated'; the other
    values are whatever yfinance reported, [ObjMany] standing for an
    object sqlite3 cannot bind. *)
Record stock_info := mkstockinfo {
  si_symbol : pystr;
  si_name : pyobj;
  si_sector : pyobj;
  si_industry : pyobj;
  si_market_cap : pyobj;
  si_last_updated : date
}.

(** WHERE symbol = ? with a string. *)
Definition info_of (symbol : pystr) (r : info_row) : bool :=
  sql_eq (i_symbol r) (CStr symbol).
Definition stock_of (symbol : pystr) (r : stock_row) : bool :=
  sql_eq (s_symbol r) (CStr symbol).

(** [save_stock_info]: INSERT OR REPLACE removes the row stored under
    the symbol and adds the new one; a value that cannot be bound is the
    exception that makes it return [False]. *)
Definition save_stock_info (info : stock_info) (db : manager_db) : bool * manager_db :=
  match bind_value (si_name info), bind_value (si_sector info),
        bind_value (si_industry info), bind_value (si_market_cap info) with
  | Some name, Some sector, Some industry, Some market_cap =>
      (true,
       mkdb (db_stocks db)
            (filter (fun r => negb (info_of (si_symbol info) r)) (db_info db)
             ++ [mkinfo (CStr (si_symbol info)) name sector industry market_cap
                        (si_last_updated info)]))
  | _, _, _, _ => (false, db)
  end.

(** [delete_stock_data]: DELETE FROM stocks WHERE symbol = ?, the same
    on [stock_info], and the commit.  The AUTOINCREMENT counter stays.
    Both tables exist since [init_database], so neither statement fails. *)
Definition delete_stock_data (symbol : pystr) (db : manager_db) : bool * manager_db :=
  (true,
   mkdb (mkstocks (filter (fun r => negb (stock_of symbol r)) (st_rows (db_stocks db)))
                  (st_seq (db_stocks db)))
        (filter (fun r => negb (info_of symbol r)) (db_info db))).

(** SELECT DISTINCT: each value once. *)
Fixpoint distinct_cells (l : list cell) : list cell :=
  match l with
  | [] => []
  | c :: l' => c :: filter (fun x => negb (cell_eqb c x)) (distinct_cells l')
  end.

(** ORDER BY on one column, ascending. *)
Fixpoint insert_cell (c : cell) (l : list cell) : list cell :=
  match l with
  | [] => [c]
  | x :: l' => if cell_leb c x then c :: l else x :: insert_cell c l'
  end.

Definition sort_cells (l : list cell) : list cell := fold_right insert_cell [] l.

(** [get_stored_symbols]: SELECT DISTINCT symbol FROM stocks ORDER BY
    symbol, as a list.  The table exists, so the query does not fail. *)
Definition get_stored_symbols (db : manager_db) : list cell :=
  sort_cells (distinct_cells (map s_symbol (st_rows (db_stocks db)))).

(** MIN and MAX over a column, by the order of the stored values ([cell_leb]);
    NULL is skipped, and is the result when nothing is left. *)
Fixpoint min_cell (l : list cell) : cell :=
  match l with
  | [] => CMissing
  | c :: l' =>
      if is_missing c then min_cell l'
      else match min_cell l' with
           | CMissing => c
           | m => if cell_leb c m then c else m
           end
  end.

Fixpoint max_cell (l : list cell) : cell :=
  match l with
  | [] => CMissing
  | c :: l' =>
      if is_missing c then max_cell l'
      else match max_cell l' with
           | CMissing => c
           | m => if cell_leb m c then c else m
           end
  end.

(** The dict [get_data_summary] returns. *)
Record summary := mksummary {
  stock_count : Z;
  record_count : Z;
  start_date : cell;
  end_date : cell
}.

(** [get_data_summary]: the count of distinct symbols (NULL is not
    counted), the count of rows, MIN(date) and MAX(date) over [stocks].
    The table exists, so the queries do not fail. *)
Definition get_data_summary (db : manager_db) : summary :=
  let l := st_rows (db_stocks db) in
  {| stock_count :=
       Z.of_nat (length (distinct_cells
                           (filter (fun c => negb (is_missing c)) (map s_symbol l))));
     record_count := Z.of_nat (length l);
     start_date := min_cell (map s_date l);
     end_date := max_cell (map s_date l) |}.

(** What [ticker.info] holds under the four keys that are read, [None]
    for a key that is absent. *)
Record ticker_info := mkticker_info {
  longName : option pyobj;
  sector : option pyobj;
  industry : option pyobj;
  marketCap : option pyobj
}.

(** [info.get(key, default)] *)
Definition info_get (v : option pyobj) (default : cell) : pyobj :=
  match v with
  | Some o => o
  | None => ObjCell default
  end.

(** A ticker of yfinance, by what its two requests produce: the frame of
    [history(start, end, interval)] and the dict of [info], or the
    exception raised instead. *)
Record ticker := mkticker {
  history : date -> date -> pystr -> exc DataFrame;
  info : exc ticker_info
}.

(** The [symbols] argument: a string to be split, or a list of symbols. *)
Inductive symbols_arg :=
| SymbolsStr (s : pystr)
| SymbolsList (l : list pystr).

(** [all_data[symbol] = data]: a key that is there keeps its place. *)
Fixpoint dict_set (k : pystr) (v : DataFrame) (d : list (pystr * DataFrame))
    : list (pystr * DataFrame) :=
  match d with
  | [] => [(k, v)]
  | (k', v') :: d' => if str_eqb k k' then (k, v) :: d' else (k', v') :: dict_set k v d'
  end.

Section FetchStockData.

(** [str.upper], the ticker [yf.Ticker(symbol)] of the iteration at the
    given position (or the exception it raises), and [datetime.now().date()]
    during that iteration. *)
Variable upper : pystr -> pystr.
Variable yf_Ticker : Z -> pystr -> exc ticker.
Variable today : Z -> date.

(** [[s.strip().upper() for s in symbols.split(',')]] for a string. *)
Definition parse_symbols (symbols : symbols_arg) : list pystr :=
  match symbols with
  | SymbolsStr s => map (fun s => upper (strip s)) (split 44 s)
  | SymbolsList l => l
  end.

(** The body of the loop for one symbol: the dict, the database and the
    messages shown so far, each message with the symbol it names. *)
Definition fetch_symbol (start_date end_date : date) (interval : pystr)
    (i : Z) (symbol : pystr)
    (all_data : list (pystr * DataFrame)) (db : manager_db)
    (shown : list (pystr * st_level))
    : list (pystr * DataFrame) * manager_db * list (pystr * st_level) :=
  match ticker ← yf_Ticker i symbol;
        data ← history ticker start_date end_date interval;
        Ok (ticker, data) with
  | Raise _ => (all_data, db, shown ++ [(symbol, StError)])
  | Ok (ticker, data) =>
      if negb (empty data) then
        let data := fetched_frame symbol data in
        let all_data := dict_set symbol data all_data in
        match info ticker with
        | Raise _ => (all_data, db, shown ++ [(symbol, StError)])
        | Ok info =>
            let stock_info :=
              {| si_symbol := symbol;
                 si_name := info_get (longName info) (CStr symbol);
                 si_sector := info_get (sector info) (CStr (py "Unknown"));
                 si_industry := info_get (industry info) (CStr (py "Unknown"));
                 si_market_cap := info_get (marketCap info) (CInt 0);
                 si_last_updated := today i |} in
            let db := snd (save_stock_info stock_info db) in
            (all_data, db, shown ++ [(symbol, StSuccess)])
        end
      else (all_data, db, shown ++ [(symbol, StWarning)])
  end.

Fixpoint fetch_symbols (start_date end_date : date) (interval : pystr)
    (i : Z) (symbols : list pystr)
    (all_data : list (pystr * DataFrame)) (db : manager_db)
    (shown : list (pystr * st_level))
    : list (pystr * DataFrame) * manager_db * list (pystr * st_level) :=
  match symbols with
  | [] => (all_data, db, shown)
  | symbol :: rest =>
      let '(all_data, db, shown) :=
        fetch_symbol start_date end_date interval i symbol all_data db shown in
      fetch_symbols start_date end_date interval (i + 1) rest all_data db shown
  end.

(** [fetch_stock_data]: the dict it returns, the database it leaves and
    the messages it shows. *)
Definition fetch_stock_data (symbols : symbols_arg) (start_date end_date : date)
    (interval : pystr) (db : manager_db)
    : list (pystr * DataFrame) * manager_db * list (pystr * st_level) :=
  fetch_symbols start_date end_date interval 0 (parse_symbols symbols) [] db [].

End FetchStockData.

End USStock.

(* ===================================================================== *)
(** ** Sample data used in the examples *)
(* ===================================================================== *)

Module Samples.

Definition d (y m dd : Z) : date := mkdate y m dd.

(** The clock of a Timestamp at midnight without a time zone, and at
    midnight in New York, in winter and in summer. *)
Definition midnight : pystr := Eval vm_compute in py " 00:00:00".
Definition midnight_est : pystr := Eval vm_compute in py " 00:00:00-05:00".
Definition midnight_edt : pystr := Eval vm_compute in py " 00:00:00-04:00".

(** A conversion in the manner of [pd.to_datetime]: timestamps, dates and
    "YYYY-MM-DD" texts inside the range of a Timestamp, each value on its
    own. *)
Definition sample_timestamp (c : cell) : option (date * pystr) :=
  match c with
  | CTime t clock =>
      if valid_date t && (1678 <=? year t) && (year t <=? 2261)
      then Some (t, clock) else None
  | CDate t =>
      if valid_date t && (1678 <=? year t) && (year t <=? 2261)
      then Some (t, midnight) else None
  | CStr s =>
      match strptime s with
      | Some t =>
          if (1678 <=? year t) && (year t <=? 2261) then Some (t, midnight)
          else None
      | None => None
      end
  | _ => None
  end.

Definition sample_to_datetime : converter :=
  fun col => Datetimes (fun i => sample_timestamp (nth i col CMissing)).

(** What [ak.stock_zh_a_hist] returns: Chinese labels, a plain index. *)
Definition vendor_frame : DataFrame := Eval vm_compute in
  {| index_name := None;
     columns := [py "日期"; py "开盘"; py "收盘"; py "最高"; py "最低"; py "成交量"];
     rows := [ (CInt 0, [ (py "日期", CStr (py "2024-01-02")); (py "开盘", CInt 10);
                          (py "收盘", CInt 11); (py "最高", CInt 12);
                          (py "最低", CInt 9); (py "成交量", CInt 1000) ]) ] |}.

(** The same data under the canonical labels. *)
Definition canonical_frame : DataFrame := Eval vm_compute in
  {| index_name := None;
     columns := [py "date"; py "open"; py "close"; py "high"; py "low"; py "volume"];
     rows := [ (CInt 0, [ (py "date", CStr (py "2024-01-02")); (py "open", CInt 10);
                          (py "close", CInt 11); (py "high", CInt 12);
                          (py "low", CInt 9); (py "volume", CInt 1000) ]);
               (CInt 1, [ (py "date", CStr (py "2024-01-03")); (py "open", CInt 11);
                          (py "close", CInt 12); (py "high", CInt 13);
                          (py "low", CInt 10); (py "volume", CInt 1500) ]) ] |}.

(** A frame whose dates are its index. *)
Definition indexed_frame : DataFrame := Eval vm_compute in
  {| index_name := None;
     columns := [py "open"; py "close"];
     rows := [ (CTime (d 2024 1 2) midnight,
                [ (py "open", CInt 10); (py "close", CInt 11) ]) ] |}.

(** What [yfinance] hands to [save_stock_data] for a daily interval. *)
Definition yf_frame : DataFrame := Eval vm_compute in
  {| index_name := Some (py "Date");
     columns := [py "Open"; py "High"; py "Low"; py "Close"; py "Volume";
                 py "Dividends"; py "Stock Splits"; py "Symbol"];
     rows := [ (CTime (d 2024 1 2) midnight_est,
                [ (py "Open", CInt 185); (py "High", CInt 188); (py "Low", CInt 183);
                  (py "Close", CInt 186); (py "Volume", CInt 5000);
                  (py "Dividends", CInt 0); (py "Stock Splits", CInt 0);
                  (py "Symbol", CStr (py "AAPL")) ]) ] |}.

(** The history behind [yf_frame], before the symbol is added. *)
Definition yf_history_frame : DataFrame := Eval vm_compute in
  {| index_name := Some (py "Date");
     columns := [py "Open"; py "High"; py "Low"; py "Close"; py "Volume";
                 py "Dividends"; py "Stock Splits"];
     rows := [ (CTime (d 2024 1 2) midnight_est,
                [ (py "Open", CInt 185); (py "High", CInt 188); (py "Low", CInt 183);
                  (py "Close", CInt 186); (py "Volume", CInt 5000);
                  (py "Dividends", CInt 0); (py "Stock Splits", CInt 0) ]) ] |}.

(** The same history at an intraday interval: yfinance names the index
    "Datetime". *)
Definition yf_intraday_frame : DataFrame := Eval vm_compute in
  {| index_name := Some (py "Datetime");
     columns := [py "Open"; py "High"; py "Low"; py "Close"; py "Volume";
                 py "Dividends"; py "Stock Splits"];
     rows := [ (CTime (d 2024 1 2) midnight_est,
                [ (py "Open", CInt 185); (py "High", CInt 188); (py "Low", CInt 183);
                  (py "Close", CInt 186); (py "Volume", CInt 5000);
                  (py "Dividends", CInt 0); (py "Stock Splits", CInt 0) ]) ] |}.

Definition sym_600000 : pystr := Eval vm_compute in py "600000".
Definition sym_AAPL : pystr := Eval vm_compute in py "AAPL".

(** [canonical_frame] after [process_stock_data], fetched as forward
    adjusted and as unadjusted. *)
Definition processed_qfq : DataFrame := Eval vm_compute in
  match process_stock_data sample_to_datetime canonical_frame sym_600000 s_daily s_qfq with
  | Ok df => df
  | Raise _ => canonical_frame
  end.

Definition processed_None : DataFrame := Eval vm_compute in
  match process_stock_data sample_to_datetime canonical_frame sym_600000 s_daily s_None with
  | Ok df => df
  | Raise _ => canonical_frame
  end.

(** A fresh database with the one or the other saved. *)
Definition db_qfq : database :=
  snd (save_stocks_to_db 0 [processed_qfq] (init_db None)).
Definition db_None : database :=
  snd (save_stocks_to_db 0 [processed_None] (init_db None)).

(** A frame that did not come from [process_stock_data]: its period is
    missing. *)
Definition frame_without_period : DataFrame := Eval vm_compute in
  {| index_name := None;
     columns := [py "symbol"; py "date"; py "period"; py "adjust"];
     rows := [ (CInt 0, [ (py "symbol", CStr (py "600000"));
                          (py "date", CStr (py "2024-01-02"));
                          (py "period", CMissing);
                          (py "adjust", CStr (py "qfq")) ]) ] |}.

(** A vendor that has no data, and one whose requests all fail. *)
Definition vendor_none : vendor := fun _ => Ok None.
Definition vendor_down : vendor := fun _ => Raise RequestException.

(** SQLite's conversion to a rowid on texts of ASCII digits; the samples
    give it nothing else. *)
Definition integer_of_digits (c : cell) : option Z :=
  match c with
  | CStr (x :: s) =>
      fold_left (fun acc c => match acc, digit_val c with
                              | Some n, Some k => Some (10 * n + k)
                              | _, _ => None
                              end) (x :: s) (Some 0)
  | _ => None
  end.

(** The database of [DataManager] after the sample history was saved for
    AAPL. *)
Definition manager_db_AAPL : USStock.manager_db :=
  USStock.mkdb
    (snd (USStock.save_stock_data integer_of_digits sym_AAPL
            (USStock.fetched_frame sym_AAPL yf_history_frame)
            (USStock.init_database None)))
    [].

End Samples.

(* ===================================================================== *)
(** ** Vocabulary of the statements *)
(* ===================================================================== *)

(** The characters [process_symbols] takes for separators: the comma, the
    fullwidth comma, the semicolon and the space. *)
Definition is_separator (c : Z) : bool :=
  (c =? 44) || (c =? 65292) || (c =? 59) || (c =? 32).

(** Cutting a string at every character that satisfies [f]. *)
Fixpoint split_by (f : Z -> bool) (s : pystr) : list pystr :=
  match s with
  | [] => [[]]
  | c :: s' =>
      if f c then [] :: split_by f s'
      else match split_by f s' with
           | t :: ts => (c :: t) :: ts
           | [] => [[c]]
           end
  end.


(** [to_datetime] yields days a Timestamp can hold (1677-09-21 to
    2262-04-11). *)
Definition datetime_in_range (to_datetime : converter) : Prop :=
  forall col at_row i d clock,
    to_datetime col = Datetimes at_row -> at_row i = Some (d, clock) ->
    valid_date d = true /\ 1677 <= year d <= 2262.

(** A date as [process_stock_data] writes it: a converted day, printed. *)
Definition date_text (to_datetime : converter) (c : cell) : Prop :=
  exists col at_row i d clock,
    to_datetime col = Datetimes at_row /\ at_row i = Some (d, clock)
    /\ c = CStr (strftime d).

(** The frames the pipeline hands on: the results of [process_stock_data]. *)
Definition pipeline_frame (to_datetime : converter) (df : DataFrame) : Prop :=
  exists raw symbol period adjust,
    process_stock_data to_datetime raw symbol period adjust = Ok df.

(** What a row of such a frame holds under the four key labels. *)
Record pipeline_row (to_datetime : converter) (s : Series) : Prop := {
  row_symbol : exists v, entries c_symbol s <> [] /\ Forall (eq (CStr v)) (entries c_symbol s);
  row_period : exists v, entries c_period s <> [] /\ Forall (eq (CStr v)) (entries c_period s);
  row_adjust : exists v, v <> [] /\ entries c_adjust s <> []
                         /\ Forall (eq (CStr v)) (entries c_adjust s);
  row_date : Forall (fun c => c = CMissing \/ date_text to_datetime c) (entries c_date s)
}.

(** A property of the entries of one label, in every row. *)
Definition rows_satisfy (label : pystr) (P : list cell -> Prop) (df : DataFrame) : Prop :=
  Forall (fun r => P (entries label (snd r))) (rows df).

(** One step of the loop over [required_columns]. *)
Definition ensure_column (col : pystr) (df : DataFrame) : DataFrame :=
  if negb (str_in col (columns df)) then set_column col CMissing df else df.

(** The key of a stored row: UNIQUE(symbol, date, period, adjust). *)
Definition key_of (r : hist_row) : cell * cell * cell * cell :=
  (r_symbol r, r_date r, r_period r, r_adjust r).

(** At most one row for each key. *)
Definition unique_keys (l : list hist_row) : Prop := NoDup (map key_of l).

(** The tuples [save_stocks_to_db] builds from a frame. *)
Definition frame_data (df : DataFrame) : list params :=
  map (fun r => data_row (snd r)) (rows df).

(** The values of a tuple once bound, when all of them can be. *)
Definition bound (p : params) : option (cell * cell * list cell * cell * cell) :=
  match bind_value (q_symbol p), bind_value (q_date p), bind_all (q_values p),
        bind_value (q_period p), bind_value (q_adjust p) with
  | Some sym, Some dat, Some vals, Some per, Some adj => Some (sym, dat, vals, per, adj)
  | _, _, _, _, _ => None
  end.

(** A frame on which [executemany] raises. *)
Definition frame_fails (df : DataFrame) : bool :=
  negb (empty df) && negb (forallb (fun p => bool_decide (is_Some (bound p))) (frame_data df)).

(** A tuple that INSERT OR IGNORE skips in a table with the given rows. *)
Definition ignored (l : list hist_row) (p : params) : bool :=
  match bound p with
  | Some (sym, dat, _, per, adj) =>
      is_missing sym || is_missing dat || existsb (same_key sym dat per adj) l
  | None => true
  end.

(** Tuples whose period and adjust are not NULL once bound. *)
Definition keyed (p : params) : Prop :=
  forall sym dat vals per adj,
    bound p = Some (sym, dat, vals, per, adj) ->
    is_missing per = false /\ is_missing adj = false.

(** The tuples of the frames of the pipeline, label by label. *)
Record pipeline_params (to_datetime : converter) (p : params) : Prop := {
  pp_symbol : q_symbol p = ObjMany \/ exists v, q_symbol p = ObjCell (CStr v);
  pp_date : q_date p = ObjMany \/ q_date p = ObjCell CMissing
            \/ exists c, date_text to_datetime c /\ q_date p = ObjCell c;
  pp_period : q_period p = ObjMany \/ exists v, q_period p = ObjCell (CStr v);
  pp_adjust : q_adjust p = ObjMany \/ exists v, v <> [] /\ q_adjust p = ObjCell (CStr v)
}.

(** A stored row as the pipeline writes it: text keys, a printed date, an
    adjust marker that is not empty. *)
Record stored_ok (to_datetime : converter) (r : hist_row) : Prop := {
  so_symbol : exists v, r_symbol r = CStr v;
  so_date : date_text to_datetime (r_date r);
  so_period : exists v, r_period r = CStr v;
  so_adjust : exists v, v <> [] /\ r_adjust r = CStr v
}.

(** The table the transaction sees after the loop of [save_stocks_to_db],
    [T] being the table on disk and [W] the one seen before the loop. *)
Fixpoint working_after (now : Z) (T W : table) (df_list : list DataFrame) : table :=
  match df_list with
  | [] => W
  | df :: rest =>
      if empty df then working_after now T W rest
      else match insert_rows now (frame_data df) W 0 with
           | (None, W', _) => working_after now T W' rest
           | (Some _, _, _) => working_after now T T rest
           end
  end.

(** The databases the application can produce: a new one initialised by
    [init_db], and whatever further calls of [init_db] and of
    [save_stocks_to_db] on frames of the pipeline make of it. *)
Inductive reachable (to_datetime : converter) : database -> Prop :=
| reach_init : reachable to_datetime (init_db None)
| reach_again db : reachable to_datetime db -> reachable to_datetime (init_db db)
| reach_save db now df_list :
    reachable to_datetime db ->
    Forall (pipeline_frame to_datetime) df_list ->
    reachable to_datetime (snd (save_stocks_to_db now df_list db)).

(** The values the pipeline binds to the four key columns. *)
Record pipeline_bound (to_datetime : converter) (sym dat per adj : cell) : Prop := {
  pb_symbol : exists v, sym = CStr v;
  pb_date : dat = CMissing \/ date_text to_datetime dat;
  pb_period : exists v, per = CStr v;
  pb_adjust : exists v, v <> [] /\ adj = CStr v
}.

(** What holds of the rows of every table the application writes. *)
Definition table_inv (to_datetime : converter) (l : list hist_row) : Prop :=
  unique_keys l /\ Forall (stored_ok to_datetime) l.

(** Ascending by (symbol, date), both compared as text. *)
Definition key_le (a b : hist_row) : Prop :=
  exists sa da sb db,
    r_symbol a = CStr sa /\ r_date a = CStr da
    /\ r_symbol b = CStr sb /\ r_date b = CStr db
    /\ (str_ltb sa sb = true \/ (sa = sb /\ str_leb da db = true)).

(** The adjust value the queries of [stock.py] filter on. *)
Definition adjust_param (adjust : pystr) : pystr :=
  if negb (str_eqb adjust s_None) then adjust else s_empty.


(** A row stored for a symbol, a period and an adjust value. *)
Definition stored_for (symbol period adjust : pystr) (r : hist_row) : Prop :=
  r_symbol r = CStr symbol /\ r_period r = CStr period /\ r_adjust r = CStr adjust.

(** A cell that holds the day [d], printed as year-month-day with a year
    of four digits. *)
Definition day_text (d : date) (c : cell) : Prop :=
  valid_date d = true /\ 1000 <= year d /\ c = CStr (strftime d).

(** The latest day stored for a symbol, a period and an adjust value:
    the day of one of their rows that the day of no other is after;
    [None] when no row is stored for them. *)
Definition latest_day (l : list hist_row) (symbol period adjust : pystr)
    (last : option date) : Prop :=
  match last with
  | Some d =>
      (exists r, r ∈ l /\ stored_for symbol period adjust r /\ day_text d (r_date r))
      /\ forall r, r ∈ l -> stored_for symbol period adjust r ->
           exists d', day_text d' (r_date r) /\ date_ltb d d' = false
  | None => forall r, r ∈ l -> ~ stored_for symbol period adjust r
  end.

(** [b] is the day after [a]: a day of the calendar after [a] with no day
    in between. *)
Definition next_day (a b : date) : Prop :=
  valid_date b = true /\ date_ltb a b = true
  /\ forall c, valid_date c = true -> date_ltb a c = true -> date_ltb c b = false.

(** The first day an update asks for: the day after the latest stored
    one, 1990-01-01 when nothing is stored. *)
Definition start_day (last : option date) (start : date) : Prop :=
  match last with
  | Some d => next_day d start
  | None => start = mkdate 1990 1 1
  end.
(** The vendor calls and back-off waits of a trace, in order. *)
Definition attempts_and_waits (tr : trace) : list event :=
  filter (fun e => is_fetch e || is_sleep e) tr.

(** [j] failed attempts, each followed by its wait, then a last attempt;
    the attempts are numbered from [a], and the wait after attempt [k] is
    [2 ^ (k + 1)] seconds. *)
Fixpoint schedule (call : event) (a : Z) (j : nat) : list event :=
  match j with
  | O => [call]
  | S j' => call :: EvSleep (2 ^ (a + 1)) :: schedule call (a + 1) j'
  end.

(** A daily history as yfinance returns it: indexed by "Date" with
    timestamps, under the seven columns of [yf_columns]. *)
Record yf_history (h : DataFrame) : Prop := {
  yh_index : index_name h = Some USStock.u_Date;
  yh_columns : columns h = USStock.yf_columns;
  yh_rows : Forall (fun r => (exists d clock, fst r = CTime d clock)
                             /\ map fst (snd r) = USStock.yf_columns) (rows h)
}.

(** The row of [stocks] written for a row of the history: the date is
    the text of the Timestamp. *)
Definition stock_row_of (symbol : pystr) (id : Z) (r : cell * Series) : USStock.stock_row :=
  USStock.mkstock id (CStr symbol) (USStock.sql_value (fst r))
    (map (fun p => USStock.sql_value (snd p)) (snd r)).

(** Consecutive identifiers from [id] on. *)
Fixpoint stock_rows_from (symbol : pystr) (id : Z) (l : list (cell * Series))
    : list USStock.stock_row :=
  match l with
  | [] => []
  | r :: l' => stock_row_of symbol id r :: stock_rows_from symbol (id + 1) l'
  end.

(** The row [save_stock_data] hands to [to_sql] for a row of the history. *)
Definition prepared_row (symbol : pystr) (r : cell * Series) : Series :=
  map (fun p => (rename_label USStock.rename_map (fst p), snd p))
    (series_set USStock.u_symbol (CStr symbol)
       (series_set USStock.u_date
          (match fst r with CTime d _ => CDate d | _ => CMissing end)
          ((USStock.u_Date, fst r)
             :: series_set USStock.u_Symbol (CStr symbol) (snd r)))).

(** A frame [save_stocks_to_db] cannot read the symbol of: it has rows
    and columns, and none of the columns is labelled "symbol". *)
Definition lacks_symbol (df : DataFrame) : bool :=
  negb (empty df) && negb (str_in c_symbol (columns df)).

(** How many rows a table has gained. *)
Definition rows_added (t t' : table) : Z :=
  Z.of_nat (length (t_rows t')) - Z.of_nat (length (t_rows t)).

(** The adjust marker [process_stock_data] writes into its frames. *)
Definition adjust_marker (adjust : pystr) : pystr :=
  if negb (str_eqb adjust s_empty) then adjust else s_None.

(** A row of the frame [process_stock_data] returns for the given
    symbol, period and adjust. *)
Record processed_row (to_datetime : converter)
    (symbol period adjust : pystr) (s : Series) : Prop := {
  pr_symbol : entries c_symbol s <> [] /\ Forall (eq (CStr symbol)) (entries c_symbol s);
  pr_period : entries c_period s <> [] /\ Forall (eq (CStr period)) (entries c_period s);
  pr_adjust : entries c_adjust s <> []
              /\ Forall (eq (CStr (adjust_marker adjust))) (entries c_adjust s);
  pr_date : Forall (fun c => c = CMissing \/ date_text to_datetime c) (entries c_date s)
}.

(** A frame as pandas builds it: every row carries the labels of the
    columns. *)
Definition labelled (df : DataFrame) : Prop :=
  Forall (fun r => map fst (snd r) = columns df) (rows df).

(** The dates of a frame, row by row. *)
Definition date_entries (df : DataFrame) : list (list cell) :=
  map (fun r => entries c_date (snd r)) (rows df).

(** The days of a converted column of [n] values, in order, NaT left
    out. *)
Definition converted_days (at_row : nat -> option (date * pystr)) (n : nat)
    : list date :=
  omap (fun i => fst <$> at_row i) (seq 0 n).

(** The column [pd.to_datetime] is given: the one labelled "date" once
    the labels are renamed. *)
Definition renamed_dates (df : DataFrame) : list cell :=
  date_column
    (rename (filter (fun kv => str_in (fst kv) (columns df)) column_mapping) df).

(** The labels [column_mapping] turns into "date". *)
Definition maps_to_date (c : pystr) : bool :=
  match lookup_label c column_mapping with
  | Some v => str_eqb v c_date
  | None => false
  end.

(** How many of the labels are "date" or are turned into it. *)
Definition date_labels (cols : list pystr) : nat :=
  length (filter (fun c => str_eqb c c_date || maps_to_date c) cols).

(** The first step of [process_stock_data]: without a column "date" the
    index is made a column. *)
Definition with_index_column (df : DataFrame) : exc DataFrame :=
  if negb (str_in c_date (columns df)) then reset_index df else Ok df.

(** The label [reset_index] gives the column it makes of the index. *)
Definition index_label (df : DataFrame) : pystr :=
  match index_name df with
  | Some n => n
  | None => if str_in (py "index") (columns df) then py "level_0" else py "index"
  end.

(** UNIQUE(symbol, date) on the table [stocks]: at most one row for each
    pair. *)
Definition stocks_unique (l : list USStock.stock_row) : Prop :=
  NoDup (map (fun r => (USStock.s_symbol r, USStock.s_date r)) l).

(** At most one row of [stock_info] for each symbol. *)
Definition info_unique (l : list USStock.info_row) : Prop :=
  NoDup (map USStock.i_symbol l).

(** An entry of the dict [fetch_stock_data] returns: a history the
    ticker of that symbol produced, not empty, tagged with the symbol. *)
Definition fetched_entry (yf_Ticker : Z -> pystr -> exc USStock.ticker)
    (start_date end_date : date) (interval : pystr) (kv : pystr * DataFrame) : Prop :=
  exists i tk h,
    yf_Ticker i (fst kv) = Ok tk
    /\ USStock.history tk start_date end_date interval = Ok h
    /\ empty h = false
    /\ snd kv = USStock.fetched_frame (fst kv) h.

(** The number of commas in a string. *)
Fixpoint count_commas (s : pystr) : nat :=
  match s with
  | [] => 0
  | c :: s' => if c =? 44 then S (count_commas s') else count_commas s'
  end.

(* ===================================================================== *)
(** ** Symbol parsing *)
(* ===================================================================== *)

Section SymbolParsing.

Lemma normalise_separator (c : Z) :
let c' := (fun c => if c =? 32 then 44 else c)
            ((fun c => if c =? 59 then 44 else c)
               ((fun c => if c =? 65292 then 44 else c) c)) in
(c' =? 44) = is_separator c /\ (is_separator c = false -> c' = c).
Proof.
unfold is_separator. cbv beta.
destruct (Z.eqb_spec c 65292); destruct (Z.eqb_spec c 59);
  destruct (Z.eqb_spec c 32); destruct (Z.eqb_spec c 44);
  subst; cbn; split; try reflexivity; try lia; try discriminate.
Qed.

Lemma split_replace_separators (s : pystr) :
split 44 (replace 32 44 (replace 59 44 (replace 65292 44 s))) = split_by is_separator s.
Proof.
induction s as [|c s IH]; [reflexivity|].
unfold replace in *. cbn [map split split_by]. rewrite IH.
destruct (normalise_separator c) as [H1 H2]. cbv beta zeta in H1, H2.
rewrite H1. destruct (is_separator c); [reflexivity|].
rewrite H2 by reflexivity. reflexivity.
Qed.

Lemma split_by_chars f s t c :
t ∈ split_by f s -> c ∈ t -> c ∈ s /\ f c = false.
Proof.
revert t. induction s as [|a s IH]; intros t Ht Hc.
- cbn in Ht. apply list_elem_of_singleton in Ht. subst. inversion Hc.
- cbn in Ht. destruct (f a) eqn:Fa.
  + apply elem_of_cons in Ht as [->|Ht]; [inversion Hc|].
    destruct (IH _ Ht Hc). split; [(apply elem_of_cons; auto)|done].
  + destruct (split_by f s) as [|t0 ts] eqn:Es.
    * apply list_elem_of_singleton in Ht. subst t.
      apply list_elem_of_singleton in Hc. subst. split; [(apply elem_of_cons; auto)|done].
    * apply elem_of_cons in Ht as [->|Ht].
      -- apply elem_of_cons in Hc as [->|Hc]; [split; [(apply elem_of_cons; auto)|done]|].
         destruct (IH t0) as [? ?]; [(apply elem_of_cons; auto)|done|]. split; [(apply elem_of_cons; auto)|done].
      -- destruct (IH t) as [? ?]; [(apply elem_of_cons; auto)|done|]. split; [(apply elem_of_cons; auto)|done].
Qed.

Lemma lstrip_all_space s : Forall (fun c => isspace c = true) s -> lstrip s = [].
Proof. induction 1 as [|c s Hc _ IH]; [done|]. cbn. by rewrite Hc. Qed.

Lemma strip_all_space s : Forall (fun c => isspace c = true) s -> strip s = [].
Proof. intros H. unfold strip, rstrip. rewrite (lstrip_all_space s) by done. reflexivity. Qed.

Lemma truthy_nonempty s : truthy s = true <-> s <> [].
Proof. destruct s; cbn; split; congruence. Qed.

Lemma elem_of_process_symbols s x :
x ∈ process_symbols s <->
exists t, t ∈ split_by is_separator s /\ x = strip t /\ x <> [].
Proof.
unfold process_symbols, list_set. rewrite split_replace_separators.
rewrite elem_of_elements, elem_of_list_to_set, list_elem_of_fmap.
split.
- intros (t & -> & Ht). apply list_elem_of_filter in Ht as [Hs Ht].
  exists t. split; [done|]. split; [done|].
  apply truthy_nonempty. by apply Is_true_true.
- intros (t & Ht & -> & Hne). exists t. split; [done|].
  apply list_elem_of_filter. split; [|done].
  apply Is_true_true. by apply truthy_nonempty.
Qed.

Lemma lstrip_head s c r : lstrip s = c :: r -> isspace c = false.
Proof.
induction s as [|a s IH]; cbn; [discriminate|].
destruct (isspace a) eqn:Ha; [exact IH|].
intros [= <- _]. exact Ha.
Qed.

Lemma lstrip_keeps_last l c :
isspace c = false -> exists l', lstrip (l ++ [c]) = l' ++ [c].
Proof.
intros Hc. induction l as [|a l IH]; cbn.
- rewrite Hc. by exists [].
- destruct (isspace a); [exact IH|]. by exists (a :: l).
Qed.

(** A stripped token that is not empty begins and ends with a character
  that is not white space. *)
Lemma strip_ends s :
strip s <> [] ->
exists c r, strip s = c :: r /\ isspace c = false
            /\ isspace (List.last (strip s) c) = false.
Proof.
unfold strip, rstrip. intros Hne.
destruct (lstrip s) as [|c r] eqn:El; [by destruct Hne|].
pose proof (lstrip_head _ _ _ El) as Hc.
cbn [rev] in *.
destruct (lstrip_keeps_last (rev r) c Hc) as [l' Hl']. rewrite Hl' in *.
rewrite rev_app_distr. cbn [rev app]. exists c, (rev l').
split; [reflexivity|]. split; [exact Hc|].
destruct (lstrip (rev r ++ [c])) as [|x q] eqn:Eq.
- by destruct l'.
- pose proof (lstrip_head _ _ _ Eq) as Hx.
  assert (Hrev : c :: rev l' = rev (x :: q)) by (rewrite Hl', rev_app_distr; reflexivity).
  rewrite Hrev. cbn [rev]. rewrite last_last. exact Hx.
Qed.

End SymbolParsing.


(* ===================================================================== *)
(** ** Printing and parsing dates *)
(* ===================================================================== *)

Section DateFormat.

Local Ltac dlia := Z.div_mod_to_equations; lia.

Lemma valid_date_spec d :
valid_date d = true <->
1 <= year d <= 9999 /\ 1 <= month d <= 12 /\ 1 <= day d <= days_in_month (year d) (month d).
Proof.
unfold valid_date. rewrite !andb_true_iff, !Z.leb_le. tauto.
Qed.

Lemma days_in_month_bounds y m : 28 <= days_in_month y m <= 31.
Proof.
unfold days_in_month.
destruct (m =? 2); [destruct (is_leap y); lia|].
destruct ((m =? 4) || (m =? 6) || (m =? 9) || (m =? 11)); lia.
Qed.

Lemma decimal_digits4 y :
1000 <= y <= 9999 ->
exists a b c e,
  1 <= a <= 9 /\ 0 <= b <= 9 /\ 0 <= c <= 9 /\ 0 <= e <= 9
  /\ y = 1000 * a + 100 * b + 10 * c + e
  /\ decimal y = [digit a; digit b; digit c; digit e].
Proof.
intros Hy.
exists (y / 10 / 10 / 10 mod 10), (y / 10 / 10 mod 10), (y / 10 mod 10), (y mod 10).
repeat split; try dlia.
unfold decimal, decimal_aux.
destruct (Z.ltb_spec y 10); [lia|].
destruct (Z.ltb_spec (y / 10) 10); [dlia|].
destruct (Z.ltb_spec (y / 10 / 10) 10); [dlia|].
destruct (Z.ltb_spec (y / 10 / 10 / 10) 10); [|dlia].
reflexivity.
Qed.

Lemma pad2_digits n :
0 <= n <= 99 ->
exists a b, 0 <= a <= 9 /\ 0 <= b <= 9 /\ n = 10 * a + b /\ pad2 n = [digit a; digit b].
Proof.
intros Hn. exists (n / 10), (n mod 10). repeat split; dlia.
Qed.

Lemma digit_val_digit a : 0 <= a <= 9 -> digit_val (digit a) = Some a.
Proof.
intros Ha. unfold digit_val, digit.
destruct (Z.leb_spec 48 (48 + a)); [|lia].
destruct (Z.leb_spec (48 + a) 57); [|lia].
cbn. f_equal. lia.
Qed.

Lemma unicode_digit_digit a : 0 <= a <= 9 -> unicode_digit (digit a) = Some a.
Proof.
intros Ha. unfold unicode_digit, digit_zeros, digit. cbn [digit_in].
destruct (Z.leb_spec 48 (48 + a)); [|lia].
destruct (Z.leb_spec (48 + a) (48 + 9)); [|lia].
cbn [andb]. f_equal. lia.
Qed.

Lemma split_no_sep sep s : Forall (fun c => c <> sep) s -> split sep s = [s].
Proof.
induction 1 as [|c s Hc _ IH]; [reflexivity|].
cbn. destruct (Z.eqb_spec c sep); [contradiction|]. by rewrite IH.
Qed.

Lemma split_app_sep sep s rest :
Forall (fun c => c <> sep) s -> split sep (s ++ sep :: rest) = s :: split sep rest.
Proof.
induction 1 as [|c s Hc _ IH]; cbn.
- by rewrite Z.eqb_refl.
- destruct (Z.eqb_spec c sep); [contradiction|]. by rewrite IH.
Qed.

Lemma digit_not_dash a : 0 <= a -> digit a <> 45.
Proof. unfold digit. lia. Qed.

Lemma parse_month_pad2 m : 1 <= m <= 12 -> parse_month (pad2 m) = Some m.
Proof.
intros H.
assert (m = 1 \/ m = 2 \/ m = 3 \/ m = 4 \/ m = 5 \/ m = 6 \/ m = 7 \/ m = 8
        \/ m = 9 \/ m = 10 \/ m = 11 \/ m = 12) as Hm by lia.
repeat (destruct Hm as [->|Hm]; [reflexivity|]). subst. reflexivity.
Qed.

Lemma parse_day_pad2 n : 1 <= n <= 31 -> parse_day (pad2 n) = Some n.
Proof.
intros H.
assert (Hn : exists k : nat, (k < 31)%nat /\ n = 1 + Z.of_nat k).
{ exists (Z.to_nat (n - 1)). lia. }
destruct Hn as (k & Hk & ->).
do 31 (destruct k as [|k]; [reflexivity|]). lia.
Qed.

Lemma strftime_digits d :
valid_date d = true -> 1000 <= year d ->
exists a b c e m1 m0 d1 d0,
  (1 <= a <= 9 /\ 0 <= b <= 9 /\ 0 <= c <= 9 /\ 0 <= e <= 9)
  /\ (0 <= m1 <= 9 /\ 0 <= m0 <= 9) /\ (0 <= d1 <= 9 /\ 0 <= d0 <= 9)
  /\ year d = 1000 * a + 100 * b + 10 * c + e
  /\ month d = 10 * m1 + m0 /\ day d = 10 * d1 + d0
  /\ strftime d = [digit a; digit b; digit c; digit e; 45;
                   digit m1; digit m0; 45; digit d1; digit d0].
Proof.
intros Hv Hy. apply valid_date_spec in Hv as (Hy' & Hm & Hd).
pose proof (days_in_month_bounds (year d) (month d)).
destruct (decimal_digits4 (year d)) as (a & b & c & e & ? & ? & ? & ? & Ey & Ed); [lia|].
destruct (pad2_digits (month d)) as (m1 & m0 & ? & ? & Em & Epm); [lia|].
destruct (pad2_digits (day d)) as (d1 & d0 & ? & ? & Edd & Epd); [lia|].
exists a, b, c, e, m1, m0, d1, d0.
repeat split; try lia. unfold strftime. rewrite Ed, Epm, Epd. reflexivity.
Qed.

Lemma skip_digits_digit a s :
0 <= a <= 9 -> skip_digits (digit a :: s) = (S (fst (skip_digits s)), snd (skip_digits s)).
Proof.
intros Ha. cbn [skip_digits]. unfold digit.
destruct (Z.leb_spec 48 (48 + a)); [|lia].
destruct (Z.leb_spec (48 + a) 57); [|lia].
cbn [andb]. by destruct (skip_digits s).
Qed.

(** A printed date is no numeral for SQLite. *)
Lemma looks_numeric_strftime d :
valid_date d = true -> 1000 <= year d -> looks_numeric (strftime d) = false.
Proof.
intros Hv Hy.
destruct (strftime_digits d Hv Hy)
  as (a & b & c & e & m1 & m0 & d1 & d0 & (? & ? & ? & ?) & _ & _ & _ & _ & _ & ->).
unfold looks_numeric.
assert (Hsp : skip_spaces (digit a :: digit b :: digit c :: digit e :: 45 ::
                digit m1 :: digit m0 :: 45 :: digit d1 :: [digit d0])
              = digit a :: digit b :: digit c :: digit e :: 45 ::
                digit m1 :: digit m0 :: 45 :: digit d1 :: [digit d0]).
{ cbn [skip_spaces]. unfold sql_space, digit.
  destruct (Z.eqb_spec (48 + a) 32); [lia|].
  destruct (Z.leb_spec (48 + a) 13); [lia|]. by rewrite andb_false_r. }
rewrite Hsp. clear Hsp.
assert (Hsg : forall s, skip_sign (digit a :: s) = digit a :: s).
{ intros s. cbn [skip_sign]. unfold digit.
  destruct (Z.eqb_spec (48 + a) 43); [lia|].
  destruct (Z.eqb_spec (48 + a) 45); [lia|]. done. }
rewrite Hsg. rewrite !skip_digits_digit by lia. reflexivity.
Qed.

(** Parsing what was printed gives the date back. *)
Lemma strptime_strftime d :
valid_date d = true -> 1000 <= year d -> strptime (strftime d) = Some d.
Proof.
intros Hv Hy. pose proof Hv as Hv'.
apply valid_date_spec in Hv' as (Hy' & Hm & Hd).
pose proof (days_in_month_bounds (year d) (month d)).
destruct (decimal_digits4 (year d)) as (a & b & c & e & ? & ? & ? & ? & Ey & Ed); [lia|].
destruct (pad2_digits (month d)) as (m1 & m0 & ? & ? & Em & Epm); [lia|].
destruct (pad2_digits (day d)) as (d1 & d0 & ? & ? & Edd & Epd); [lia|].
unfold strptime, strftime.
change ([45] ++ pad2 (month d) ++ [45] ++ pad2 (day d))
  with (45 :: (pad2 (month d) ++ 45 :: pad2 (day d))).
rewrite split_app_sep.
2:{ rewrite Ed. repeat constructor; apply digit_not_dash; lia. }
rewrite split_app_sep.
2:{ rewrite Epm. repeat constructor; apply digit_not_dash; lia. }
rewrite split_no_sep.
2:{ rewrite Epd. repeat constructor; apply digit_not_dash; lia. }
rewrite parse_month_pad2 by lia. rewrite parse_day_pad2 by lia.
rewrite Ed. unfold parse_year. rewrite !unicode_digit_digit by lia.
rewrite <- Ey. destruct d as [y m dd]; cbn in *. rewrite Hv. reflexivity.
Qed.

(** On printed dates of four-digit years the order of the strings is the
  order of the days. *)
Lemma str_ltb_strftime a b :
valid_date a = true -> valid_date b = true -> 1000 <= year a -> 1000 <= year b ->
str_ltb (strftime a) (strftime b) = date_ltb a b.
Proof.
intros Va Vb Ya Yb.
destruct (strftime_digits a Va Ya)
  as (a3 & a2 & a1 & a0 & am1 & am0 & ad1 & ad0 & ? & ? & ? & Eya & Ema & Eda & ->).
destruct (strftime_digits b Vb Yb)
  as (b3 & b2 & b1 & b0 & bm1 & bm0 & bd1 & bd0 & ? & ? & ? & Eyb & Emb & Edb & ->).
unfold date_ltb. rewrite Eya, Ema, Eda, Eyb, Emb, Edb.
unfold digit. cbn [str_ltb].
repeat match goal with
       | |- context [?x <? ?y] => destruct (Z.ltb_spec x y)
       | |- context [?x =? ?y] => destruct (Z.eqb_spec x y)
       end; cbn; try reflexivity; try lia.
Qed.

Lemma add_one_day_valid d d' :
valid_date d = true -> add_one_day d = Some d' ->
valid_date d' = true /\ year d <= year d' <= year d + 1 /\ date_ltb d d' = true.
Proof.
intros Hv. apply valid_date_spec in Hv as (Hy & Hm & Hd).
unfold add_one_day.
destruct (Z.ltb_spec (day d) (days_in_month (year d) (month d))).
- intros [= <-]. rewrite valid_date_spec. unfold date_ltb. cbn.
  rewrite Z.eqb_refl, Z.ltb_irrefl.
  assert ((day d <? day d + 1) = true) as -> by lia. cbn. lia.
- destruct (Z.ltb_spec (month d) 12).
  + intros [= <-]. rewrite valid_date_spec. unfold date_ltb. cbn.
    pose proof (days_in_month_bounds (year d) (month d + 1)).
    rewrite Z.eqb_refl, Z.ltb_irrefl.
    assert ((month d <? month d + 1) = true) as -> by lia. cbn. lia.
  + destruct (Z.ltb_spec (year d) 9999); [|discriminate].
    intros [= <-]. rewrite valid_date_spec. unfold date_ltb. cbn.
    pose proof (days_in_month_bounds (year d + 1) 1).
    assert ((year d <? year d + 1) = true) as -> by lia. cbn. lia.
Qed.

Lemma add_one_day_some d :
valid_date d = true -> year d < 9999 -> exists d', add_one_day d = Some d'.
Proof.
intros Hv Hy. unfold add_one_day.
destruct (day d <? _); [eauto|]. destruct (month d <? 12); [eauto|].
destruct (Z.ltb_spec (year d) 9999); [eauto|lia].
Qed.

End DateFormat.

(* ===================================================================== *)
(** ** Frames: labels, entries and the result of [process_stock_data] *)
(* ===================================================================== *)

Section Frames.

Lemma str_eqb_eq a b : str_eqb a b = true <-> a = b.
Proof.
revert b. induction a as [|x a IH]; intros [|y b]; cbn; try (split; congruence).
rewrite andb_true_iff, Z.eqb_eq, IH. split; [intros [-> ->]; reflexivity|].
intros [= -> ->]. auto.
Qed.

Lemma str_eqb_refl a : str_eqb a a = true.
Proof. by apply str_eqb_eq. Qed.

Lemma str_eqb_sym a b : str_eqb a b = str_eqb b a.
Proof.
destruct (str_eqb a b) eqn:E1, (str_eqb b a) eqn:E2; try reflexivity.
- apply str_eqb_eq in E1. subst. by rewrite str_eqb_refl in E2.
- apply str_eqb_eq in E2. subst. by rewrite str_eqb_refl in E1.
Qed.

Lemma filter_cons_bool {A} (f : A -> bool) x (l : list A) :
filter f (x :: l) = if f x then x :: filter f l else filter f l.
Proof. rewrite filter_cons. destruct (f x); reflexivity. Qed.

Lemma entries_cons label p (s : Series) :
entries label (p :: s) =
if str_eqb (fst p) label then snd p :: entries label s else entries label s.
Proof.
unfold entries. rewrite filter_cons_bool. destruct (str_eqb (fst p) label); reflexivity.
Qed.

Lemma entries_app label (s1 s2 : Series) :
entries label (s1 ++ s2) = entries label s1 ++ entries label s2.
Proof. unfold entries. by rewrite filter_app, map_app. Qed.

Lemma str_in_true x l : str_in x l = true <-> x ∈ l.
Proof.
unfold str_in. rewrite existsb_exists. split.
- intros (y & Hy & E). apply str_eqb_eq in E. subst. by apply list_elem_of_In.
- intros H. exists x. split; [by apply list_elem_of_In|apply str_eqb_refl].
Qed.

Lemma entries_nil_iff label (s : Series) :
entries label s = [] <-> str_in label (map fst s) = false.
Proof.
induction s as [|p s IH]; [done|].
rewrite entries_cons. cbn. rewrite (str_eqb_sym label).
destruct (str_eqb (fst p) label); cbn; [split; discriminate|exact IH].
Qed.

(** Overwriting the entries of a label. *)
Lemma entries_overwrite label v (s : Series) :
entries label (map (fun p => if str_eqb (fst p) label then (fst p, v) else p) s)
= map (fun _ => v) (entries label s).
Proof.
induction s as [|p s IH]; [done|].
cbn [map]. rewrite !entries_cons. destruct (str_eqb (fst p) label) eqn:E; cbn [fst snd].
- rewrite E. cbn. by rewrite IH.
- rewrite E. exact IH.
Qed.

Lemma entries_overwrite_other label label' f (s : Series) :
str_eqb label' label = false ->
entries label' (map (fun p => if str_eqb (fst p) label then (fst p, f p) else p) s)
= entries label' s.
Proof.
intros Hne. induction s as [|p s IH]; [done|].
cbn [map]. rewrite !entries_cons.
destruct (str_eqb (fst p) label) eqn:E; cbn [fst snd]; rewrite IH; [|done].
destruct (str_eqb (fst p) label') eqn:E'; [|done].
apply str_eqb_eq in E, E'. rewrite <- E, <- E' in Hne. by rewrite str_eqb_refl in Hne.
Qed.

Lemma entries_series_set label v (s : Series) :
entries label (series_set label v s) <> []
/\ Forall (eq v) (entries label (series_set label v s)).
Proof.
unfold series_set. destruct (str_in label (map fst s)) eqn:E.
- rewrite entries_overwrite. split.
  + intros H. apply map_eq_nil in H. apply entries_nil_iff in H. congruence.
  + apply Forall_forall. intros c Hc. apply list_elem_of_fmap in Hc as (? & -> & _). done.
- rewrite entries_app. apply entries_nil_iff in E. rewrite E.
  cbn [app]. rewrite entries_cons. cbn [fst snd]. rewrite str_eqb_refl.
  split; [done|]. repeat constructor.
Qed.

Lemma entries_series_set_other label label' v (s : Series) :
str_eqb label' label = false ->
entries label' (series_set label v s) = entries label' s.
Proof.
intros Hne. unfold series_set. destruct (str_in label (map fst s)).
- apply (entries_overwrite_other label label' (fun _ => v)); done.
- rewrite entries_app, entries_cons. cbn. rewrite str_eqb_sym, Hne. apply app_nil_r.
Qed.

Lemma entries_map_column label f (s : Series) :
entries label (map (fun p => if str_eqb (fst p) label then (fst p, f (snd p)) else p) s)
= map f (entries label s).
Proof.
induction s as [|p s IH]; [done|].
cbn [map]. rewrite !entries_cons. destruct (str_eqb (fst p) label) eqn:E; cbn [fst snd].
- rewrite E. cbn. by rewrite IH.
- rewrite E. exact IH.
Qed.



Lemma set_column_same label v df :
rows_satisfy label (fun es => es <> [] /\ Forall (eq v) es) (set_column label v df).
Proof.
unfold rows_satisfy, set_column. cbn [rows]. apply Forall_forall.
intros r Hr. apply list_elem_of_fmap in Hr as (r0 & -> & _). cbn [snd].
apply entries_series_set.
Qed.

Lemma set_column_other label label' v P df :
str_eqb label' label = false ->
rows_satisfy label' P df -> rows_satisfy label' P (set_column label v df).
Proof.
unfold rows_satisfy, set_column. cbn [rows]. intros Hne H.
rewrite Forall_forall in H. apply Forall_forall. intros r Hr.
apply list_elem_of_fmap in Hr as (r0 & -> & Hr0). cbn [snd].
rewrite entries_series_set_other by done. by apply H.
Qed.

Lemma set_column_has label v df : str_in label (columns (set_column label v df)) = true.
Proof.
unfold set_column. cbn [columns]. destruct (str_in label (columns df)) eqn:E; [done|].
apply str_in_true. apply elem_of_app. right. by apply list_elem_of_singleton.
Qed.

Lemma set_column_keeps label label' v df :
str_in label' (columns df) = true -> str_in label' (columns (set_column label v df)) = true.
Proof.
unfold set_column. cbn [columns]. intros H. destruct (str_in label (columns df)); [done|].
apply str_in_true. apply elem_of_app. left. by apply str_in_true.
Qed.


Lemma ensure_column_other col label' P df :
str_eqb label' col = false ->
rows_satisfy label' P df -> rows_satisfy label' P (ensure_column col df).
Proof.
intros Hne H. unfold ensure_column. destruct (negb _); [|done].
by apply set_column_other.
Qed.

Lemma ensure_column_has col df : str_in col (columns (ensure_column col df)) = true.
Proof.
unfold ensure_column. destruct (str_in col (columns df)) eqn:E; cbn [negb]; [done|].
apply set_column_has.
Qed.

Lemma ensure_column_keeps col label' df :
str_in label' (columns df) = true -> str_in label' (columns (ensure_column col df)) = true.
Proof.
unfold ensure_column. intros H. destruct (negb _); [|done]. by apply set_column_keeps.
Qed.

Lemma ensure_column_same col (P : list cell -> Prop) df :
(str_in col (columns df) = true -> rows_satisfy col P df) ->
(forall es, Forall (eq CMissing) es -> P es) ->
rows_satisfy col P (ensure_column col df).
Proof.
intros Hin HP. unfold ensure_column. destruct (str_in col (columns df)) eqn:E; cbn [negb].
- by apply Hin.
- pose proof (set_column_same col CMissing df) as H.
  unfold rows_satisfy in *. eapply Forall_impl; [exact H|].
  intros r [_ Hr]. by apply HP.
Qed.

Section DateColumn.

Variable to_datetime : converter.

(** What [set_dates] leaves under "date": at each row the value of its
  position. *)
Lemma set_dates_entries at_row i l :
Forall (fun r => Forall (fun c => c = CMissing
                                  \/ exists j d clock, at_row j = Some (d, clock)
                                                       /\ c = CTime d clock)
                        (entries c_date (snd r)))
       (set_dates at_row i l).
Proof.
revert i. induction l as [|r l IH]; intros i; cbn [set_dates]; constructor; [|apply IH].
cbn [snd]. rewrite entries_overwrite. apply Forall_forall. intros c Hc.
apply list_elem_of_fmap in Hc as (? & -> & _).
destruct (at_row i) as [[d clock]|] eqn:E; [right; eauto|by left].
Qed.

(** After conversion, [dropna] and formatting every date is a printed
  day within the range of a Timestamp. *)
Lemma date_block_rows df df' :
convert_dates to_datetime df = Ok df' ->
rows_satisfy c_date (Forall (date_text to_datetime)) (format_dates (dropna c_date df')).
Proof.
unfold convert_dates. destruct (count_label c_date df) as [|[|n]]; try discriminate.
destruct (to_datetime (date_column df)) as [at_row| |te] eqn:Eo; try discriminate.
intros [= <-]. unfold rows_satisfy, format_dates, dropna, map_column. cbn [rows].
apply Forall_forall. intros r Hr.
apply list_elem_of_fmap in Hr as (r1 & -> & Hr).
apply list_elem_of_filter in Hr as [Hkeep Hr].
pose proof (set_dates_entries at_row 0 (rows df)) as Hset.
rewrite Forall_forall in Hset. specialize (Hset _ Hr).
cbn [snd fst] in *.
rewrite (entries_map_column c_date
           (fun c => match c with CTime d _ => CStr (strftime d) | _ => c end)).
apply Is_true_true in Hkeep. apply negb_true_iff in Hkeep.
induction (entries c_date (snd r1)) as [|c es IH]; [constructor|].
cbn [map existsb] in *. apply orb_false_iff in Hkeep as [Hc Hes].
apply Forall_cons in Hset as [Hc' Hes'].
constructor; [|by apply IH].
destruct Hc' as [->|(j & d & clock & Hj & ->)]; [discriminate|].
exists (date_column df), at_row, j, d, clock. auto.
Qed.


Lemma set_column_had label label' v df :
str_eqb label' label = false ->
str_in label' (columns (set_column label v df)) = true ->
str_in label' (columns df) = true.
Proof.
unfold set_column. cbn [columns]. intros Hne.
destruct (str_in label (columns df)); [done|].
rewrite !str_in_true, elem_of_app, list_elem_of_singleton.
intros [H| ->]; [done|]. by rewrite str_eqb_refl in Hne.
Qed.

Lemma rows_satisfy_impl label (P Q : list cell -> Prop) df :
(forall es, P es -> Q es) -> rows_satisfy label P df -> rows_satisfy label Q df.
Proof.
intros H HF. unfold rows_satisfy in *. eapply Forall_impl; [exact HF|].
intros r. apply H.
Qed.

Lemma Forall_weaken {A} (P Q : A -> Prop) l :
(forall x, P x -> Q x) -> Forall P l -> Forall Q l.
Proof. intros H HF. eapply Forall_impl; [exact HF|exact H]. Qed.

(** [process_stock_data] with its loop over [required_columns] unrolled. *)
Lemma process_stock_data_unfold df symbol period adjust :
process_stock_data to_datetime df symbol period adjust =
(df ← (if negb (str_in c_date (columns df)) then reset_index df else Ok df);
 let df :=
   rename (filter (fun kv => str_in (fst kv) (columns df)) column_mapping) df in
 df ← (if str_in c_date (columns df)
       then df ← convert_dates to_datetime df;
            Ok (format_dates (dropna c_date df))
       else Ok df);
 Ok (ensure_column c_volume (ensure_column c_low (ensure_column c_high
      (ensure_column c_close (ensure_column c_open (ensure_column c_date
        (set_column c_adjust
           (CStr (if negb (str_eqb adjust s_empty) then adjust else s_None))
           (set_column c_period (CStr period)
              (set_column c_symbol (CStr symbol) df)))))))))).
Proof. reflexivity. Qed.

Local Ltac other := first [apply ensure_column_other | apply set_column_other];
                  [reflexivity|].
Local Ltac keeps := first [apply ensure_column_keeps | apply set_column_keeps].

(** What every frame returned by [process_stock_data] looks like. *)
Lemma process_stock_data_result raw symbol period adjust df :
process_stock_data to_datetime raw symbol period adjust = Ok df ->
Forall (fun c => str_in c (columns df) = true)
  [c_date; c_open; c_close; c_high; c_low; c_volume; c_symbol; c_period; c_adjust]
/\ Forall (fun r => pipeline_row to_datetime (snd r)) (rows df).
Proof.
rewrite process_stock_data_unfold.
destruct (if negb (str_in c_date (columns raw)) then reset_index raw else Ok raw)
  as [df1|] eqn:E1; [|discriminate].
cbn [mbind exc_bind bind_exc].
set (df2 := rename _ df1).
destruct (if str_in c_date (columns df2)
          then df ← convert_dates to_datetime df2; Ok (format_dates (dropna c_date df))
          else Ok df2) as [df3|] eqn:E3; [|discriminate].
cbn [mbind exc_bind bind_exc]. intros [= <-].
split.
{ repeat constructor.
  - do 5 keeps. apply ensure_column_has.
  - do 4 keeps. apply ensure_column_has.
  - do 3 keeps. apply ensure_column_has.
  - do 2 keeps. apply ensure_column_has.
  - do 1 keeps. apply ensure_column_has.
  - apply ensure_column_has.
  - do 8 keeps. apply set_column_has.
  - do 7 keeps. apply set_column_has.
  - do 6 keeps. apply set_column_has. }
match goal with |- Forall _ (rows ?d) => set (out := d) end.
assert (Hsym : rows_satisfy c_symbol
                 (fun es => es <> [] /\ Forall (eq (CStr symbol)) es) out).
{ subst out. do 8 other. apply set_column_same. }
assert (Hper : rows_satisfy c_period
                 (fun es => es <> [] /\ Forall (eq (CStr period)) es) out).
{ subst out. do 7 other. apply set_column_same. }
assert (Hadj : rows_satisfy c_adjust
                 (fun es => es <> [] /\
                    Forall (eq (CStr (if negb (str_eqb adjust s_empty)
                                      then adjust else s_None))) es) out).
{ subst out. do 6 other. apply set_column_same. }
assert (Hdate : rows_satisfy c_date
                  (Forall (fun c => c = CMissing \/ date_text to_datetime c)) out).
{ subst out. do 5 other. apply ensure_column_same.
  - intros Hin. do 3 (apply set_column_had in Hin; [|reflexivity]).
    do 3 other.
    destruct (str_in c_date (columns df2)) eqn:Ed.
    + destruct (convert_dates to_datetime df2) as [df2'|] eqn:Ec; [|discriminate].
      cbn [mbind exc_bind bind_exc] in E3. injection E3 as <-.
      eapply rows_satisfy_impl; [|by apply date_block_rows with (df := df2)].
      intros es. apply Forall_weaken. auto.
    + injection E3 as <-. congruence.
  - intros es. apply Forall_weaken. intros c <-. by left. }
unfold rows_satisfy in *.
rewrite Forall_forall in Hsym, Hper, Hadj, Hdate. apply Forall_forall.
intros r Hr. constructor.
- exists symbol. by apply Hsym.
- exists period. by apply Hper.
- exists (if negb (str_eqb adjust s_empty) then adjust else s_None).
  split; [|by apply Hadj].
  destruct (str_eqb adjust s_empty) eqn:E; cbn [negb]; [done|].
  intros ->. by rewrite str_eqb_refl in E.
- by apply Hdate.
Qed.

End DateColumn.

End Frames.

(* ===================================================================== *)
(** ** Schema normalisation on the vendor's labels *)
(* ===================================================================== *)

Section Schema.

Variable to_datetime : converter.

Lemma lookup_label_filter k cols m :
  str_in k cols = true ->
  lookup_label k (filter (fun kv => str_in (fst kv) cols) m) = lookup_label k m.
Proof.
  intros Hk. induction m as [|[k' v'] m IH]; [reflexivity|].
  rewrite filter_cons_bool. cbn [fst lookup_label].
  destruct (str_in k' cols) eqn:E; cbn [lookup_label].
  - by rewrite IH.
  - destruct (str_eqb k k') eqn:Ek; [|exact IH].
    apply str_eqb_eq in Ek. subst. congruence.
Qed.

Lemma filter_renamed_date k cols m :
  str_in k cols = true -> lookup_label k m = Some c_date ->
  exists n, length (filter (str_eqb c_date) (map (rename_label m) cols)) = S n.
Proof.
  intros Hk Hl. induction cols as [|c cols IH]; [discriminate|].
  cbn [map]. rewrite filter_cons_bool. cbn in Hk.
  destruct (str_eqb k c) eqn:E.
  - apply str_eqb_eq in E. subst c. unfold rename_label at 1. rewrite Hl.
    rewrite str_eqb_refl. cbn [length]. eauto.
  - cbn in Hk. destruct (IH Hk) as [n Hn].
    destruct (str_eqb c_date _); cbn [length]; eauto.
Qed.

(** A frame with a plain index and no "date" column, one of whose
    columns is mapped to "date": the index is turned into a column
    "index", which is mapped to "date" as well, and the conversion of
    the doubled column raises. *)
Lemma doubled_date_column raw symbol period adjust k :
  index_name raw = None ->
  str_in c_date (columns raw) = false ->
  str_in c_index (columns raw) = false ->
  str_in k (columns raw) = true ->
  lookup_label k column_mapping = Some c_date ->
  process_stock_data to_datetime raw symbol period adjust = Raise ValueError.
Proof.
  intros Hi Hd Hx Hk Hl. unfold process_stock_data. rewrite Hd. cbn [negb].
  unfold reset_index. rewrite Hi. change (py "index") with c_index. rewrite Hx, Hx.
  cbn [mbind exc_bind bind_exc columns].
  set (m := filter _ column_mapping).
  assert (Hm : forall k', str_in k' (c_index :: columns raw) = true ->
               lookup_label k' m = lookup_label k' column_mapping).
  { intros k' Hk'. subst m. by apply lookup_label_filter. }
  assert (Hxi : rename_label m c_index = c_date).
  { unfold rename_label. rewrite Hm; [reflexivity|].
    unfold str_in. cbn [existsb]. by rewrite str_eqb_refl. }
  assert (Hkm : lookup_label k m = Some c_date).
  { rewrite Hm; [exact Hl|]. unfold str_in in *. cbn [existsb]. rewrite Hk.
    by rewrite orb_true_r. }
  destruct (filter_renamed_date k (columns raw) m Hk Hkm) as [n Hn].
  unfold rename. cbn [columns map]. rewrite Hxi.
  cbn [str_in existsb]. rewrite str_eqb_refl. cbn [orb].
  unfold convert_dates, count_label. cbn [columns].
  rewrite filter_cons_bool, str_eqb_refl. cbn [length]. rewrite Hn. reflexivity.
Qed.

(** Both source names of the date do this. *)
Lemma mapped_date_labels_rejected raw symbol period adjust :
  index_name raw = None ->
  str_in c_date (columns raw) = false ->
  str_in c_index (columns raw) = false ->
  str_in c_riqi (columns raw) = true \/ str_in c_trade_date (columns raw) = true ->
  process_stock_data to_datetime raw symbol period adjust = Raise ValueError.
Proof.
  intros Hi Hd Hx [Hk|Hk].
  - by apply doubled_date_column with (k := c_riqi).
  - by apply doubled_date_column with (k := c_trade_date).
Qed.

End Schema.

(** C6. Schema normalisation on the vendor's own schema.  A frame under
    the Chinese labels, as [ak.stock_zh_a_hist] returns it (plain index, no
    "date" column), is not normalised: [process_stock_data] raises
    ValueError, whatever the date conversion, so that
    [safe_fetch_stock_data] returns [None] for it.  The same data under the
    canonical labels, and a frame whose dates are its index, are
    normalised. *)
Theorem C6_vendor_labels_not_normalised (to_datetime : converter) :
  process_stock_data to_datetime Samples.vendor_frame Samples.sym_600000 s_daily s_qfq
  = Raise ValueError
  /\ fst (safe_fetch_stock_data REQUEST_CONFIG (fun _ => Ok (Some Samples.vendor_frame))
            to_datetime Samples.sym_600000 s_1990_01_01 s_1990_01_01 s_daily s_qfq None [])
     = Ok None
  /\ process_stock_data Samples.sample_to_datetime Samples.canonical_frame
       Samples.sym_600000 s_daily s_qfq = Ok Samples.processed_qfq
  /\ (exists df,
        process_stock_data Samples.sample_to_datetime Samples.indexed_frame
          Samples.sym_600000 s_daily s_qfq = Ok df
        /\ entries c_date (snd (List.hd (CMissing, []) (rows df)))
           = [CStr (strftime (mkdate 2024 1 2))]).
Proof.
  assert (H : process_stock_data to_datetime Samples.vendor_frame
                Samples.sym_600000 s_daily s_qfq = Raise ValueError).
  { apply doubled_date_column with (k := c_riqi); reflexivity. }
  split; [exact H|]. split.
  - vm_compute. reflexivity.
  - split; [vm_compute; reflexivity|]. eexists. split; vm_compute; reflexivity.
Qed.

(* ===================================================================== *)
(** ** The table: INSERT OR IGNORE, the loop of [save_stocks_to_db] *)
(* ===================================================================== *)

Section Store.

Lemma date_eqb_eq x y : date_eqb x y = true <-> x = y.
Proof.
unfold date_eqb. rewrite !andb_true_iff, !Z.eqb_eq. destruct x, y; cbn.
split; [intros [[-> ->] ->]; reflexivity|intros [= -> -> ->]; auto].
Qed.

Lemma cell_eqb_eq a b : cell_eqb a b = true <-> a = b.
Proof.
destruct a, b; cbn; try (split; congruence).
- rewrite str_eqb_eq. split; congruence.
- rewrite Z.eqb_eq. split; congruence.
- rewrite Z.eqb_eq. split; congruence.
- rewrite andb_true_iff, date_eqb_eq, str_eqb_eq. split; [intros [-> ->]|intros [= -> ->]]; auto.
- rewrite date_eqb_eq. split; congruence.
Qed.

Lemma sql_eq_true a b : sql_eq a b = true <-> a = b /\ is_missing a = false.
Proof.
unfold sql_eq. rewrite !andb_true_iff, !negb_true_iff, cell_eqb_eq.
split; [intros [[? ?] ?]; auto|]. intros [-> ?]. auto.
Qed.

Lemma same_key_true sym dat per adj r :
same_key sym dat per adj r = true <->
key_of r = (sym, dat, per, adj)
/\ is_missing sym = false /\ is_missing dat = false
/\ is_missing per = false /\ is_missing adj = false.
Proof.
unfold same_key, key_of. rewrite !andb_true_iff, !sql_eq_true. split.
- intros [[[[-> ?] [-> ?]] [-> ?]] [-> ?]]. auto.
- intros [[= -> -> -> ->] (? & ? & ? & ?)]. auto.
Qed.

Lemma insert_rows_cons now p rest t ch :
insert_rows now (p :: rest) t ch =
match bound p with
| Some (sym, dat, vals, per, adj) =>
    let '(t', changed) := insert_or_ignore now t sym dat vals per adj in
    insert_rows now rest t' (if changed then ch + 1 else ch)
| None => (Some ProgrammingError, t, ch)
end.
Proof.
cbn [insert_rows]. unfold bound.
destruct (bind_value (q_symbol p)), (bind_value (q_date p)), (bind_all (q_values p)),
  (bind_value (q_period p)), (bind_value (q_adjust p)); reflexivity.
Qed.

Lemma insert_or_ignore_rows now t sym dat vals per adj :
t_rows (fst (insert_or_ignore now t sym dat vals per adj)) =
if is_missing sym || is_missing dat || existsb (same_key sym dat per adj) (t_rows t)
then t_rows t
else t_rows t ++ [mkrow (t_seq t + 1) sym dat vals per adj now].
Proof.
unfold insert_or_ignore. destruct (is_missing sym || is_missing dat); [reflexivity|].
cbn [orb]. destruct (existsb _ _); reflexivity.
Qed.

(** The table part of [insert_rows] does not depend on the change count. *)
Lemma insert_rows_table now data t ch ch' :
fst (insert_rows now data t ch) = fst (insert_rows now data t ch').
Proof.
revert t ch ch'. induction data as [|p rest IH]; intros t ch ch'; [reflexivity|].
rewrite !insert_rows_cons. destruct (bound p) as [[[[[sym dat] vals] per] adj]|]; [|reflexivity].
destruct (insert_or_ignore now t sym dat vals per adj) as [t' changed]. apply IH.
Qed.

(** Whether [insert_rows] fails is decided by the tuples alone. *)
Lemma insert_rows_error now data t ch :
fst (fst (insert_rows now data t ch)) =
if forallb (fun p => bool_decide (is_Some (bound p))) data
then None else Some ProgrammingError.
Proof.
revert t ch. induction data as [|p rest IH]; intros t ch; [reflexivity|].
rewrite insert_rows_cons. cbn [forallb].
destruct (bound p) as [[[[[sym dat] vals] per] adj]|]; [|reflexivity].
destruct (insert_or_ignore now t sym dat vals per adj) as [t' changed].
rewrite IH. reflexivity.
Qed.

Lemma insert_rows_extends now data t ch :
exists ext, t_rows (snd (fst (insert_rows now data t ch))) = t_rows t ++ ext.
Proof.
revert t ch. induction data as [|p rest IH]; intros t ch.
- exists []. cbn. by rewrite app_nil_r.
- rewrite insert_rows_cons. destruct (bound p) as [[[[[sym dat] vals] per] adj]|].
  + pose proof (insert_or_ignore_rows now t sym dat vals per adj) as Hr.
    destruct (insert_or_ignore now t sym dat vals per adj) as [t' changed].
    cbn [fst] in Hr. destruct (IH t' (if changed then ch + 1 else ch)) as [ext Hext].
    rewrite Hext, Hr. destruct (_ || _).
    * by exists ext.
    * eexists. by rewrite <- app_assoc.
  + exists []. cbn. by rewrite app_nil_r.
Qed.

Lemma ignored_extends l ext p : ignored l p = true -> ignored (l ++ ext) p = true.
Proof.
unfold ignored. destruct (bound p) as [[[[[sym dat] vals] per] adj]|]; [|done].
rewrite existsb_app. intros H. apply orb_true_iff in H as [H|H].
- by rewrite H.
- rewrite H. by rewrite !orb_true_r.
Qed.

(** After a run without error every tuple is one the table ignores. *)
Lemma insert_rows_covers now data t ch :
Forall keyed data ->
fst (fst (insert_rows now data t ch)) = None ->
Forall (fun p => ignored (t_rows (snd (fst (insert_rows now data t ch)))) p = true) data.
Proof.
revert t ch. induction data as [|p rest IH]; intros t ch Hk Herr; [constructor|].
inversion Hk as [|? ? Hp Hrest]; subst.
rewrite insert_rows_cons in Herr |- *.
destruct (bound p) as [[[[[sym dat] vals] per] adj]|] eqn:Eb; [|discriminate].
pose proof (insert_or_ignore_rows now t sym dat vals per adj) as Hr.
destruct (insert_or_ignore now t sym dat vals per adj) as [t' changed].
cbn [fst] in Hr. constructor; [|by apply IH].
destruct (insert_rows_extends now rest t' (if changed then ch + 1 else ch)) as [ext ->].
apply ignored_extends. unfold ignored. rewrite Eb, Hr.
destruct (is_missing sym || is_missing dat) eqn:Em; [reflexivity|]. cbn [orb] in *.
destruct (existsb (same_key sym dat per adj) (t_rows t)) eqn:Ee; [by rewrite Ee|].
rewrite existsb_app. cbn [existsb]. apply orb_false_iff in Em as [Hs Hd].
destruct (Hp _ _ _ _ _ Eb) as [Hper Hadj].
assert (same_key sym dat per adj (mkrow (t_seq t + 1) sym dat vals per adj now) = true) as ->.
{ apply same_key_true. auto. }
by rewrite !orb_true_r.
Qed.

(** Tuples the table ignores leave its rows as they are. *)
Lemma insert_rows_ignored now data t ch :
Forall (fun p => ignored (t_rows t) p = true) data ->
t_rows (snd (fst (insert_rows now data t ch))) = t_rows t.
Proof.
revert t ch. induction data as [|p rest IH]; intros t ch Hi; [reflexivity|].
inversion Hi as [|? ? Hp Hrest]; subst. rewrite insert_rows_cons.
unfold ignored in Hp.
destruct (bound p) as [[[[[sym dat] vals] per] adj]|] eqn:Eb; [|reflexivity].
pose proof (insert_or_ignore_rows now t sym dat vals per adj) as Hr.
destruct (insert_or_ignore now t sym dat vals per adj) as [t' changed].
cbn [fst] in Hr. rewrite Hp in Hr. rewrite IH; [exact Hr|]. by rewrite Hr.
Qed.


(** On a frame that fails the loop goes back to the table on disk. *)
Lemma working_after_fail now T W pre f post :
frame_fails f = true ->
working_after now T W (pre ++ f :: post) = working_after now T T post.
Proof.
intros Hf. revert W. induction pre as [|g pre IH]; intros W; cbn [app working_after].
- unfold frame_fails in Hf. apply andb_true_iff in Hf as [He Hb].
  apply negb_true_iff in He, Hb. rewrite He.
  pose proof (insert_rows_error now (frame_data f) W 0) as Herr. rewrite Hb in Herr.
  destruct (insert_rows now (frame_data f) W 0) as [[e W'] ch]. cbn in Herr. by subst.
- destruct (empty g); [apply IH|].
  destruct (insert_rows now (frame_data g) W 0) as [[[e|] W'] ch]; apply IH.
Qed.

(** Without a failing frame every tuple ends up ignored by the result. *)
Lemma working_after_covers now T W dfs :
Forall (fun f => frame_fails f = false) dfs ->
Forall (fun f => Forall keyed (frame_data f)) dfs ->
(exists ext, t_rows (working_after now T W dfs) = t_rows W ++ ext)
/\ Forall (fun f => empty f = false ->
             Forall (fun p => ignored (t_rows (working_after now T W dfs)) p = true)
                    (frame_data f)) dfs.
Proof.
intros Hnf Hk. revert W. induction dfs as [|f dfs IH]; intros W; cbn [working_after].
- split; [exists []; by rewrite app_nil_r|constructor].
- inversion Hnf as [|? ? Hf Hnf']; inversion Hk as [|? ? Hkf Hk']; subst.
  destruct (empty f) eqn:He.
  + destruct (IH Hnf' Hk' W) as [Hext Hcov]. split; [exact Hext|].
    constructor; [intros ?; congruence|exact Hcov].
  + unfold frame_fails in Hf. rewrite He in Hf. cbn [negb andb] in Hf.
    apply negb_false_iff in Hf.
    pose proof (insert_rows_error now (frame_data f) W 0) as Herr. rewrite Hf in Herr.
    pose proof (insert_rows_covers now (frame_data f) W 0 Hkf Herr) as Hcov.
    pose proof (insert_rows_extends now (frame_data f) W 0) as [ext1 Hext1].
    destruct (insert_rows now (frame_data f) W 0) as [[e W'] ch]. cbn [fst snd] in *.
    subst e. destruct (IH Hnf' Hk' W') as [[ext2 Hext2] Hcov2].
    split; [exists (ext1 ++ ext2); by rewrite Hext2, Hext1, <- app_assoc|].
    constructor; [|exact Hcov2].
    intros _. rewrite Hext2. eapply Forall_impl; [exact Hcov|].
    intros p. apply ignored_extends.
Qed.

(** Frames whose tuples are all ignored leave the rows as they are. *)
Lemma working_after_ignored now T W dfs :
Forall (fun f => frame_fails f = false) dfs ->
Forall (fun f => empty f = false ->
          Forall (fun p => ignored (t_rows W) p = true) (frame_data f)) dfs ->
t_rows (working_after now T W dfs) = t_rows W.
Proof.
intros Hnf. revert W. induction dfs as [|f dfs IH]; intros W Hi; cbn [working_after];
  [reflexivity|].
inversion Hnf as [|? ? Hf Hnf']; inversion Hi as [|? ? Hif Hi']; subst.
destruct (empty f) eqn:He; [by apply IH|].
unfold frame_fails in Hf. rewrite He in Hf. cbn [negb andb] in Hf.
apply negb_false_iff in Hf.
pose proof (insert_rows_error now (frame_data f) W 0) as Herr. rewrite Hf in Herr.
pose proof (insert_rows_ignored now (frame_data f) W 0 (Hif eq_refl)) as Hrows.
destruct (insert_rows now (frame_data f) W 0) as [[e W'] ch]. cbn [fst snd] in *.
subst e. rewrite IH; [exact Hrows|exact Hnf'|]. by rewrite Hrows.
Qed.

(** A list of frames has none that fails, or a last one that does. *)
Lemma last_failing_frame dfs :
Forall (fun f => frame_fails f = false) dfs
\/ exists pre f post,
     dfs = pre ++ f :: post /\ frame_fails f = true
     /\ Forall (fun f => frame_fails f = false) post.
Proof.
induction dfs as [|g dfs IH]; [left; constructor|].
destruct IH as [IH|(pre & f & post & -> & Hf & Hpost)].
- destruct (frame_fails g) eqn:Hg.
  + right. exists [], g, dfs. auto.
  + left. by constructor.
- right. exists (g :: pre), f, post. auto.
Qed.

(** Running the loop again, on its own result, changes no row. *)
Lemma working_after_idempotent now1 now2 T dfs :
Forall (fun f => Forall keyed (frame_data f)) dfs ->
let T' := working_after now1 T T dfs in
t_rows (working_after now2 T' T' dfs) = t_rows T'.
Proof.
intros Hk T'. subst T'.
destruct (last_failing_frame dfs) as [Hnf|(pre & f & post & -> & Hf & Hnf)].
- destruct (working_after_covers now1 T T dfs Hnf Hk) as [_ Hcov].
  by apply working_after_ignored.
- rewrite (working_after_fail now1 T T pre f post Hf).
  rewrite (working_after_fail now2 _ _ pre f post Hf).
  apply Forall_app in Hk as [_ Hk]. inversion Hk as [|? ? _ Hk']; subst.
  destruct (working_after_covers now1 T T post Hnf Hk') as [_ Hcov].
  by apply working_after_ignored.
Qed.

(** The loop of [save_stocks_to_db] on frames that have a symbol column:
  it ends normally, and the connection holds [working_after]. *)
Lemma save_loop_working now dfs :
Forall (fun f => str_in c_symbol (columns f) = true) dfs ->
forall conn n T W,
  committed conn = Some T -> working conn = Some W ->
  exists n' ch,
    save_loop now dfs conn n
    = (Ok n', mkconn (Some T) (Some (working_after now T W dfs)) ch).
Proof.
induction 1 as [|f dfs Hf _ IH]; intros conn n T W HT HW; cbn [save_loop working_after].
- exists n, (total_changes conn). destruct conn; cbn in *. by subst.
- destruct (empty f); [by apply IH|].
  rewrite Hf. cbn [negb]. unfold executemany. rewrite HW.
  pose proof (insert_rows_table now (frame_data f) W (total_changes conn) 0) as Ht.
  unfold frame_data in *.
  destruct (insert_rows now _ W (total_changes conn)) as [[e W1] ch1].
  destruct (insert_rows now _ W 0) as [[e0 W0] ch0]. cbn [fst] in Ht.
  injection Ht as -> ->. destruct e0 as [e0|].
  + apply IH; [by rewrite HT|cbn; by rewrite HT].
  + apply IH; [exact HT|reflexivity].
Qed.

(** Without the table every [executemany] fails and nothing is created. *)
Lemma save_loop_no_table now dfs :
Forall (fun f => str_in c_symbol (columns f) = true) dfs ->
forall conn n,
  committed conn = None -> working conn = None ->
  exists n' ch, save_loop now dfs conn n = (Ok n', mkconn None None ch).
Proof.
induction 1 as [|f dfs Hf _ IH]; intros conn n HT HW; cbn [save_loop].
- exists n, (total_changes conn). destruct conn; cbn in *. by subst.
- destruct (empty f); [by apply IH|].
  rewrite Hf. cbn [negb]. unfold executemany. rewrite HW.
  apply IH; cbn; by rewrite HT.
Qed.

(** What [save_stocks_to_db] leaves on disk. *)
Lemma save_stocks_to_db_table now dfs db :
Forall (fun f => str_in c_symbol (columns f) = true) dfs ->
snd (save_stocks_to_db now dfs db) =
match db with
| Some T => Some (working_after now T T dfs)
| None => None
end.
Proof.
intros Hs. unfold save_stocks_to_db. destruct dfs as [|f dfs]; [by destruct db|].
destruct db as [T|].
- destruct (save_loop_working now (f :: dfs) Hs (get_db_connection (Some T)) 0 T T)
    as (n' & ch & ->); reflexivity.
- destruct (save_loop_no_table now (f :: dfs) Hs (get_db_connection None) 0)
    as (n' & ch & ->); reflexivity.
Qed.

End Store.

Section StoreInvariant.

Variable to_datetime : converter.

Lemma series_get_entries s label default :
  series_get s label default =
  match entries label s with
  | [] => ObjCell default
  | [c] => ObjCell c
  | _ => ObjMany
  end.
Proof. reflexivity. Qed.

Lemma series_get_all (P : cell -> Prop) s label default :
  entries label s <> [] -> Forall P (entries label s) ->
  series_get s label default = ObjMany
  \/ exists c, P c /\ series_get s label default = ObjCell c.
Proof.
  rewrite series_get_entries. destruct (entries label s) as [|c [|c' es]]; intros Hne HF.
  - by destruct Hne.
  - right. exists c. inversion HF; subst. auto.
  - by left.
Qed.

Lemma data_row_pipeline s :
  pipeline_row to_datetime s -> pipeline_params to_datetime (data_row s).
Proof.
  intros [(vs & Hs1 & Hs2) (vp & Hp1 & Hp2) (va & Hva & Ha1 & Ha2) Hd].
  constructor; unfold data_row; cbn [q_symbol q_date q_period q_adjust].
  - destruct (series_get_all _ s c_symbol CMissing Hs1 Hs2) as [H|(c & <- & H)]; eauto.
  - rewrite series_get_entries. destruct (entries c_date s) as [|c [|c' es]]; auto.
    inversion Hd as [|? ? [->|Hc] _]; subst; eauto.
  - destruct (series_get_all _ s c_period (CStr s_daily) Hp1 Hp2) as [H|(c & <- & H)]; eauto.
  - destruct (series_get_all _ s c_adjust (CStr s_qfq) Ha1 Ha2) as [H|(c & <- & H)]; eauto.
Qed.

Lemma bind_value_cell o c :
  bind_value o = Some c ->
  o = ObjCell c \/ exists d, o = ObjCell (CDate d) /\ c = CStr (isoformat d).
Proof. destruct o as [[]|]; cbn; intros [= <-]; eauto. Qed.

Lemma pipeline_params_bound p sym dat vals per adj :
  pipeline_params to_datetime p ->
  bound p = Some (sym, dat, vals, per, adj) ->
  pipeline_bound to_datetime sym dat per adj.
Proof.
  intros [Hs Hd Hp Ha]. unfold bound.
  destruct (bind_value (q_symbol p)) as [sym'|] eqn:Es; [|discriminate].
  destruct (bind_value (q_date p)) as [dat'|] eqn:Ed; [|discriminate].
  destruct (bind_all (q_values p)) as [vals'|]; [|discriminate].
  destruct (bind_value (q_period p)) as [per'|] eqn:Ep; [|discriminate].
  destruct (bind_value (q_adjust p)) as [adj'|] eqn:Ea; [|discriminate].
  intros [= -> -> -> -> ->].
  destruct Hs as [Hs|(v & Hs)]; rewrite Hs in Es; [discriminate|]. injection Es as <-.
  destruct Hp as [Hp|(vp & Hp)]; rewrite Hp in Ep; [discriminate|]. injection Ep as <-.
  destruct Ha as [Ha|(va & Hva & Ha)]; rewrite Ha in Ea; [discriminate|]. injection Ea as <-.
  constructor; eauto.
  destruct Hd as [Hd|[Hd|(c & Hc & Hd)]]; rewrite Hd in Ed; [discriminate| |].
  - injection Ed as <-. auto.
  - pose proof Hc as (col & at_row & i & d & clock & _ & _ & ->).
    injection Ed as <-. auto.
Qed.

Lemma pipeline_params_keyed p : pipeline_params to_datetime p -> keyed p.
Proof.
  intros Hp sym dat vals per adj Hb.
  destruct (pipeline_params_bound _ _ _ _ _ _ Hp Hb) as [_ _ (v & ->) (w & _ & ->)]. auto.
Qed.

(** The frames of the pipeline have a symbol column and pipeline tuples. *)
Lemma pipeline_frame_data df :
  pipeline_frame to_datetime df ->
  str_in c_symbol (columns df) = true
  /\ Forall (pipeline_params to_datetime) (frame_data df).
Proof.
  intros (raw & symbol & period & adjust & H).
  apply process_stock_data_result in H as [Hcols Hrows]. split.
  - rewrite Forall_forall in Hcols. apply Hcols. set_solver.
  - unfold frame_data. apply Forall_fmap. eapply Forall_impl; [exact Hrows|].
    intros r Hr. by apply data_row_pipeline.
Qed.

Lemma pipeline_frames_data dfs :
  Forall (pipeline_frame to_datetime) dfs ->
  Forall (fun f => str_in c_symbol (columns f) = true) dfs
  /\ Forall (fun f => Forall (pipeline_params to_datetime) (frame_data f)) dfs.
Proof.
  intros H. split; (eapply Forall_impl; [exact H|]); intros f Hf;
    by apply pipeline_frame_data.
Qed.

Section Preserved.

(** A property of the rows that inserting a pipeline row preserves. *)
Variable I : list hist_row -> Prop.
Hypothesis I_insert :
  forall l id now sym dat vals per adj,
    I l -> pipeline_bound to_datetime sym dat per adj ->
    is_missing dat = false ->
    existsb (same_key sym dat per adj) l = false ->
    I (l ++ [mkrow id sym dat vals per adj now]).

Lemma insert_rows_preserves now data t ch :
  Forall (pipeline_params to_datetime) data ->
  I (t_rows t) -> I (t_rows (snd (fst (insert_rows now data t ch)))).
Proof.
  revert t ch. induction data as [|p rest IH]; intros t ch Hp Ht; [exact Ht|].
  inversion Hp as [|? ? Hp1 Hp2]; subst. rewrite insert_rows_cons.
  destruct (bound p) as [[[[[sym dat] vals] per] adj]|] eqn:Eb; [|exact Ht].
  pose proof (insert_or_ignore_rows now t sym dat vals per adj) as Hr.
  destruct (insert_or_ignore now t sym dat vals per adj) as [t' changed].
  cbn [fst] in Hr. apply IH; [exact Hp2|]. rewrite Hr.
  pose proof (pipeline_params_bound _ _ _ _ _ _ Hp1 Eb) as Hb.
  destruct (is_missing sym || is_missing dat) eqn:Em; [exact Ht|]. cbn [orb].
  destruct (existsb _ _) eqn:Ee; [exact Ht|].
  apply orb_false_iff in Em as [_ Hd]. by apply I_insert.
Qed.

Lemma working_after_preserves now T W dfs :
  Forall (fun f => Forall (pipeline_params to_datetime) (frame_data f)) dfs ->
  I (t_rows T) -> I (t_rows W) -> I (t_rows (working_after now T W dfs)).
Proof.
  intros Hp HT. revert W. induction dfs as [|f dfs IH]; intros W HW;
    cbn [working_after]; [exact HW|].
  inversion Hp as [|? ? Hf Hp']; subst.
  destruct (empty f); [by apply IH|].
  pose proof (insert_rows_preserves now (frame_data f) W 0 Hf HW) as H1.
  destruct (insert_rows now (frame_data f) W 0) as [[[e|] W'] ch]; by apply IH.
Qed.

End Preserved.

Lemma table_inv_insert l id now sym dat vals per adj :
  table_inv to_datetime l -> pipeline_bound to_datetime sym dat per adj ->
  is_missing dat = false ->
  existsb (same_key sym dat per adj) l = false ->
  table_inv to_datetime (l ++ [mkrow id sym dat vals per adj now]).
Proof.
  intros [Hu Hs] [(vs & ->) Hd (vp & ->) (va & Hva & ->)] Hm He. split.
  - unfold unique_keys in *. rewrite map_app. cbn [map].
    apply NoDup_app. split; [exact Hu|]. split; [|apply NoDup_singleton].
    intros k Hk Hk'. apply list_elem_of_singleton in Hk'. subst k.
    apply list_elem_of_fmap in Hk as (r & Hkey & Hr).
    assert (same_key (CStr vs) dat (CStr vp) (CStr va) r = true) as Hsame.
    { apply same_key_true. cbn in Hkey. auto. }
    assert (existsb (same_key (CStr vs) dat (CStr vp) (CStr va)) l = true) as Hex.
    { apply existsb_exists. exists r. split; [by apply list_elem_of_In|exact Hsame]. }
    congruence.
  - apply Forall_app. split; [exact Hs|]. constructor; [|constructor].
    constructor; cbn; eauto.
    destruct Hd as [->|Hd]; [discriminate|exact Hd].
Qed.

(** Every database the application produces has its table, with one row
    for each key and rows as the pipeline writes them. *)
Lemma reachable_inv db :
  reachable to_datetime db -> exists t, db = Some t /\ table_inv to_datetime (t_rows t).
Proof.
  induction 1 as [|db _ (t & -> & Ht)|db now dfs _ (t & -> & Ht) Hp].
  - exists (mktable [] 0). split; [reflexivity|]. split; constructor.
  - exists t. split; [reflexivity|exact Ht].
  - destruct (pipeline_frames_data dfs Hp) as [Hs Hd].
    rewrite save_stocks_to_db_table by exact Hs. eexists. split; [reflexivity|].
    apply working_after_preserves; try done. intros. by apply table_inv_insert.
Qed.

End StoreInvariant.

(** C1. Saving is idempotent: calling [save_stocks_to_db] again with the
    same frames of the pipeline leaves the rows of [stock_zh_a_hist]
    exactly as the first call left them, identifiers and timestamps
    included; and inserting a row whose (symbol, date, period, adjust) key
    is stored already changes no row. *)
Theorem C1_save_stocks_to_db_idempotent
    (to_datetime : converter) (now1 now2 : Z)
    (df_list : list DataFrame) (db : database) :
  Forall (pipeline_frame to_datetime) df_list ->
  (let db1 := snd (save_stocks_to_db now1 df_list db) in
   option_map t_rows (snd (save_stocks_to_db now2 df_list db1)) = option_map t_rows db1)
  /\ (forall now t sym dat vals per adj,
        existsb (same_key sym dat per adj) (t_rows t) = true ->
        t_rows (fst (insert_or_ignore now t sym dat vals per adj)) = t_rows t).
Proof.
  intros Hp. split.
  - destruct (pipeline_frames_data to_datetime df_list Hp) as [Hs Hd]. cbv zeta.
    rewrite !save_stocks_to_db_table by exact Hs. destruct db as [T|]; [|reflexivity].
    cbn [option_map]. f_equal. apply working_after_idempotent.
    eapply Forall_impl; [exact Hd|]. intros f Hf.
    eapply Forall_impl; [exact Hf|]. apply pipeline_params_keyed.
  - intros now t sym dat vals per adj He. rewrite insert_or_ignore_rows, He.
    by rewrite orb_true_r.
Qed.

(** C10. Starting from an initialised database, every sequence of
    [save_stocks_to_db] calls on frames of the pipeline leaves the table in
    place with at most one row for each (symbol, date, period, adjust). *)
Theorem C10_unique_keys_invariant (to_datetime : converter) (db : database) :
  reachable to_datetime db ->
  exists t, db = Some t /\ unique_keys (t_rows t).
Proof.
  intros H. destruct (reachable_inv to_datetime db H) as (t & -> & [Hu _]). eauto.
Qed.

(* ===================================================================== *)
(** ** Ordering and the query *)
(* ===================================================================== *)

Section Ordering.

Lemma str_ltb_irrefl a : str_ltb a a = false.
Proof. induction a as [|x a IH]; [reflexivity|]. cbn. by rewrite Z.ltb_irrefl. Qed.

Lemma str_ltb_asym a b : str_ltb a b = true -> str_ltb b a = false.
Proof.
revert b. induction a as [|x a IH]; intros [|y b]; cbn; try congruence.
destruct (Z.ltb_spec x y), (Z.ltb_spec y x); try congruence; try lia. apply IH.
Qed.

Lemma str_ltb_total a b : str_ltb a b = false -> str_ltb b a = false -> a = b.
Proof.
revert b. induction a as [|x a IH]; intros [|y b]; cbn; try congruence.
destruct (Z.ltb_spec x y), (Z.ltb_spec y x); try congruence.
intros H1 H2. f_equal; [lia|by apply IH].
Qed.

Lemma str_leb_nil_l a : str_leb [] a = true.
Proof. unfold str_leb. by destruct a. Qed.

Lemma cell_leb_total a b : cell_leb a b = false -> cell_leb b a = true.
Proof.
destruct a, b; cbn; try lia; try congruence.
unfold str_leb. rewrite !negb_false_iff, !negb_true_iff. apply str_ltb_asym.
Qed.

Lemma order_leb_total a b : order_leb a b = false -> order_leb b a = true.
Proof.
unfold order_leb, cell_ltb. intros H. apply orb_false_iff in H as [H1 H2].
apply negb_false_iff in H1. rewrite H1. cbn [negb orb].
apply andb_false_iff in H2 as [H2|H2].
- by rewrite H2.
- rewrite (cell_leb_total _ _ H2). by rewrite orb_true_r.
Qed.

Lemma insert_sorted_elem r x l : x ∈ insert_sorted r l <-> x = r \/ x ∈ l.
Proof.
induction l as [|y l IH]; cbn.
- rewrite list_elem_of_singleton, elem_of_nil. tauto.
- destruct (order_leb r y); rewrite !elem_of_cons; [tauto|]. rewrite IH. tauto.
Qed.

Lemma order_by_elem x l : x ∈ order_by l <-> x ∈ l.
Proof.
induction l as [|r l IH]; [done|]. cbn. rewrite insert_sorted_elem, elem_of_cons, IH. tauto.
Qed.

Lemma insert_sorted_hd r x l :
order_leb x r = true -> HdRel (fun a b => order_leb a b = true) x l ->
HdRel (fun a b => order_leb a b = true) x (insert_sorted r l).
Proof.
intros Hxr Hl. destruct l as [|y l]; cbn; [by constructor|].
destruct (order_leb r y); constructor; [done|]. by inversion Hl.
Qed.

Lemma insert_sorted_sorted r l :
Sorted (fun a b => order_leb a b = true) l ->
Sorted (fun a b => order_leb a b = true) (insert_sorted r l).
Proof.
induction 1 as [|x l Hs IH Hhd]; cbn; [repeat constructor|].
destruct (order_leb r x) eqn:E.
- constructor; [by constructor|by constructor].
- constructor; [exact IH|]. apply insert_sorted_hd; [|exact Hhd].
  by apply order_leb_total.
Qed.

Lemma order_by_sorted l : Sorted (fun a b => order_leb a b = true) (order_by l).
Proof. induction l as [|r l IH]; cbn; [constructor|by apply insert_sorted_sorted]. Qed.

Lemma Sorted_on {A} (R R' : A -> A -> Prop) (P : A -> Prop) l :
(forall a b, P a -> P b -> R a b -> R' a b) ->
Forall P l -> Sorted R l -> Sorted R' l.
Proof.
intros HR HP Hs. induction Hs as [|x l Hs IH Hhd]; [constructor|].
inversion HP as [|? ? Px Pl]; subst. constructor; [by apply IH|].
destruct Hhd as [|y l' Hxy]; constructor. inversion Pl; subst. by apply HR.
Qed.

Lemma order_leb_text sa da sb db per1 adj1 per2 adj2 id1 id2 v1 v2 t1 t2 :
order_leb (mkrow id1 (CStr sa) (CStr da) v1 per1 adj1 t1)
          (mkrow id2 (CStr sb) (CStr db) v2 per2 adj2 t2) = true ->
str_ltb sa sb = true \/ (sa = sb /\ str_leb da db = true).
Proof.
unfold order_leb, cell_ltb, cell_leb, str_leb. cbn.
rewrite negb_involutive. intros H. apply orb_true_iff in H as [H|H]; [by left|].
apply andb_true_iff in H as [H1 H2]. apply negb_true_iff in H1.
destruct (str_ltb sa sb) eqn:E; [by left|]. right.
split; [by apply str_ltb_total|exact H2].
Qed.

End Ordering.

Section Query.

Variable to_datetime : converter.

Lemma adjust_param_stored adjust v :
  v <> [] -> CStr v = CStr (adjust_param adjust) -> v = adjust.
Proof.
  unfold adjust_param. intros Hv [= ->].
  destruct (str_eqb adjust s_None); cbn [negb] in *; [by destruct Hv|reflexivity].
Qed.

(** What the WHERE clause says of a row written by the pipeline.  A bound
    that is a numeral is compared as a number: as the lower bound it lets
    every row through, as the upper bound none. *)
Lemma selected_stored symbols period adjust start_date end_date r :
  stored_ok to_datetime r ->
  selected symbols period (adjust_param adjust) start_date end_date r = true ->
  exists sym d,
    r_symbol r = CStr sym /\ sym ∈ symbols
    /\ r_period r = CStr period /\ r_adjust r = CStr adjust
    /\ r_date r = CStr d
    /\ (forall s, start_date = Some s -> looks_numeric s = false -> str_leb s d = true)
    /\ (forall e, end_date = Some e -> e <> [] ->
          looks_numeric e = false /\ str_leb d e = true).
Proof.
  intros [(vs & Hs) (col & at_row & i & d & clock & _ & _ & Hd) (vp & Hp) (va & Hva & Ha)].
  unfold selected. rewrite !andb_true_iff. intros [[[[Hsym Hper] Hadj] Hst] Hen].
  exists vs, (strftime d). rewrite Hs, Hd in *.
  apply existsb_exists in Hsym as (s & Hin & Hse).
  apply sql_eq_true in Hse as [[= <-] _].
  apply sql_eq_true in Hper as [Hper _]. apply sql_eq_true in Hadj as [Hadj _].
  rewrite Ha in Hadj. apply adjust_param_stored in Hadj; [|exact Hva]. subst va.
  split; [done|]. split; [by apply list_elem_of_In|].
  split; [done|]. split; [done|]. split; [done|]. split.
  - intros s -> Hnum. destruct s as [|c s]; [apply str_leb_nil_l|].
    cbn [truthy] in Hst. unfold sql_ge in Hst. rewrite Hnum in Hst.
    by apply andb_true_iff in Hst as [_ Hst].
  - intros e -> He. destruct e as [|c e]; [done|].
    cbn [truthy] in Hen. unfold sql_le in Hen.
    destruct (looks_numeric (c :: e)); apply andb_true_iff in Hen as [_ Hen];
      [discriminate|done].
Qed.

End Query.

(** C9.  With symbols to look for, [query_stocks_data] opens the database
    before its [try], so a path that cannot be opened raises; on a
    database file it does not raise.  On a database the application has
    written it returns only rows whose symbol is one of the parsed symbols
    and whose period and adjust are the requested ones, in ascending order
    of (symbol, date).  A bound counts as given when it is a string that
    is not empty, and restricts the dates when it is no numeral: a start
    date that is a numeral restricts nothing, an end date that is one
    leaves no row.  The dates the application prints are no numerals.  The
    empty frame is returned when no symbol is parsed, whatever the path,
    and when the query fails for want of the table. *)
Theorem C9_query_stocks_data_filtered_sorted
    (to_datetime : converter)
    (symbols_str : pystr) (start_date end_date : option pystr)
    (period adjust : pystr) (db : database) :
  reachable to_datetime db ->
  (exists result,
     query_stocks_data symbols_str start_date end_date period adjust (DbFile db)
       = Ok result
     /\ Forall (fun r =>
          exists sym d,
            r_symbol r = CStr sym /\ sym ∈ process_symbols symbols_str
            /\ r_period r = CStr period /\ r_adjust r = CStr adjust
            /\ r_date r = CStr d
            /\ (forall s, start_date = Some s -> looks_numeric s = false ->
                  str_leb s d = true)
            /\ (forall e, end_date = Some e -> e <> [] ->
                  looks_numeric e = false /\ str_leb d e = true)) result
     /\ Sorted key_le result
     /\ (process_symbols symbols_str = [] -> result = []))
  /\ query_stocks_data symbols_str start_date end_date period adjust (DbFile None)
     = Ok []
  /\ (forall db', exists result,
        query_stocks_data symbols_str start_date end_date period adjust (DbFile db')
          = Ok result)
  /\ (forall f, process_symbols symbols_str = [] ->
        query_stocks_data symbols_str start_date end_date period adjust f = Ok [])
  /\ (process_symbols symbols_str <> [] ->
        query_stocks_data symbols_str start_date end_date period adjust NoFile
          = Raise OperationalError)
  /\ (forall b, valid_date b = true -> 1000 <= year b ->
        looks_numeric (strftime b) = false).
Proof.
  intros Hreach. split; [|split; [|split; [|split; [|split]]]].
  - destruct (reachable_inv to_datetime db Hreach) as (t & -> & [_ Hok]).
    unfold query_stocks_data.
    destruct (process_symbols symbols_str) as [|s0 ss] eqn:Es.
    { exists []. repeat split; constructor. }
    cbn [connect mbind exc_bind bind_exc get_db_connection working read_sql].
    fold (adjust_param adjust).
    set (sel := filter (fun r => selected (s0 :: ss) period (adjust_param adjust)
                                   start_date end_date r) (t_rows t)).
    exists (order_by sel). split; [reflexivity|].
    assert (Hsel : Forall (fun r =>
        stored_ok to_datetime r
        /\ selected (s0 :: ss) period (adjust_param adjust) start_date end_date r = true)
        (order_by sel)).
    { apply Forall_forall. intros r Hr. apply (proj1 (order_by_elem _ _)) in Hr. subst sel.
      apply list_elem_of_filter in Hr as [Hr1 Hr2]. split.
      - rewrite Forall_forall in Hok. by apply Hok.
      - by apply Is_true_true. }
    split; [|split; [|discriminate]].
    + eapply Forall_impl; [exact Hsel|]. intros r [H1 H2].
      by apply (selected_stored to_datetime) in H2.
    + eapply Sorted_on; [|exact Hsel|apply order_by_sorted].
      intros a b [[(sa & Ha) (? & ? & ? & da & ? & _ & _ & Hda) _ _] _]
                 [[(sb & Hb) (? & ? & ? & db0 & ? & _ & _ & Hdb) _ _] _] Hab.
      destruct a, b; cbn in *; subst.
      apply order_leb_text in Hab. exists sa, (strftime da), sb, (strftime db0). auto.
  - unfold query_stocks_data. by destruct (process_symbols symbols_str).
  - intros db'. unfold query_stocks_data. destruct (process_symbols symbols_str); [eauto|].
    cbn [connect mbind exc_bind bind_exc get_db_connection working].
    destruct (read_sql _ _ _ _ _ _); eauto.
  - intros f Hnone. unfold query_stocks_data. by rewrite Hnone.
  - intros Hsome. unfold query_stocks_data.
    by destruct (process_symbols symbols_str).
  - apply looks_numeric_strftime.
Qed.
(* ===================================================================== *)
(** ** The incremental update *)
(* ===================================================================== *)

Section DateOrder.

(** [date_ltb] spelled out. *)
Lemma date_ltb_true a b :
  date_ltb a b = true <->
  year a < year b
  \/ (year a = year b /\ (month a < month b \/ (month a = month b /\ day a < day b))).
Proof.
  unfold date_ltb.
  rewrite !orb_true_iff, !andb_true_iff, !orb_true_iff, !andb_true_iff,
    !Z.ltb_lt, !Z.eqb_eq. tauto.
Qed.

Lemma date_ltb_false a b :
  date_ltb a b = false <->
  year b < year a
  \/ (year a = year b /\ (month b < month a \/ (month a = month b /\ day b <= day a))).
Proof.
  destruct (date_ltb a b) eqn:E.
  - apply date_ltb_true in E. split; [discriminate|]. lia.
  - split; [intros _|done].
    assert (H : ~ (year a < year b
                   \/ (year a = year b
                       /\ (month a < month b \/ (month a = month b /\ day a < day b))))).
    { intros H. apply date_ltb_true in H. congruence. }
    lia.
Qed.

Lemma date_ltb_trans a b c :
  date_ltb a b = false -> date_ltb b c = false -> date_ltb a c = false.
Proof. rewrite !date_ltb_false. lia. Qed.

Lemma date_ltb_false_total a b : date_ltb a b = true -> date_ltb b a = false.
Proof. rewrite date_ltb_true, date_ltb_false. lia. Qed.

Lemma date_ltb_irrefl a : date_ltb a a = false.
Proof. unfold date_ltb. rewrite !Z.ltb_irrefl, !Z.eqb_refl. reflexivity. Qed.

Lemma date_ltb_antisym a b : date_ltb a b = false -> date_ltb b a = false -> a = b.
Proof.
  rewrite !date_ltb_false. destruct a as [ya ma da], b as [yb mb db].
  cbn [year month day]. intros H1 H2.
  assert (ya = yb /\ ma = mb /\ da = db) as (-> & -> & ->) by lia. reflexivity.
Qed.

(** [add_one_day] gives the next day of the calendar. *)
Lemma add_one_day_next a b :
  valid_date a = true -> add_one_day a = Some b -> next_day a b.
Proof.
  intros Hv Hb. destruct (add_one_day_valid a b Hv Hb) as (Hvb & _ & Hlt).
  split; [exact Hvb|]. split; [exact Hlt|].
  intros c Hc Hac. apply date_ltb_false. apply date_ltb_true in Hac.
  apply valid_date_spec in Hv as (Hy & Hm & Hd).
  apply valid_date_spec in Hc as (Hyc & Hmc & Hdc).
  unfold add_one_day in Hb.
  destruct (Z.ltb_spec (day a) (days_in_month (year a) (month a))).
  { injection Hb as <-. cbn [year month day]. lia. }
  destruct (Z.ltb_spec (month a) 12).
  { injection Hb as <-. cbn [year month day].
    destruct (Z.eq_dec (year c) (year a)) as [Ey|Ey]; [|lia].
    destruct (Z.eq_dec (month c) (month a)) as [Em|Em]; [|lia].
    rewrite Ey, Em in Hdc. lia. }
  destruct (Z.ltb_spec (year a) 9999); [|discriminate].
  injection Hb as <-. cbn [year month day].
  destruct (Z.eq_dec (year c) (year a)) as [Ey|Ey]; [|lia].
  destruct (Z.eq_dec (month c) (month a)) as [Em|Em]; [|lia].
  rewrite Ey, Em in Hdc. lia.
Qed.

Lemma next_day_unique a b b' : next_day a b -> next_day a b' -> b = b'.
Proof.
  intros (Hv & Hlt & Hmin) (Hv' & Hlt' & Hmin').
  apply date_ltb_antisym; [by apply Hmin'|by apply Hmin].
Qed.

(** Days of four-digit years are told apart by their printed form. *)
Lemma strftime_inj a b :
  valid_date a = true -> 1000 <= year a -> valid_date b = true -> 1000 <= year b ->
  strftime a = strftime b -> a = b.
Proof.
  intros Va Ya Vb Yb E.
  pose proof (strptime_strftime a Va Ya) as Ha.
  rewrite E, (strptime_strftime b Vb Yb) in Ha. congruence.
Qed.

Lemma day_text_inj a b c : day_text a c -> day_text b c -> a = b.
Proof.
  intros (Va & Ya & ->) (Vb & Yb & [= E]). by apply strftime_inj.
Qed.

End DateOrder.

Section TextOrder.

Lemma str_ltb_trans a b c :
  str_ltb a b = true -> str_ltb b c = true -> str_ltb a c = true.
Proof.
  revert b c. induction a as [|x a IH]; intros [|y b] [|z c]; cbn; try congruence.
  destruct (Z.ltb_spec x y), (Z.ltb_spec y x), (Z.ltb_spec y z), (Z.ltb_spec z y),
    (Z.ltb_spec x z), (Z.ltb_spec z x); try congruence; try lia.
  apply IH.
Qed.

Lemma str_leb_trans a b c :
  str_leb a b = true -> str_leb b c = true -> str_leb a c = true.
Proof.
  unfold str_leb. rewrite !negb_true_iff. intros Hab Hbc.
  destruct (str_ltb c a) eqn:Hca; [|reflexivity].
  destruct (str_ltb a b) eqn:E1.
  - pose proof (str_ltb_trans _ _ _ Hca E1). congruence.
  - pose proof (str_ltb_total _ _ E1 Hab). subst. congruence.
Qed.

Lemma max_text_date_none l r s :
  max_text_date l = None -> r ∈ l -> r_date r = CStr s -> False.
Proof.
  induction l as [|r1 l IH]; intros Em Hr Hs; [by apply elem_of_nil in Hr|].
  cbn in Em. apply elem_of_cons in Hr as [->|Hr].
  - rewrite Hs in Em. by destruct (max_text_date l).
  - destruct (r_date r1), (max_text_date l); try discriminate; by apply IH.
Qed.

(** MAX(date) is an upper bound of the text dates. *)
Lemma max_text_date_upper l m r s :
  max_text_date l = Some m -> r ∈ l -> r_date r = CStr s -> str_leb s m = true.
Proof.
  revert m. induction l as [|r0 l IH]; intros m Hm Hr Hs; [by apply elem_of_nil in Hr|].
  cbn in Hm. apply elem_of_cons in Hr as [->|Hr].
  - rewrite Hs in Hm. destruct (max_text_date l) as [m'|].
    + injection Hm as <-. unfold str_max, str_leb.
      destruct (str_ltb s m') eqn:E; [by rewrite (str_ltb_asym _ _ E)|].
      by rewrite str_ltb_irrefl.
    + injection Hm as <-. unfold str_leb. by rewrite str_ltb_irrefl.
  - destruct (max_text_date l) as [m'|] eqn:Em.
    + assert (Hsm : str_leb s m' = true) by (by eapply IH).
      assert (Hmm : str_leb m' m = true).
      { destruct (r_date r0) as [|s0| | | |];
          try (injection Hm as <-; unfold str_leb; by rewrite str_ltb_irrefl).
        injection Hm as <-. unfold str_max, str_leb.
        destruct (str_ltb s0 m') eqn:E; [by rewrite str_ltb_irrefl|].
        by rewrite E. }
      by eapply str_leb_trans.
    + exfalso. by eapply max_text_date_none.
Qed.


Lemma matches_triple_true symbol period adjust r :
  matches_triple symbol period adjust r = true <-> stored_for symbol period adjust r.
Proof.
  unfold matches_triple, stored_for. rewrite !andb_true_iff, !sql_eq_true. split.
  - intros [[[-> _] [-> _]] [-> _]]. auto.
  - intros (-> & -> & ->). auto.
Qed.

(** The latest day there can be only one. *)
Lemma latest_day_unique l symbol period adjust last last' :
  latest_day l symbol period adjust last ->
  latest_day l symbol period adjust last' -> last = last'.
Proof.
  destruct last as [d|], last' as [d'|]; cbn [latest_day]; [| | |done].
  - intros [(r & Hr & Hf & Ht) Hup] [(r' & Hr' & Hf' & Ht') Hup'].
    destruct (Hup r' Hr' Hf') as (x & Hx & Hdx).
    destruct (Hup' r Hr Hf) as (y & Hy & Hdy).
    rewrite <- (day_text_inj _ _ _ Ht' Hx) in Hdx.
    rewrite <- (day_text_inj _ _ _ Ht Hy) in Hdy.
    f_equal. by apply date_ltb_antisym.
  - intros [(r & Hr & Hf & _) _] Hnone. by destruct (Hnone r Hr).
  - intros Hnone [(r & Hr & Hf & _) _]. by destruct (Hnone r Hr).
Qed.

Lemma start_day_unique last start start' :
  start_day last start -> start_day last start' -> start = start'.
Proof.
  destruct last as [d|]; cbn [start_day]; [apply next_day_unique|congruence].
Qed.

End TextOrder.

Section Update.

Variable to_datetime : converter.
Hypothesis to_datetime_range : datetime_in_range to_datetime.

Lemma max_text_date_elem l m :
  max_text_date l = Some m -> exists r, r ∈ l /\ r_date r = CStr m.
Proof.
  revert m. induction l as [|r l IH]; intros m; cbn; [discriminate|].
  destruct (r_date r) as [|d| | | |] eqn:Ed;
    try (intros H; destruct (IH _ H) as (r' & ? & ?); exists r';
         split; [apply elem_of_cons; auto|done]).
  destruct (max_text_date l) as [m'|] eqn:Em.
  - intros [= <-]. unfold str_max. destruct (str_ltb d m').
    + destruct (IH _ eq_refl) as (r' & ? & ?). exists r'.
      split; [apply elem_of_cons; auto|done].
    + exists r. split; [apply elem_of_cons; auto|done].
  - intros [= <-]. exists r. split; [apply elem_of_cons; auto|done].
Qed.

Lemma strftime_truthy d : valid_date d = true -> 1000 <= year d -> truthy (strftime d) = true.
Proof.
  intros Hv Hy.
  destruct (strftime_digits d Hv Hy)
    as (a & b & c & e & m1 & m0 & d1 & d0 & _ & _ & _ & _ & _ & _ & ->).
  reflexivity.
Qed.

(** The start of the window, as a day: the day after the latest stored
    one, 1990-01-01 without any. *)
Lemma start_date_of_stored l :
  Forall (stored_ok to_datetime) l ->
  exists start,
    valid_date start = true /\ 1000 <= year start
    /\ start_date_of (max_text_date l) = Ok (strftime start)
    /\ match max_text_date l with
       | Some m => exists d, m = strftime d /\ valid_date d = true
                             /\ add_one_day d = Some start
       | None => start = mkdate 1990 1 1
       end.
Proof.
  intros Hok. destruct (max_text_date l) as [m|] eqn:Em.
  - destruct (max_text_date_elem _ _ Em) as (r & Hr & Hd).
    rewrite Forall_forall in Hok. destruct (Hok r Hr) as [_ (col & at_row & i & d & clock & Hx & Hi & Hd') _ _].
    rewrite Hd in Hd'. injection Hd' as ->.
    destruct (to_datetime_range col at_row i d clock Hx Hi) as [Hv Hy].
    destruct (add_one_day_some d Hv) as [start Hs]; [lia|].
    destruct (add_one_day_valid d start Hv Hs) as (Hvs & Hys & _).
    exists start. split; [exact Hvs|]. split; [lia|]. split; [|eauto].
    unfold start_date_of. rewrite strftime_truthy by (done || lia).
    rewrite strptime_strftime by (done || lia). by rewrite Hs.
  - exists (mkdate 1990 1 1). repeat split; try reflexivity. cbn. lia.
Qed.

(** MAX(date) over the rows of a symbol, a period and an adjust value is
    the latest day stored for them, printed. *)
Lemma max_text_date_latest l symbol period adjust :
  Forall (stored_ok to_datetime) l ->
  match max_text_date (filter (matches_triple symbol period adjust) l) with
  | Some m =>
      exists d, m = strftime d /\ valid_date d = true /\ 1677 <= year d <= 2262
                /\ latest_day l symbol period adjust (Some d)
  | None => latest_day l symbol period adjust None
  end.
Proof.
  intros Hok. rewrite Forall_forall in Hok.
  assert (Hday : forall r, r ∈ l ->
            exists d, valid_date d = true /\ 1677 <= year d <= 2262
                      /\ r_date r = CStr (strftime d)).
  { intros r Hr. destruct (Hok r Hr) as [_ (col & at_row & i & d & clock & Hx & Hi & Hd) _ _].
    destruct (to_datetime_range col at_row i d clock Hx Hi). eauto. }
  destruct (max_text_date _) as [m|] eqn:Em.
  - destruct (max_text_date_elem _ _ Em) as (r0 & Hr0 & Hd0).
    apply list_elem_of_filter in Hr0 as [Hf0 Hr0]. apply Is_true_true in Hf0.
    apply matches_triple_true in Hf0.
    destruct (Hday r0 Hr0) as (d & Hv & Hy & Hd). rewrite Hd0 in Hd. injection Hd as ->.
    exists d. split; [reflexivity|]. split; [exact Hv|]. split; [exact Hy|]. split.
    + exists r0. split; [done|]. split; [done|]. split; [done|]. split; [lia|done].
    + intros r Hr Hf. destruct (Hday r Hr) as (d' & Hv' & Hy' & Hd').
      exists d'. split; [split; [done|]; split; [lia|done]|].
      assert (Hin : r ∈ filter (matches_triple symbol period adjust) l).
      { apply list_elem_of_filter. split; [|exact Hr]. apply Is_true_true.
        by apply matches_triple_true. }
      pose proof (max_text_date_upper _ _ _ _ Em Hin Hd') as Hle.
      unfold str_leb in Hle. apply negb_true_iff in Hle.
      rewrite str_ltb_strftime in Hle by (done || lia). exact Hle.
  - intros r Hr Hf. destruct (Hday r Hr) as (d & _ & _ & Hd).
    eapply max_text_date_none; [exact Em| |exact Hd].
    apply list_elem_of_filter. split; [|exact Hr]. apply Is_true_true.
    by apply matches_triple_true.
Qed.

(** The start of the window after a latest day, and without one. *)
Lemma start_date_of_day d start :
  valid_date d = true -> 1000 <= year d -> add_one_day d = Some start ->
  start_date_of (Some (strftime d)) = Ok (strftime start).
Proof.
  intros Hv Hy Hs. unfold start_date_of. rewrite strftime_truthy by done.
  rewrite strptime_strftime by done. by rewrite Hs.
Qed.

Lemma s_1990_01_01_printed : s_1990_01_01 = strftime (mkdate 1990 1 1).
Proof. reflexivity. Qed.

End Update.

(* ===================================================================== *)
(** ** The storage key: what is saved and what is looked up *)
(* ===================================================================== *)

Section StorageKey.

Variable to_datetime : converter.

(** Under the unadjusted setting the look-ups filter on the empty
    string, which no stored row carries: nothing is ever found. *)
Lemma unadjusted_rows_not_found db symbol symbols_str start_date end_date period :
  reachable to_datetime db ->
  select_max_date db symbol period (adjust_param s_None) = Ok None
  /\ query_stocks_data symbols_str start_date end_date period s_None (DbFile db) = Ok [].
Proof.
  intros Hreach. destruct (reachable_inv to_datetime db Hreach) as (t & -> & [_ Hok]).
  assert (Hnone : forall (f : hist_row -> bool),
             (forall r, f r = true -> sql_eq (r_adjust r) (CStr s_empty) = true) ->
             filter f (t_rows t) = []).
  { intros f Hf. induction (t_rows t) as [|r l IH]; [reflexivity|].
    inversion Hok as [|? ? Hr Hl]; subst. rewrite filter_cons_bool.
    destruct (f r) eqn:E; [|by apply IH].
    apply Hf, sql_eq_true in E as [E _]. destruct Hr as [_ _ _ (v & Hv & Hr)].
    rewrite Hr in E. injection E as ->. by destruct Hv. }
  split.
  - cbn [select_max_date]. rewrite Hnone; [reflexivity|].
    intros r Hr. unfold matches_triple in Hr. by apply andb_true_iff in Hr as [_ Hr].
  - unfold query_stocks_data. destruct (process_symbols symbols_str); [reflexivity|].
    cbn [connect mbind exc_bind bind_exc get_db_connection working read_sql].
    rewrite Hnone; [reflexivity|].
    intros r Hr. unfold selected in Hr. rewrite !andb_true_iff in Hr. tauto.
Qed.

(** Under every other setting the rows stored under a triple are the
    ones the query returns for it. *)
Lemma adjusted_rows_found t r sym symbols_str period adjust :
  str_eqb adjust s_None = false ->
  r ∈ t_rows t ->
  r_symbol r = CStr sym -> sym ∈ process_symbols symbols_str ->
  r_period r = CStr period -> r_adjust r = CStr adjust ->
  exists result,
    query_stocks_data symbols_str None None period adjust (DbFile (Some t)) = Ok result
    /\ r ∈ result.
Proof.
  intros Ha Hr Hs Hin Hp Hadj. unfold query_stocks_data.
  destruct (process_symbols symbols_str) as [|s0 ss] eqn:E; [by apply elem_of_nil in Hin|].
  cbn [connect mbind exc_bind bind_exc get_db_connection working read_sql].
  eexists. split; [reflexivity|].
  apply order_by_elem, list_elem_of_filter. split; [|exact Hr].
  apply Is_true_true. unfold selected. rewrite Ha, Hs, Hp, Hadj. cbn [negb].
  rewrite !andb_true_iff. repeat split.
  - apply existsb_exists. exists sym. split; [by apply list_elem_of_In|].
    apply sql_eq_true. auto.
  - apply sql_eq_true. auto.
  - apply sql_eq_true. auto.
Qed.

End StorageKey.

(** C3. The storage key under the unadjusted setting.  A frame fetched
    with adjust "None" is stored with adjust = 'None', while
    [update_stock_data] and [query_stocks_data] look for adjust = '': the
    rows just saved under (600000, daily, None) are found by neither,
    whereas the same data saved under "qfq" is found by both. *)
Theorem C3_unadjusted_key_not_round_trip :
  (exists t, Samples.db_None = Some t
             /\ map key_of (t_rows t)
                = [ (CStr Samples.sym_600000, CStr (strftime (mkdate 2024 1 2)),
                     CStr s_daily, CStr s_None);
                    (CStr Samples.sym_600000, CStr (strftime (mkdate 2024 1 3)),
                     CStr s_daily, CStr s_None) ])
  /\ (adjust_param s_None = s_empty
      /\ adjust_param s_qfq = s_qfq /\ adjust_param s_hfq = s_hfq)
  /\ select_max_date Samples.db_None Samples.sym_600000 s_daily (adjust_param s_None)
     = Ok None
  /\ query_stocks_data Samples.sym_600000 None None s_daily s_None
       (DbFile Samples.db_None) = Ok []
  /\ select_max_date Samples.db_qfq Samples.sym_600000 s_daily (adjust_param s_qfq)
     = Ok (Some (strftime (mkdate 2024 1 3)))
  /\ (exists result,
        query_stocks_data Samples.sym_600000 None None s_daily s_qfq
          (DbFile Samples.db_qfq)
        = Ok result /\ length result = 2%nat).
Proof.
  split; [eexists; split; [reflexivity|]; vm_compute; reflexivity|].
  split; [repeat split; reflexivity|]. split; [vm_compute; reflexivity|].
  split; [vm_compute; reflexivity|]. split; [vm_compute; reflexivity|].
  eexists. split; [vm_compute; reflexivity|]. reflexivity.
Qed.

(** C2. The window of the incremental update under the unadjusted
    setting.  With rows stored for (600000, daily, None) up to 2024-01-03,
    [update_stock_data] on 2024-01-04 asks the vendor for the window from
    1990-01-01: the stored MAX(date) of the triple is not used. *)
Theorem C2_unadjusted_window_starts_over :
  (exists t, Samples.db_None = Some t
             /\ max_text_date (filter (matches_triple Samples.sym_600000 s_daily s_None)
                                      (t_rows t))
                = Some (strftime (mkdate 2024 1 3)))
  /\ fetches (snd (update_stock_data REQUEST_CONFIG Samples.vendor_none
                     Samples.sample_to_datetime (mkdate 2024 1 4)
                     Samples.sym_600000 s_daily s_None Samples.db_None []))
     = [EvFetch Samples.sym_600000 s_daily s_1990_01_01 (strftime (mkdate 2024 1 4)) s_empty]
  /\ fetches (snd (update_stock_data REQUEST_CONFIG Samples.vendor_none
                     Samples.sample_to_datetime (mkdate 2024 1 4)
                     Samples.sym_600000 s_daily s_qfq Samples.db_qfq []))
     = [EvFetch Samples.sym_600000 s_daily (strftime (mkdate 2024 1 4))
                (strftime (mkdate 2024 1 4)) s_qfq].
Proof.
  split; [eexists; split; [reflexivity|]; vm_compute; reflexivity|].
  split; vm_compute; reflexivity.
Qed.

(* ===================================================================== *)
(** ** The retry loop *)
(* ===================================================================== *)

Section Retry.

Variable cfg : request_config.
Variable ak_stock_zh_a_hist : vendor.
Variable to_datetime : converter.
Variables symbol start_date end_date period adjust : pystr.

Let call : event :=
  EvFetch symbol period start_date end_date (adjust_param adjust).

Local Ltac never_down :=
  intros;
  match goal with
  | H : forall t, ?f t = Raise _, E : ?f _ = Ok _ |- _ => rewrite H in E; discriminate
  end.

Lemma attempts_and_waits_app t1 t2 :
  attempts_and_waits (t1 ++ t2) = attempts_and_waits t1 ++ attempts_and_waits t2.
Proof. unfold attempts_and_waits. apply filter_app. Qed.

(** The loop from attempt [a] on, [n] iterations being left of [m]. *)
Lemma retry_loop_schedule m n a tr :
  Z.of_nat (S n) = m - a ->
  exists r new j,
    retry_loop cfg ak_stock_zh_a_hist to_datetime symbol start_date end_date
      period adjust m (S n) a tr = (Ok r, tr ++ new)
    /\ attempts_and_waits new = schedule call a j
    /\ a + Z.of_nat j <= m - 1
    /\ (forall df, r = Some df ->
          exists tr0 raw,
            ak_stock_zh_a_hist tr0 = Ok (Some raw) /\ empty raw = false
            /\ process_stock_data to_datetime raw symbol period adjust = Ok df)
    /\ ((forall t, ak_stock_zh_a_hist t = Raise RequestException) ->
        a + Z.of_nat j = m - 1 /\ r = None).
Proof.
  revert a tr. induction n as [|n IH]; intros a tr Hn.
  - (* the last attempt *)
    cbn [retry_loop]. unfold add_random_delay. fold (adjust_param adjust). fold call.
    set (dly := EvDelay (py_or None (min_delay cfg)) (py_or None (max_delay cfg))).
    set (tr2 := (tr ++ [dly]) ++ [call]).
    assert (Hlast : (a <? m - 1) = false) by lia.
    assert (Hfail : forall e,
      (if is_request_exception e
       then if a <? m - 1
            then retry_loop cfg ak_stock_zh_a_hist to_datetime symbol start_date
                   end_date period adjust m 0 (a + 1)
                   (tr2 ++ [EvSt StWarning; EvSleep (2 ^ (a + 1))])
            else (Ok None, tr2 ++ [EvSt StError])
       else (Ok None, tr2 ++ [EvSt StError]))
      = (Ok None, tr ++ [dly; call; EvSt StError])).
    { intros e. rewrite Hlast. subst tr2. rewrite <- !app_assoc.
      by destruct (is_request_exception e). }
    destruct (ak_stock_zh_a_hist tr2) as [[raw|]|e] eqn:Eak; cbn [mbind exc_bind bind_exc].
    + destruct (empty raw) eqn:Ee.
      * exists None, [dly; call], 0%nat.
        subst tr2. rewrite <- !app_assoc.
        repeat split; try lia; try done; try never_down.
      * destruct (process_stock_data to_datetime raw symbol period adjust) as [df|e] eqn:Ep;
          cbn [mbind exc_bind bind_exc].
        -- exists (Some df), [dly; call], 0%nat.
           subst tr2. rewrite <- !app_assoc.
           repeat split; try lia; try done; try never_down.
           intros df' [= <-]. eauto.
        -- rewrite Hfail. exists None, [dly; call; EvSt StError], 0%nat.
           repeat split; try lia; try done; try never_down.
    + exists None, [dly; call], 0%nat.
      subst tr2. rewrite <- !app_assoc.
      repeat split; try lia; try done; try never_down.
    + rewrite Hfail. exists None, [dly; call; EvSt StError], 0%nat.
      repeat split; try lia; try done.
  - (* an attempt that may be retried *)
    cbn [retry_loop]. unfold add_random_delay. fold (adjust_param adjust). fold call.
    set (dly := EvDelay (py_or None (min_delay cfg)) (py_or None (max_delay cfg))).
    set (tr2 := (tr ++ [dly]) ++ [call]).
    assert (Hmore : (a <? m - 1) = true) by lia.
    assert (Hfail : forall e,
      exists r new j,
        (if is_request_exception e
         then if a <? m - 1
              then retry_loop cfg ak_stock_zh_a_hist to_datetime symbol start_date
                     end_date period adjust m (S n) (a + 1)
                     (tr2 ++ [EvSt StWarning; EvSleep (2 ^ (a + 1))])
              else (Ok None, tr2 ++ [EvSt StError])
         else (Ok None, tr2 ++ [EvSt StError])) = (Ok r, tr ++ new)
        /\ attempts_and_waits new = schedule call a j
        /\ a + Z.of_nat j <= m - 1
        /\ (forall df, r = Some df ->
              exists tr0 raw,
                ak_stock_zh_a_hist tr0 = Ok (Some raw) /\ empty raw = false
                /\ process_stock_data to_datetime raw symbol period adjust = Ok df)
        /\ (e = RequestException ->
            (forall t, ak_stock_zh_a_hist t = Raise RequestException) ->
            a + Z.of_nat j = m - 1 /\ r = None)).
    { intros e. destruct (is_request_exception e) eqn:Ee.
      - rewrite Hmore.
        destruct (IH (a + 1) (tr2 ++ [EvSt StWarning; EvSleep (2 ^ (a + 1))]))
          as (r & new & j & -> & Hs & Hj & Hr & Hall); [lia|].
        exists r, ([dly; call; EvSt StWarning; EvSleep (2 ^ (a + 1))] ++ new), (S j).
        subst tr2. rewrite <- !app_assoc. split; [reflexivity|].
        split; [rewrite attempts_and_waits_app, Hs; reflexivity|].
        split; [lia|]. split; [exact Hr|].
        intros _ H. destruct (Hall H). split; [lia|done].
      - exists None, [dly; call; EvSt StError], 0%nat.
        subst tr2. rewrite <- !app_assoc.
        repeat split; try lia; try done; subst e; discriminate. }
    destruct (ak_stock_zh_a_hist tr2) as [[raw|]|e] eqn:Eak; cbn [mbind exc_bind bind_exc].
    + destruct (empty raw) eqn:Ee.
      * exists None, [dly; call], 0%nat.
        subst tr2. rewrite <- !app_assoc.
        repeat split; try lia; try done; try never_down.
      * destruct (process_stock_data to_datetime raw symbol period adjust) as [df|e] eqn:Ep;
          cbn [mbind exc_bind bind_exc].
        -- exists (Some df), [dly; call], 0%nat.
           subst tr2. rewrite <- !app_assoc.
           repeat split; try lia; try done; try never_down.
           intros df' [= <-]. eauto.
        -- destruct (Hfail e) as (r & new & j & E & Hs & Hj & Hr & _).
           exists r, new, j.
           repeat split; try done; try never_down.
    + exists None, [dly; call], 0%nat.
      subst tr2. rewrite <- !app_assoc.
      repeat split; try lia; try done; try never_down.
    + destruct (Hfail e) as (r & new & j & E & Hs & Hj & Hr & Hall).
      exists r, new, j.
      repeat split; try done;
        match goal with
        | H : forall t, _ t = Raise RequestException |- _ =>
            rewrite H in Eak; injection Eak as <-;
            destruct (Hall eq_refl H) as [? ?]; done
        end.
Qed.

End Retry.

Lemma fetches_of_attempts tr : fetches tr = filter is_fetch (attempts_and_waits tr).
Proof.
  unfold fetches, attempts_and_waits. induction tr as [|e tr IH]; [reflexivity|].
  rewrite !filter_cons_bool. destruct e; cbn [is_fetch is_sleep orb];
    rewrite ?filter_cons_bool; cbn [is_fetch]; by rewrite IH.
Qed.

Lemma fetches_schedule call a j :
  is_fetch call = true -> length (filter is_fetch (schedule call a j)) = S j.
Proof.
  intros Hc. revert a. induction j as [|j IH]; intros a; cbn [schedule].
  - rewrite filter_cons_bool, Hc. reflexivity.
  - rewrite !filter_cons_bool, Hc. cbn [is_fetch length]. by rewrite IH.
Qed.



(* ===================================================================== *)
(** ** The decision of the incremental update *)
(* ===================================================================== *)

(** C4. The decision of [update_stock_data].  On a database the
    application has written, take the latest day stored for the symbol,
    the period and the adjust value looked for, and as start the day after
    it, or 1990-01-01 when no row is stored for them; both are determined
    by the stored rows.  When the start is after today the function
    returns [None] and does nothing but the [st.info]: no vendor call, no
    wait.  In every other case the [st.info] is followed by the vendor
    calls of the retry schedule, at least one, each for the symbol, the
    period and the window from the start to today.  The comparison is made
    on the printed dates, whose order is the order of the days.  The retry
    bound of the configuration is positive, as the application sets it. *)
Theorem C4_update_decision
    (cfg : request_config) (ak_stock_zh_a_hist : vendor)
    (to_datetime : converter) (today : date)
    (symbol period adjust : pystr) (db : database) (tr : trace) :
  datetime_in_range to_datetime ->
  reachable to_datetime db ->
  valid_date today = true -> 1000 <= year today ->
  0 < max_retries cfg ->
  exists (t : table) (last : option date) (start : date),
    db = Some t
    /\ latest_day (t_rows t) symbol period (adjust_param adjust) last
    /\ start_day last start
    /\ (forall last' start',
          latest_day (t_rows t) symbol period (adjust_param adjust) last' ->
          start_day last' start' -> last' = last /\ start' = start)
    /\ str_gtb (strftime start) (strftime today) = date_ltb today start
    /\ exists result new,
         update_stock_data cfg ak_stock_zh_a_hist to_datetime today
           symbol period adjust db tr
         = (result, tr ++ EvSt StInfo :: new)
         /\ if date_ltb today start
            then result = Ok None /\ new = []
            else exists j,
                   Z.of_nat j <= max_retries cfg - 1
                   /\ attempts_and_waits new
                      = schedule (EvFetch symbol period (strftime start)
                                    (strftime today) (adjust_param adjust)) 0 j.
Proof.
  intros Hrange Hreach Hv Hy Hm.
  destruct (reachable_inv to_datetime db Hreach) as (t & -> & [_ Hok]).
  pose proof (max_text_date_latest to_datetime Hrange (t_rows t) symbol period
                (adjust_param adjust) Hok) as Hl.
  set (l := filter (matches_triple symbol period (adjust_param adjust)) (t_rows t)) in *.
  assert (Hstart : exists last start,
            latest_day (t_rows t) symbol period (adjust_param adjust) last
            /\ start_day last start
            /\ valid_date start = true /\ 1000 <= year start
            /\ start_date_of (max_text_date l) = Ok (strftime start)).
  { destruct (max_text_date l) as [m|].
    - destruct Hl as (d & -> & Hvd & Hyd & Hl).
      destruct (add_one_day_some d Hvd) as [start Hs]; [lia|].
      destruct (add_one_day_valid d start Hvd Hs) as (Hvs & Hys & _).
      exists (Some d), start. split; [exact Hl|].
      split; [by apply add_one_day_next|]. split; [exact Hvs|]. split; [lia|].
      apply start_date_of_day; [done|lia|done].
    - exists None, (mkdate 1990 1 1). split; [exact Hl|]. split; [reflexivity|].
      split; [reflexivity|]. split; [cbn; lia|reflexivity]. }
  destruct Hstart as (last & start & Hlast & Hsd & Hvs & Hys & Estart).
  exists t, last, start. split; [reflexivity|]. split; [exact Hlast|].
  split; [exact Hsd|]. split.
  { intros last' start' Hl' Hs'.
    pose proof (latest_day_unique _ _ _ _ _ _ Hl' Hlast) as ->.
    split; [reflexivity|]. by eapply start_day_unique. }
  assert (Hcmp : str_gtb (strftime start) (strftime today) = date_ltb today start).
  { unfold str_gtb. by apply str_ltb_strftime. }
  split; [exact Hcmp|].
  unfold update_stock_data. fold (adjust_param adjust). cbn [select_max_date].
  fold l. rewrite Estart, Hcmp.
  destruct (date_ltb today start).
  - exists (Ok None), []. auto.
  - unfold safe_fetch_stock_data. cbn [py_or].
    destruct (Z.eqb_spec (max_retries cfg) 0) as [E0|_]; [lia|].
    destruct (Z.to_nat (max_retries cfg)) as [|n] eqn:En; [lia|].
    destruct (retry_loop_schedule cfg ak_stock_zh_a_hist to_datetime
                symbol (strftime start) (strftime today) period adjust
                (max_retries cfg) n 0 (tr ++ [EvSt StInfo]))
      as (r & new & j & E & Hs & Hj & _); [lia|].
    exists (Ok r), new. rewrite E, <- app_assoc. split; [reflexivity|].
    exists j. split; [lia|exact Hs].
Qed.
(* ===================================================================== *)
(** ** The US-market store *)
(* ===================================================================== *)

Section USStore.

Import USStock.

Variable as_integer : cell -> option Z.

(** The ISO text of a day has ten characters and tells the days apart. *)
Lemma pad4_inj a b : pad4 a = pad4 b -> a = b.
Proof.
  unfold pad4, digit. intros [= H3 H2 H1 H0].
  pose proof (Z.div_mod a 10 ltac:(lia)). pose proof (Z.div_mod b 10 ltac:(lia)).
  pose proof (Z.div_mod (a / 10) 10 ltac:(lia)).
  pose proof (Z.div_mod (b / 10) 10 ltac:(lia)).
  pose proof (Z.div_mod (a / 100) 10 ltac:(lia)).
  pose proof (Z.div_mod (b / 100) 10 ltac:(lia)).
  assert (Ha : a / 100 = a / 10 / 10) by (rewrite Z.div_div by lia; reflexivity).
  assert (Hb : b / 100 = b / 10 / 10) by (rewrite Z.div_div by lia; reflexivity).
  assert (Ha' : a / 1000 = a / 100 / 10) by (rewrite Z.div_div by lia; reflexivity).
  assert (Hb' : b / 1000 = b / 100 / 10) by (rewrite Z.div_div by lia; reflexivity).
  lia.
Qed.

Lemma pad2_inj a b : pad2 a = pad2 b -> a = b.
Proof.
  unfold pad2, digit. intros [= H1 H0].
  pose proof (Z.div_mod a 10 ltac:(lia)). pose proof (Z.div_mod b 10 ltac:(lia)). lia.
Qed.

Lemma isoformat_inj d clock d' clock' :
  isoformat d ++ clock = isoformat d' ++ clock' -> d = d' /\ clock = clock'.
Proof.
  unfold isoformat. destruct d as [y m dd], d' as [y' m' dd']. cbn [year month day].
  intros H.
  assert (Hy : pad4 y = pad4 y' /\ pad2 m = pad2 m' /\ pad2 dd = pad2 dd'
               /\ clock = clock').
  { unfold pad4, pad2 in *. cbn [app] in H.
    injection H as -> -> -> -> -> -> -> ->. auto. }
  destruct Hy as (Hy & Hm & Hd & Hc).
  apply pad4_inj in Hy. apply pad2_inj in Hm. apply pad2_inj in Hd. by subst.
Qed.

Lemma sql_value_time_inj (c c' : cell) :
  (exists d clock, c = CTime d clock) -> (exists d clock, c' = CTime d clock) ->
  sql_value c = sql_value c' -> c = c'.
Proof.
  intros (d & clock & ->) (d' & clock' & ->). cbn [sql_value]. intros H.
  assert (H' : isoformat d ++ clock = isoformat d' ++ clock') by congruence.
  apply isoformat_inj in H' as [-> ->]. reflexivity.
Qed.

Lemma number_from_snd k (l : list (cell * Series)) :
  map snd (number_from k l) = map snd l.
Proof. revert k. induction l as [|r l IH]; intros k; cbn; [done|]. by rewrite IH. Qed.

Lemma history_series (s : Series) :
  map fst s = yf_columns ->
  exists p1 p2 p3 p4 p5 p6 p7,
    s = combine yf_columns [p1; p2; p3; p4; p5; p6; p7].
Proof.
  intros H.
  do 7 (destruct s as [|[? ?] s]; [discriminate|]). destruct s; [|discriminate].
  injection H as -> -> -> -> -> -> ->. by do 7 eexists.
Qed.

(** What is read from a prepared row. *)
Lemma prepared_row_values symbol r :
  (exists d clock, fst r = CTime d clock) -> map fst (snd r) = yf_columns ->
  column_value u_symbol (prepared_row symbol r) = CStr symbol
  /\ column_value u_date (prepared_row symbol r) = fst r
  /\ map (fun tc => sql_value (column_value tc (prepared_row symbol r))) price_columns
     = map (fun p => sql_value (snd p)) (snd r)
  /\ rowid_cell (prepared_row symbol r) = CMissing
  /\ entries u_Date ((u_Date, fst r) :: series_set u_Symbol (CStr symbol) (snd r))
     = [fst r].
Proof.
  intros (d & clock & Hd) Hs. destruct r as [i s]. cbn [fst snd] in *. subst i.
  destruct (history_series s Hs) as (p1 & p2 & p3 & p4 & p5 & p6 & p7 & ->).
  repeat split; reflexivity.
Qed.


(** For a history of yfinance the [try] body of [save_stock_data] comes
    down to the INSERT of the prepared rows. *)
Lemma save_body_history symbol h t :
  yf_history h ->
  save_body as_integer symbol (fetched_frame symbol h) t
  = insert_stocks as_integer t (map (prepared_row symbol) (rows h)).
Proof.
  intros [Hi Hc Hr]. destruct h as [iname cols rws]. cbn [index_name columns rows] in *.
  subst iname cols. unfold save_body.
  set (rows0 := map (fun r => (fst r, series_set u_Symbol (CStr symbol) (snd r))) rws).
  set (rows1 := number_from 0 (map (fun r => (fst r, (u_Date, fst r) :: snd r)) rows0)).
  assert (E1 : reset_index (fetched_frame symbol (mkframe (Some u_Date) yf_columns rws))
               = Ok (mkframe None (u_Date :: yf_columns ++ [u_Symbol]) rows1))
    by reflexivity.
  rewrite E1. cbn [mbind exc_bind bind_exc].
  change (str_in u_Date (columns (mkframe None (u_Date :: yf_columns ++ [u_Symbol]) rows1)))
    with true. cbv iota.
  assert (Hsnd : map snd rows1
                 = map (fun r => (u_Date, fst r) :: series_set u_Symbol (CStr symbol) (snd r))
                       rws).
  { subst rows1 rows0. rewrite number_from_snd, !map_map. reflexivity. }
  assert (Hent : Forall (fun s => exists c d clock,
                                    c = CTime d clock /\ entries u_Date s = [c])
                        (map snd rows1)).
  { rewrite Hsnd. apply Forall_fmap. eapply Forall_impl; [exact Hr|].
    intros r [(d & clock & Hd) Hs]. exists (fst r), d, clock. split; [exact Hd|].
    apply (prepared_row_values symbol r); eauto. }
  assert (E2 : assign_date_from u_Date
                 (mkframe None (u_Date :: yf_columns ++ [u_Symbol]) rows1)
               = Ok (mkframe None (u_Date :: yf_columns ++ [u_Symbol; u_date])
                       (map (fun r => (fst r,
                               series_set u_date
                                 (match entries u_Date (snd r) with
                                  | CTime d _ :: _ => CDate d
                                  | _ => CMissing
                                  end) (snd r))) rows1))).
  { unfold assign_date_from.
    change (count_label u_Date (mkframe None (u_Date :: yf_columns ++ [u_Symbol]) rows1))
      with 1%nat. cbv iota. cbn [rows columns index_name].
    assert (forallb (fun r => forallb (fun c => match c with
                                                | CTime _ _ | CMissing => true
                                                | _ => false
                                                end) (entries u_Date (snd r))) rows1 = true)
      as ->.
    { apply forallb_forall. intros r Hin. rewrite Forall_forall in Hent.
      destruct (Hent (snd r)) as (c & d & clock & -> & ->); [|reflexivity].
      apply list_elem_of_fmap. exists r. split; [reflexivity|by apply list_elem_of_In]. }
    reflexivity. }
  rewrite E2. cbn [mbind exc_bind bind_exc]. unfold to_sql.
  assert (Hrows : map snd (rows (rename rename_map
                    (set_column u_symbol (CStr symbol)
                       (mkframe None (u_Date :: yf_columns ++ [u_Symbol; u_date])
                          (map (fun r => (fst r,
                                  series_set u_date
                                    (match entries u_Date (snd r) with
                                     | CTime d _ :: _ => CDate d
                                     | _ => CMissing
                                     end) (snd r))) rows1)))))
                  = map (prepared_row symbol) rws).
  { unfold rename, set_column. cbn [rows]. rewrite !map_map. cbn [snd fst].
    rewrite <- (map_map snd (fun s =>
      map (fun p => (rename_label rename_map (fst p), snd p))
        (series_set u_symbol (CStr symbol)
           (series_set u_date
              (match entries u_Date s with
               | CTime d _ :: _ => CDate d
               | _ => CMissing
               end) s))) rows1).
    rewrite Hsnd, map_map. apply map_ext_Forall.
    eapply Forall_impl; [exact Hr|]. intros r [Hd Hs]. cbv beta.
    destruct (prepared_row_values symbol r Hd Hs) as (_ & _ & _ & _ & ->).
    reflexivity. }
  rewrite Hrows.
  match goal with
  | |- match rows ?d with [] => _ | _ :: _ => _ end = _ =>
      assert (Hlen : length (rows d) = length rws);
      [rewrite <- (length_map snd), Hrows; apply length_map|];
      destruct (rows d) as [|r0 rest] eqn:Erows
  end.
  - destruct rws; [reflexivity|discriminate].
  - match goal with
    | |- (if forallb ?f (columns ?d) then _ else _) = _ =>
        assert (forallb f (columns d) = true) as -> by reflexivity
    end.
    reflexivity.
Qed.

Lemma insert_stock_prepared symbol r t :
  (exists d clock, fst r = CTime d clock) -> map fst (snd r) = yf_columns ->
  insert_stock as_integer t (prepared_row symbol r)
  = if existsb (same_stock_key (CStr symbol) (sql_value (fst r))) (st_rows t)
    then Raise IntegrityError
    else Ok (mkstocks (st_rows t ++ [stock_row_of symbol (st_seq t + 1) r])
                      (st_seq t + 1)).
Proof.
  intros Hd Hs. unfold insert_stock.
  destruct (prepared_row_values symbol r Hd Hs) as (-> & -> & -> & -> & _).
  destruct Hd as (d & clock & Hd). unfold stock_row_of. rewrite Hd.
  cbn [rowid_of mbind exc_bind bind_exc sql_value is_missing orb].
  rewrite Z.max_r by lia. reflexivity.
Qed.

Lemma same_stock_key_new symbol id (r r' : cell * Series) :
  (exists d clock, fst r = CTime d clock) -> (exists d clock, fst r' = CTime d clock) ->
  same_stock_key (CStr symbol) (sql_value (fst r')) (stock_row_of symbol id r) = true ->
  fst r = fst r'.
Proof.
  intros Hd Hd'. unfold same_stock_key, stock_row_of. cbn [s_symbol s_date].
  rewrite andb_true_iff, !sql_eq_true. intros [_ [H _]].
  by apply sql_value_time_inj.
Qed.

(** Fresh keys: every row goes in, under consecutive identifiers. *)
Lemma insert_stocks_fresh symbol l t :
  Forall (fun r => (exists d clock, fst r = CTime d clock)
                   /\ map fst (snd r) = yf_columns) l ->
  NoDup (map fst l) ->
  (forall r, r ∈ l ->
     existsb (same_stock_key (CStr symbol) (sql_value (fst r))) (st_rows t) = false) ->
  insert_stocks as_integer t (map (prepared_row symbol) l)
  = Ok (mkstocks (st_rows t ++ stock_rows_from symbol (st_seq t + 1) l)
                 (st_seq t + Z.of_nat (length l))).
Proof.
  revert t. induction l as [|r l IH]; intros t Hs Hn Hf.
  - cbn. rewrite app_nil_r, Z.add_0_r. by destruct t.
  - inversion Hs as [|? ? [Hd Hc] Hs']; subst. cbn [map] in Hn.
    apply NoDup_cons in Hn as [Hnotin Hn].
    cbn [map insert_stocks]. rewrite insert_stock_prepared by done.
    rewrite Hf by (apply elem_of_cons; auto). cbn [mbind exc_bind bind_exc].
    rewrite IH; [|exact Hs'|exact Hn|].
    + cbn [st_rows st_seq stock_rows_from length]. f_equal. f_equal.
      * by rewrite <- app_assoc.
      * lia.
    + intros r' Hr'. cbn [st_rows]. rewrite existsb_app, Hf by (apply elem_of_cons; auto).
      cbn [existsb orb]. rewrite orb_false_r.
      destruct (same_stock_key _ _ _) eqn:E; [|reflexivity].
      apply same_stock_key_new in E; [|exact Hd|].
      2:{ rewrite Forall_forall in Hs'. by destruct (Hs' r' Hr'). }
      exfalso. apply Hnotin.
      rewrite E. apply list_elem_of_fmap. eauto.
Qed.

(** A stored key: the INSERT fails. *)
Lemma insert_stocks_conflict symbol l t :
  Forall (fun r => (exists d clock, fst r = CTime d clock)
                   /\ map fst (snd r) = yf_columns) l ->
  (exists r, r ∈ l
             /\ existsb (same_stock_key (CStr symbol) (sql_value (fst r))) (st_rows t)
                = true) ->
  insert_stocks as_integer t (map (prepared_row symbol) l) = Raise IntegrityError.
Proof.
  revert t. induction l as [|r l IH]; intros t Hs (r0 & Hin & Hex).
  - by apply elem_of_nil in Hin.
  - inversion Hs as [|? ? [Hd Hc] Hs']; subst.
    cbn [map insert_stocks]. rewrite insert_stock_prepared by done.
    destruct (existsb (same_stock_key (CStr symbol) (sql_value (fst r))) (st_rows t))
      eqn:E;
      [reflexivity|].
    cbn [mbind exc_bind bind_exc]. apply elem_of_cons in Hin as [->|Hin]; [congruence|].
    apply IH; [exact Hs'|]. exists r0. split; [exact Hin|].
    cbn [st_rows]. rewrite existsb_app, Hex. reflexivity.
Qed.

End USStore.

(** C8. [save_stock_data] on what the fetch hands to it.  The table
    keeps, as the date of a row, the text of its Timestamp: the day, the
    time of day and the UTC offset.  For a symbol and a daily history under
    the seven columns of yfinance whose Timestamps are distinct and none of
    which is stored, as that text, for the symbol, it appends one row per
    row of the history to [stocks], under that symbol with the text of the
    Timestamp and the values of the row, and returns [True]; when one of
    them is stored already for the symbol it returns [False] and leaves
    the table as it was. *)
Theorem C8_save_stock_data_fresh_or_refused
    (as_integer : cell -> option Z)
    (symbol : pystr) (h : DataFrame) (t : USStock.stocks_table) :
  yf_history h ->
  ((forall r, r ∈ rows h ->
      existsb (USStock.same_stock_key (CStr symbol) (USStock.sql_value (fst r)))
              (USStock.st_rows t) = false) ->
   NoDup (map fst (rows h)) ->
   USStock.save_stock_data as_integer symbol (USStock.fetched_frame symbol h) t
   = (true,
      USStock.mkstocks
        (USStock.st_rows t ++ stock_rows_from symbol (USStock.st_seq t + 1) (rows h))
        (USStock.st_seq t + Z.of_nat (length (rows h)))))
  /\ ((exists r, r ∈ rows h
                 /\ existsb (USStock.same_stock_key (CStr symbol)
                               (USStock.sql_value (fst r)))
                            (USStock.st_rows t) = true) ->
      USStock.save_stock_data as_integer symbol (USStock.fetched_frame symbol h) t
      = (false, t)).
Proof.
  intros Hh. pose proof (yh_rows h Hh) as Hr. unfold USStock.save_stock_data.
  rewrite save_body_history by exact Hh. split.
  - intros Hf Hn. by rewrite (insert_stocks_fresh as_integer symbol (rows h) t Hr Hn Hf).
  - intros Hc. by rewrite (insert_stocks_conflict as_integer symbol (rows h) t Hr Hc).
Qed.

(** C8, as first stated, on a frame that is not empty: saving the history
    of AAPL a second time returns [False] and writes nothing. *)
Lemma C8_second_save_refused :
  let data := USStock.fetched_frame Samples.sym_AAPL Samples.yf_history_frame in
  let save := USStock.save_stock_data Samples.integer_of_digits Samples.sym_AAPL data in
  let t1 := snd (save (USStock.init_database None)) in
  empty data = false
  /\ fst (save (USStock.init_database None)) = true
  /\ save t1 = (false, t1).
Proof. vm_compute. auto. Qed.
(* ===================================================================== *)
(** ** The statements on the sample data *)
(* ===================================================================== *)

(** The sample conversion stays within the range of a Timestamp. *)
Lemma sample_to_datetime_in_range : datetime_in_range Samples.sample_to_datetime.
Proof.
  intros col at_row i d clock [= <-]. unfold Samples.sample_timestamp.
  destruct (nth i col CMissing) as [|s| | |t c|t]; try discriminate.
  - unfold strptime. destruct (split 45 s) as [|ys [|ms [|ds [|]]]]; try discriminate.
    destruct (parse_year ys), (parse_month ms), (parse_day ds); try discriminate.
    destruct (valid_date _) eqn:Hv; [|discriminate].
    destruct (Z.leb_spec 1678 (year (mkdate z z0 z1))); [|discriminate].
    destruct (Z.leb_spec (year (mkdate z z0 z1)) 2261); [|discriminate].
    intros [= <- <-]. split; [exact Hv|lia].
  - destruct (valid_date t) eqn:Hv; [|discriminate].
    destruct (Z.leb_spec 1678 (year t)); [|discriminate].
    destruct (Z.leb_spec (year t) 2261); [|discriminate].
    intros [= <- <-]. split; [exact Hv|lia].
  - destruct (valid_date t) eqn:Hv; [|discriminate].
    destruct (Z.leb_spec 1678 (year t)); [|discriminate].
    destruct (Z.leb_spec (year t) 2261); [|discriminate].
    intros [= <- <-]. split; [exact Hv|lia].
Qed.

Lemma processed_qfq_pipeline :
  pipeline_frame Samples.sample_to_datetime Samples.processed_qfq.
Proof.
  exists Samples.canonical_frame, Samples.sym_600000, s_daily, s_qfq.
  vm_compute. reflexivity.
Qed.

Lemma db_qfq_reachable : reachable Samples.sample_to_datetime Samples.db_qfq.
Proof.
  unfold Samples.db_qfq. apply reach_save; [apply reach_init|].
  constructor; [apply processed_qfq_pipeline|constructor].
Qed.

Lemma yf_history_sample : yf_history Samples.yf_history_frame.
Proof.
  constructor; [reflexivity|reflexivity|].
  constructor; [|constructor]. split; [by do 2 eexists|reflexivity].
Qed.

(** C1 on the sample frame, saved twice into a new database. *)
Lemma C1_witness :
  Forall (pipeline_frame Samples.sample_to_datetime) [Samples.processed_qfq]
  /\ ((let db1 := snd (save_stocks_to_db 0 [Samples.processed_qfq] (init_db None)) in
       option_map t_rows (snd (save_stocks_to_db 1 [Samples.processed_qfq] db1))
       = option_map t_rows db1)
      /\ (forall now t sym dat vals per adj,
            existsb (same_key sym dat per adj) (t_rows t) = true ->
            t_rows (fst (insert_or_ignore now t sym dat vals per adj)) = t_rows t)).
Proof.
  assert (H : Forall (pipeline_frame Samples.sample_to_datetime) [Samples.processed_qfq]).
  { constructor; [apply processed_qfq_pipeline|constructor]. }
  split; [exact H|].
  exact (C1_save_stocks_to_db_idempotent Samples.sample_to_datetime 0 1
           [Samples.processed_qfq] (init_db None) H).
Defined.

(** C10 on the database holding the sample frame. *)
Lemma C10_witness :
  reachable Samples.sample_to_datetime Samples.db_qfq
  /\ exists t, Samples.db_qfq = Some t /\ unique_keys (t_rows t).
Proof.
  split; [apply db_qfq_reachable|].
  exact (C10_unique_keys_invariant Samples.sample_to_datetime Samples.db_qfq
           db_qfq_reachable).
Defined.

(** C10, as first stated, on a frame that is not of the pipeline: a row
    whose period is NULL conflicts with no stored row, so saving the frame
    a second time stores its row again. *)
Lemma C10_null_period_stored_twice :
  let db1 := snd (save_stocks_to_db 0 [Samples.frame_without_period] (init_db None)) in
  let db2 := snd (save_stocks_to_db 1 [Samples.frame_without_period] db1) in
  exists t k, db2 = Some t /\ map key_of (t_rows t) = [k; k] /\ ~ unique_keys (t_rows t).
Proof.
  eexists. eexists. split; [vm_compute; reflexivity|].
  split; [vm_compute; reflexivity|].
  unfold unique_keys. vm_compute. intros H. apply NoDup_cons in H as [H _].
  apply H. apply elem_of_cons. by left.
Qed.

(** C9 on the database holding the sample frame. *)
Lemma C9_witness :
  reachable Samples.sample_to_datetime Samples.db_qfq
  /\ exists result,
       query_stocks_data Samples.sym_600000 None None s_daily s_qfq
         (DbFile Samples.db_qfq)
       = Ok result
       /\ Sorted key_le result.
Proof.
  split; [apply db_qfq_reachable|].
  destruct (C9_query_stocks_data_filtered_sorted Samples.sample_to_datetime
              Samples.sym_600000 None None s_daily s_qfq Samples.db_qfq
              db_qfq_reachable) as [(result & E & _ & Hs & _) _].
  exists result. split; [exact E|exact Hs].
Defined.

(** C9, as first stated: with a path that cannot be opened the function
    raises; and with the start date "20250101", which SQLite compares as a
    number, the rows of 2024 are returned. *)
Lemma C9_raises_and_numeral_bound :
  query_stocks_data Samples.sym_600000 None None s_daily s_qfq NoFile
  = Raise OperationalError
  /\ exists result,
       query_stocks_data Samples.sym_600000 (Some (py "20250101")) None s_daily s_qfq
         (DbFile Samples.db_qfq) = Ok result
       /\ map r_date result
          = [CStr (strftime (mkdate 2024 1 2)); CStr (strftime (mkdate 2024 1 3))]
       /\ str_leb (py "20250101") (strftime (mkdate 2024 1 2)) = false.
Proof.
  split; [vm_compute; reflexivity|].
  eexists. split; [vm_compute; reflexivity|]. split; vm_compute; reflexivity.
Qed.

(** C4 on 2024-01-04, the sample frame being stored up to 2024-01-03: the
    latest day is 2024-01-03, the start 2024-01-04, and the vendor is
    called for that day. *)
Lemma C4_witness :
  (datetime_in_range Samples.sample_to_datetime
   /\ reachable Samples.sample_to_datetime Samples.db_qfq
   /\ valid_date (mkdate 2024 1 4) = true /\ 1000 <= year (mkdate 2024 1 4)
   /\ 0 < max_retries REQUEST_CONFIG)
  /\ exists t,
       Samples.db_qfq = Some t
       /\ latest_day (t_rows t) Samples.sym_600000 s_daily (adjust_param s_qfq)
            (Some (mkdate 2024 1 3))
       /\ start_day (Some (mkdate 2024 1 3)) (mkdate 2024 1 4)
       /\ exists result new j,
            update_stock_data REQUEST_CONFIG Samples.vendor_none
              Samples.sample_to_datetime (mkdate 2024 1 4)
              Samples.sym_600000 s_daily s_qfq Samples.db_qfq []
            = (result, [] ++ EvSt StInfo :: new)
            /\ attempts_and_waits new
               = schedule (EvFetch Samples.sym_600000 s_daily
                             (strftime (mkdate 2024 1 4)) (strftime (mkdate 2024 1 4))
                             (adjust_param s_qfq))
                          0 j.
Proof.
  assert (Hy : 1000 <= year (mkdate 2024 1 4)) by (cbn; lia).
  assert (Hm : 0 < max_retries REQUEST_CONFIG) by (cbn; lia).
  split.
  { split; [apply sample_to_datetime_in_range|].
    split; [apply db_qfq_reachable|]. split; [reflexivity|]. split; [exact Hy|exact Hm]. }
  destruct (C4_update_decision REQUEST_CONFIG Samples.vendor_none
              Samples.sample_to_datetime (mkdate 2024 1 4)
              Samples.sym_600000 s_daily s_qfq Samples.db_qfq []
              sample_to_datetime_in_range db_qfq_reachable eq_refl Hy Hm)
    as (t & last & start & E & Hl & Hs & Huniq & _ & result & new & Hu & Hb).
  assert (Hnext : start_day (Some (mkdate 2024 1 3)) (mkdate 2024 1 4)).
  { by apply add_one_day_next. }
  assert (Hlatest : latest_day (t_rows t) Samples.sym_600000 s_daily (adjust_param s_qfq)
                      (Some (mkdate 2024 1 3))).
  { vm_compute in E. injection E as <-. split.
    - eexists. split; [apply elem_of_cons; right; apply elem_of_cons; left; reflexivity|].
      split; [by repeat split|]. split; [reflexivity|]. split; [cbn; lia|reflexivity].
    - intros r Hr _. apply elem_of_cons in Hr as [->|Hr].
      + exists (mkdate 2024 1 2). split; [|reflexivity].
        split; [reflexivity|]. split; [cbn; lia|reflexivity].
      + apply list_elem_of_singleton in Hr as ->.
        exists (mkdate 2024 1 3). split; [|reflexivity].
        split; [reflexivity|]. split; [cbn; lia|reflexivity]. }
  destruct (Huniq _ _ Hlatest Hnext) as [_ <-].
  exists t. split; [exact E|]. split; [exact Hlatest|]. split; [exact Hnext|].
  change (date_ltb (mkdate 2024 1 4) (mkdate 2024 1 4)) with false in Hb.
  destruct Hb as (j & _ & Hj). exists result, new, j. auto.
Defined.

(** C8 on the sample history, saved into a new table. *)
Lemma C8_witness :
  yf_history Samples.yf_history_frame
  /\ USStock.save_stock_data Samples.integer_of_digits Samples.sym_AAPL
       (USStock.fetched_frame Samples.sym_AAPL Samples.yf_history_frame)
       (USStock.init_database None)
     = (true,
        USStock.mkstocks
          ([] ++ stock_rows_from Samples.sym_AAPL (0 + 1) (rows Samples.yf_history_frame))
          (0 + Z.of_nat (length (rows Samples.yf_history_frame)))).
Proof.
  split; [apply yf_history_sample|].
  destruct (C8_save_stock_data_fresh_or_refused Samples.integer_of_digits
              Samples.sym_AAPL Samples.yf_history_frame
              (USStock.init_database None) yf_history_sample) as [H _].
  apply H.
  - intros r _. reflexivity.
  - vm_compute. repeat constructor. intros Hin. inversion Hin.
Defined.
(* ===================================================================== *)
(** ** [process_stock_data]: the frames it returns, the frames it takes *)
(* ===================================================================== *)

Section Processed.

Variable to_datetime : converter.

Local Ltac other := first [apply ensure_column_other | apply set_column_other];
                    [reflexivity|].
Local Ltac keeps := first [apply ensure_column_keeps | apply set_column_keeps].

Lemma number_from_length k (l : list (cell * Series)) :
  length (number_from k l) = length l.
Proof. revert k. induction l as [|r l IH]; intros k; cbn; [done|]. by rewrite IH. Qed.

Lemma ensure_column_rows col df :
  length (rows (ensure_column col df)) = length (rows df).
Proof.
  unfold ensure_column. destruct (negb _); [|done]. cbn [set_column rows].
  by rewrite length_map.
Qed.

Lemma set_dates_length at_row i (l : list (cell * Series)) :
  length (set_dates at_row i l) = length l.
Proof. revert i. induction l as [|r l IH]; intros i; cbn; [done|]. by rewrite IH. Qed.

Lemma reset_index_rows df df' :
  reset_index df = Ok df' -> length (rows df') = length (rows df).
Proof.
  unfold reset_index. destruct (str_in _ (columns df)); [discriminate|].
  intros [= <-]. cbn [rows]. by rewrite number_from_length, length_map.
Qed.

(** The rows of the result, counted: none is added. *)
Lemma process_stock_data_rows raw symbol period adjust df :
  process_stock_data to_datetime raw symbol period adjust = Ok df ->
  (length (rows df) <= length (rows raw))%nat.
Proof.
  rewrite process_stock_data_unfold.
  destruct (if negb (str_in c_date (columns raw)) then reset_index raw else Ok raw)
    as [df1|] eqn:E1; [|discriminate].
  cbn [mbind exc_bind bind_exc].
  set (df2 := rename _ df1).
  destruct (if str_in c_date (columns df2)
            then df ← convert_dates to_datetime df2; Ok (format_dates (dropna c_date df))
            else Ok df2) as [df3|] eqn:E3; [|discriminate].
  cbn [mbind exc_bind bind_exc]. intros [= <-].
  rewrite !ensure_column_rows. cbn [set_column rows]. rewrite !length_map.
  assert (H1 : length (rows df1) = length (rows raw)).
  { destruct (negb _); [by apply reset_index_rows|congruence]. }
  assert (H2 : length (rows df2) = length (rows df1)).
  { subst df2. cbn [rename rows]. by rewrite length_map. }
  assert (H3 : (length (rows df3) <= length (rows df2))%nat).
  { destruct (str_in c_date (columns df2)); [|injection E3 as <-; lia].
    unfold convert_dates in E3. destruct (count_label c_date df2) as [|[|n]];
      try discriminate.
    destruct (to_datetime (date_column df2)) as [at_row| |te];
      cbn [mbind exc_bind bind_exc] in E3; try discriminate. injection E3 as <-.
    cbn [format_dates dropna map_column rows]. rewrite length_map.
    etrans; [apply length_filter|]. by rewrite set_dates_length. }
  lia.
Qed.

(** The rows of the result, label by label. *)
Lemma process_stock_data_processed raw symbol period adjust df :
  process_stock_data to_datetime raw symbol period adjust = Ok df ->
  Forall (fun r => processed_row to_datetime symbol period adjust (snd r)) (rows df).
Proof.
  rewrite process_stock_data_unfold.
  destruct (if negb (str_in c_date (columns raw)) then reset_index raw else Ok raw)
    as [df1|] eqn:E1; [|discriminate].
  cbn [mbind exc_bind bind_exc].
  set (df2 := rename _ df1).
  destruct (if str_in c_date (columns df2)
            then df ← convert_dates to_datetime df2; Ok (format_dates (dropna c_date df))
            else Ok df2) as [df3|] eqn:E3; [|discriminate].
  cbn [mbind exc_bind bind_exc]. intros [= <-]. fold (adjust_marker adjust).
  match goal with |- Forall _ (rows ?d) => set (out := d) end.
  assert (Hsym : rows_satisfy c_symbol
                   (fun es => es <> [] /\ Forall (eq (CStr symbol)) es) out).
  { subst out. do 8 other. apply set_column_same. }
  assert (Hper : rows_satisfy c_period
                   (fun es => es <> [] /\ Forall (eq (CStr period)) es) out).
  { subst out. do 7 other. apply set_column_same. }
  assert (Hadj : rows_satisfy c_adjust
                   (fun es => es <> [] /\
                      Forall (eq (CStr (adjust_marker adjust))) es) out).
  { subst out. do 6 other. apply set_column_same. }
  assert (Hdate : rows_satisfy c_date
                    (Forall (fun c => c = CMissing \/ date_text to_datetime c)) out).
  { subst out. do 5 other. apply ensure_column_same.
    - intros Hin. do 3 (apply set_column_had in Hin; [|reflexivity]).
      do 3 other.
      destruct (str_in c_date (columns df2)) eqn:Ed.
      + destruct (convert_dates to_datetime df2) as [df2'|] eqn:Ec; [|discriminate].
        cbn [mbind exc_bind bind_exc] in E3. injection E3 as <-.
        eapply rows_satisfy_impl; [|by apply date_block_rows with (df := df2)].
        intros es. apply Forall_weaken. auto.
      + injection E3 as <-. congruence.
    - intros es. apply Forall_weaken. intros c <-. by left. }
  unfold rows_satisfy in *.
  rewrite Forall_forall in Hsym, Hper, Hadj, Hdate. apply Forall_forall.
  intros r Hr. constructor; auto.
Qed.

Lemma adjust_marker_nonempty adjust : adjust_marker adjust <> [].
Proof.
  unfold adjust_marker. destruct (str_eqb adjust s_empty) eqn:E; cbn [negb]; [done|].
  intros ->. by rewrite str_eqb_refl in E.
Qed.

Lemma lookup_label_filter_inv k cols m v :
  lookup_label k (filter (fun kv => str_in (fst kv) cols) m) = Some v ->
  str_in k cols = true /\ lookup_label k m = Some v.
Proof.
  intros H. destruct (str_in k cols) eqn:Ek.
  - split; [done|]. by rewrite lookup_label_filter in H.
  - exfalso. induction m as [|[k' v'] m IH]; [discriminate|].
    rewrite filter_cons_bool in H. cbn [fst] in H.
    destruct (str_in k' cols) eqn:E; [|by apply IH].
    cbn [lookup_label] in H. destruct (str_eqb k k') eqn:Ekk; [|by apply IH].
    apply str_eqb_eq in Ekk. congruence.
Qed.

Lemma date_is_no_source : lookup_label c_date column_mapping = None.
Proof. reflexivity. Qed.

(** A label [rename] turns into "date", or leaves as "date". *)
Lemma renamed_to_date cols c :
  str_in c cols = true ->
  str_eqb c_date
    (rename_label (filter (fun kv => str_in (fst kv) cols) column_mapping) c)
  = str_eqb c c_date || maps_to_date c.
Proof.
  intros Hc. unfold rename_label, maps_to_date. rewrite lookup_label_filter by done.
  destruct (lookup_label c column_mapping) as [v|] eqn:El.
  - destruct (str_eqb c c_date) eqn:E.
    + apply str_eqb_eq in E. subst c. rewrite date_is_no_source in El. discriminate.
    + cbn [orb]. apply str_eqb_sym.
  - rewrite orb_false_r. apply str_eqb_sym.
Qed.

(** A label [rename] does not touch when no column is turned into
    "date". *)
Lemma not_renamed_to_date cols c :
  existsb maps_to_date cols = false ->
  str_eqb (rename_label (filter (fun kv => str_in (fst kv) cols) column_mapping) c) c_date
  = str_eqb c c_date.
Proof.
  intros Hn. unfold rename_label.
  destruct (lookup_label c (filter _ column_mapping)) as [v|] eqn:El; [|done].
  apply lookup_label_filter_inv in El as [Hc El].
  assert (Hm : maps_to_date c = false).
  { destruct (maps_to_date c) eqn:E; [|done].
    assert (existsb maps_to_date cols = true); [|congruence].
    apply existsb_exists. exists c. split; [|done].
    apply list_elem_of_In. by apply str_in_true. }
  unfold maps_to_date in Hm. rewrite El in Hm. rewrite Hm.
  destruct (str_eqb c c_date) eqn:E; [|done].
  apply str_eqb_eq in E. subst c. rewrite date_is_no_source in El. discriminate.
Qed.

Lemma count_renamed cols l :
  (forall c, c ∈ l -> str_in c cols = true) ->
  length (filter (str_eqb c_date)
            (map (rename_label (filter (fun kv => str_in (fst kv) cols) column_mapping)) l))
  = date_labels l.
Proof.
  unfold date_labels. induction l as [|c l IH]; intros Hl; [done|].
  cbn [map]. rewrite !filter_cons_bool, renamed_to_date.
  - destruct (_ || _); cbn [length]; rewrite IH; try done;
      intros c' Hc'; apply Hl, elem_of_cons; auto.
  - apply Hl, elem_of_cons. auto.
Qed.

Lemma count_label_renamed df :
  count_label c_date
    (rename (filter (fun kv => str_in (fst kv) (columns df)) column_mapping) df)
  = date_labels (columns df).
Proof.
  unfold count_label, rename. cbn [columns]. apply count_renamed.
  intros c Hc. by apply str_in_true.
Qed.

Lemma count_not_renamed m l :
  (forall c, str_eqb (rename_label m c) c_date = str_eqb c c_date) ->
  length (filter (str_eqb c_date) (map (rename_label m) l))
  = length (filter (str_eqb c_date) l).
Proof.
  intros H. induction l as [|c l IH]; [done|].
  cbn [map]. rewrite !filter_cons_bool.
  rewrite (str_eqb_sym c_date (rename_label m c)), H, (str_eqb_sym c c_date).
  destruct (str_eqb c_date c); cbn [length]; by rewrite IH.
Qed.

Lemma count_label_zero label df :
  str_in label (columns df) = false <-> count_label label df = 0%nat.
Proof.
  unfold count_label, str_in. induction (columns df) as [|c l IH]; [done|].
  rewrite filter_cons_bool. cbn [existsb]. destruct (str_eqb label c); cbn; [|exact IH].
  split; discriminate.
Qed.

Lemma entries_renamed m (s : Series) :
  (forall c, str_eqb (rename_label m c) c_date = str_eqb c c_date) ->
  entries c_date (map (fun p => (rename_label m (fst p), snd p)) s) = entries c_date s.
Proof.
  intros H. induction s as [|p s IH]; [done|].
  cbn [map]. rewrite !entries_cons. cbn [fst snd]. rewrite H, IH. done.
Qed.

Lemma date_entries_set_column label v df :
  str_eqb c_date label = false ->
  date_entries (set_column label v df) = date_entries df.
Proof.
  intros Hne. unfold date_entries, set_column. cbn [rows]. rewrite map_map.
  apply map_ext. intros r. cbn [snd]. by apply entries_series_set_other.
Qed.

Lemma date_entries_ensure_column col df :
  str_eqb c_date col = false ->
  date_entries (ensure_column col df) = date_entries df.
Proof.
  intros Hne. unfold ensure_column. destruct (negb _); [|done].
  by apply date_entries_set_column.
Qed.

(** With a column "date" the loop over the required columns leaves the
    dates alone. *)
Lemma ensure_column_present col df :
  str_in col (columns df) = true -> ensure_column col df = df.
Proof. intros H. unfold ensure_column. by rewrite H. Qed.

(** One value under a label that occurs once among the labels. *)
Lemma entries_length label (s : Series) :
  length (entries label s) = length (filter (str_eqb label) (map fst s)).
Proof.
  induction s as [|p s IH]; [done|].
  rewrite entries_cons. cbn [map]. rewrite filter_cons_bool, (str_eqb_sym label).
  destruct (str_eqb (fst p) label); cbn [length]; by rewrite IH.
Qed.

Lemma labelled_single label df :
  labelled df -> count_label label df = 1%nat ->
  Forall (fun r => exists c, entries label (snd r) = [c]) (rows df).
Proof.
  intros Hl Hone. eapply Forall_impl; [exact Hl|]. intros r Hr. cbv beta in Hr.
  pose proof (entries_length label (snd r)) as H. rewrite Hr in H.
  unfold count_label in Hone. rewrite Hone in H.
  destruct (entries label (snd r)) as [|c [|c' es]]; try discriminate. eauto.
Qed.

(** The dates that are left of a converted column: those of the
    positions that are not NaT, printed. *)
Lemma converted_dates at_row i name cols (l : list (cell * Series)) :
  Forall (fun r => exists c, entries c_date (snd r) = [c]) l ->
  date_entries (format_dates (dropna c_date (mkframe name cols (set_dates at_row i l))))
  = map (fun d => [CStr (strftime d)])
        (omap (fun k => fst <$> at_row k) (seq i (length l))).
Proof.
  unfold date_entries, format_dates, dropna, map_column. cbn [rows].
  revert i. induction l as [|r l IH]; intros i Hl; [done|].
  inversion Hl as [|? ? [c Hc] Hl']; subst.
  cbn [set_dates length seq omap list_omap]. rewrite filter_cons_bool. cbn [snd].
  rewrite entries_overwrite, Hc. cbn [map existsb]. rewrite orb_false_r.
  destruct (at_row i) as [[d clock]|]; cbn [is_missing negb fmap option_fmap option_map fst].
  - cbn [map snd fst].
    rewrite (entries_map_column c_date
               (fun c => match c with CTime d _ => CStr (strftime d) | _ => c end)).
    rewrite entries_overwrite, Hc. cbn [map]. by rewrite IH.
  - by rewrite IH.
Qed.

End Processed.

(** X1. The frames [process_stock_data] returns.  Whenever it returns,
    the frame has the columns date, open, close, high, low, volume,
    symbol, period and adjust; in every row the symbol and the period are
    the arguments, the adjust marker is the argument, or "None" when the
    argument is the empty string, and never empty; every date is missing
    or a converted day printed as year-month-day; and the frame has no
    more rows than the one it was given. *)
Theorem process_stock_data_shape
    (to_datetime : converter) (raw : DataFrame)
    (symbol period adjust : pystr) (df : DataFrame) :
  process_stock_data to_datetime raw symbol period adjust = Ok df ->
  Forall (fun c => str_in c (columns df) = true)
    [c_date; c_open; c_close; c_high; c_low; c_volume; c_symbol; c_period; c_adjust]
  /\ Forall (fun r => processed_row to_datetime symbol period adjust (snd r)) (rows df)
  /\ adjust_marker adjust <> []
  /\ (adjust <> [] -> adjust_marker adjust = adjust)
  /\ (length (rows df) <= length (rows raw))%nat.
Proof.
  intros H. split; [by apply (process_stock_data_result to_datetime) in H as [H _]|].
  split; [by apply process_stock_data_processed in H|].
  split; [apply adjust_marker_nonempty|].
  split; [|by apply process_stock_data_rows in H].
  intros Hne. unfold adjust_marker. destruct (str_eqb adjust s_empty) eqn:E; [|done].
  apply str_eqb_eq in E. by destruct Hne.
Qed.

(** X2. When [process_stock_data] raises.  Once the index has been made
    a column (which is done when there is no column "date", and fails when
    the name it would get is taken), count the columns that are labelled
    "date" or that the mapping turns into "date".  With none the function
    returns a frame.  With two or more it raises the ValueError of the
    doubled column.  With one the outcome is that of [pd.to_datetime] on
    the values of that column: a frame when it gives a column of
    datetimes, the TypeError or ValueError of the conversion when it
    raises, and the AttributeError of [.dt] when it gives a column of
    objects.  Symbol, period and adjust
    play no part. *)
Theorem process_stock_data_accepts
    (to_datetime : converter) (raw : DataFrame)
    (symbol period adjust : pystr) :
  match with_index_column raw with
  | Raise e =>
      e = ValueError
      /\ process_stock_data to_datetime raw symbol period adjust = Raise ValueError
  | Ok df1 =>
      match date_labels (columns df1) with
      | 0%nat => exists df, process_stock_data to_datetime raw symbol period adjust = Ok df
      | 1%nat =>
          match to_datetime (renamed_dates df1) with
          | Datetimes _ =>
              exists df, process_stock_data to_datetime raw symbol period adjust = Ok df
          | Objects =>
              process_stock_data to_datetime raw symbol period adjust
              = Raise AttributeError
          | Refused type_error =>
              process_stock_data to_datetime raw symbol period adjust
              = Raise (if type_error then TypeError else ValueError)
          end
      | _ => process_stock_data to_datetime raw symbol period adjust = Raise ValueError
      end
  end.
Proof.
  rewrite process_stock_data_unfold. unfold with_index_column.
  destruct (if negb (str_in c_date (columns raw)) then reset_index raw else Ok raw)
    as [df1|e] eqn:E1; cbn [mbind exc_bind bind_exc].
  - pose proof (count_label_renamed df1) as Hc. unfold renamed_dates.
    set (df2 := rename _ df1) in *.
    destruct (str_in c_date (columns df2)) eqn:Ed.
    + unfold convert_dates. rewrite Hc.
      destruct (date_labels (columns df1)) as [|[|n]] eqn:En.
      * apply count_label_zero in Hc. congruence.
      * destruct (to_datetime (date_column df2)) as [at_row| |te];
          cbn [mbind exc_bind bind_exc]; eauto.
      * reflexivity.
    + apply count_label_zero in Ed. rewrite Hc in Ed. rewrite Ed. cbn. eauto.
  - destruct (negb _); [|discriminate]. unfold reset_index in E1.
    destruct (str_in _ (columns raw)); [|discriminate]. injection E1 as <-. done.
Qed.

(** X3. On a frame that has the column "date" once and no column the
    mapping turns into "date", the outcome of [process_stock_data] is that
    of [pd.to_datetime] on the column: its TypeError or ValueError when it
    raises, the AttributeError of [.dt] when it gives a column of objects,
    and when it
    gives a column of datetimes a frame with one row for each value that
    did not become NaT, in order, the date being the day of the value
    printed as year-month-day.  The rows whose value became NaT are
    dropped, no other row is. *)
Theorem process_stock_data_canonical
    (to_datetime : converter) (raw : DataFrame)
    (symbol period adjust : pystr) :
  labelled raw ->
  count_label c_date raw = 1%nat ->
  existsb maps_to_date (columns raw) = false ->
  match to_datetime (date_column raw) with
  | Datetimes at_row =>
      exists df,
        process_stock_data to_datetime raw symbol period adjust = Ok df
        /\ map (fun r => entries c_date (snd r)) (rows df)
           = map (fun d => [CStr (strftime d)])
                 (converted_days at_row (length (rows raw)))
  | Objects =>
      process_stock_data to_datetime raw symbol period adjust = Raise AttributeError
  | Refused type_error =>
      process_stock_data to_datetime raw symbol period adjust
      = Raise (if type_error then TypeError else ValueError)
  end.
Proof.
  intros Hlab0 Hone Hnone. rewrite process_stock_data_unfold.
  assert (Hd : str_in c_date (columns raw) = true).
  { destruct (str_in c_date (columns raw)) eqn:E; [done|].
    apply count_label_zero in E. congruence. }
  rewrite Hd. cbn [negb mbind exc_bind bind_exc].
  pose proof (count_label_renamed raw) as Hc.
  set (m := filter _ column_mapping) in *.
  assert (Hlab : forall c, str_eqb (rename_label m c) c_date = str_eqb c c_date).
  { intros c. by apply not_renamed_to_date. }
  assert (Hcount : count_label c_date (rename m raw) = 1%nat).
  { unfold count_label, rename. cbn [columns].
    rewrite count_not_renamed by exact Hlab. exact Hone. }
  assert (Hd2 : str_in c_date (columns (rename m raw)) = true).
  { destruct (str_in c_date (columns (rename m raw))) eqn:E; [done|].
    apply count_label_zero in E. congruence. }
  assert (Hcol : date_column (rename m raw) = date_column raw).
  { unfold date_column, rename. cbn [rows]. rewrite map_map. apply map_ext.
    intros r. cbn [snd]. by rewrite entries_renamed. }
  assert (Hsingle : Forall (fun r => exists c, entries c_date (snd r) = [c])
                           (rows (rename m raw))).
  { unfold rename. cbn [rows]. apply Forall_fmap.
    eapply Forall_impl; [exact (labelled_single c_date raw Hlab0 Hone)|].
    intros r [c Hr]. unfold compose. cbn [snd]. exists c. by rewrite entries_renamed. }
  rewrite Hd2. unfold convert_dates. rewrite Hcount, Hcol.
  destruct (to_datetime (date_column raw)) as [at_row| |te];
    cbn [mbind exc_bind bind_exc]; [|reflexivity|reflexivity].
  eexists. split; [reflexivity|].
  match goal with
  | |- map _ (rows ?d) = _ => change (map (fun r => entries c_date (snd r)) (rows d))
                              with (date_entries d)
  end.
  rewrite !date_entries_ensure_column by reflexivity.
  rewrite ensure_column_present.
  2:{ do 3 apply set_column_keeps. exact Hd2. }
  rewrite !date_entries_set_column by reflexivity.
  rewrite (converted_dates at_row 0 _ _ _ Hsingle). unfold converted_days, rename.
  cbn [rows]. by rewrite length_map.
Qed.
(* ===================================================================== *)
(** ** The look-ups: completeness, the unadjusted key, the errors *)
(* ===================================================================== *)

Section LookUps.

Variable to_datetime : converter.

Lemma insert_sorted_perm r l : insert_sorted r l ≡ₚ r :: l.
Proof.
  induction l as [|x l IH]; cbn; [done|].
  destruct (order_leb r x); [done|]. rewrite IH. apply Permutation_swap.
Qed.

(** ORDER BY rearranges the rows and does nothing else. *)
Lemma order_by_perm l : order_by l ≡ₚ l.
Proof.
  induction l as [|r l IH]; cbn; [done|]. rewrite insert_sorted_perm. by rewrite IH.
Qed.

Lemma selected_no_symbols period adjust start_date end_date (l : list hist_row) :
  filter (selected [] period adjust start_date end_date) l = [].
Proof.
  induction l as [|r l IH]; [done|]. rewrite filter_cons_bool. by cbn.
Qed.


End LookUps.


(** X5. Under the unadjusted setting nothing is ever read back: on every
    database the application has written, whatever was saved into it,
    [query_stocks_data] with adjust "None" returns the empty frame and the
    MAX(date) that [update_stock_data] asks for is NULL. *)
Theorem unadjusted_rows_never_found
    (to_datetime : converter) (db : database)
    (symbol symbols_str : pystr) (start_date end_date : option pystr) (period : pystr) :
  reachable to_datetime db ->
  query_stocks_data symbols_str start_date end_date period s_None (DbFile db) = Ok []
  /\ select_max_date db symbol period (adjust_param s_None) = Ok None.
Proof.
  intros H.
  destruct (unadjusted_rows_not_found to_datetime db symbol symbols_str
              start_date end_date period H) as [H1 H2].
  auto.
Qed.

(** X6. Under the unadjusted setting the incremental update is not
    incremental: on every database the application has written and on
    every day from 1990-01-01 on, [update_stock_data] with adjust "None"
    is [safe_fetch_stock_data] on the window from 1990-01-01 to today. *)
Theorem unadjusted_update_starts_over
    (cfg : request_config) (ak_stock_zh_a_hist : vendor)
    (to_datetime : converter) (today : date)
    (symbol period : pystr) (db : database) (tr : trace) :
  reachable to_datetime db ->
  valid_date today = true -> 1990 <= year today ->
  update_stock_data cfg ak_stock_zh_a_hist to_datetime today symbol period s_None db tr
  = safe_fetch_stock_data cfg ak_stock_zh_a_hist to_datetime
      symbol s_1990_01_01 (strftime today) period s_None None (tr ++ [EvSt StInfo]).
Proof.
  intros Hreach Hv Hy.
  destruct (unadjusted_rows_not_found to_datetime db symbol symbol None None period Hreach)
    as [Hmax _].
  unfold update_stock_data. fold (adjust_param s_None). rewrite Hmax.
  cbn [start_date_of]. unfold str_gtb.
  rewrite s_1990_01_01_printed, str_ltb_strftime by (done || cbn; lia).
  assert (date_ltb today (mkdate 1990 1 1) = false) as ->; [|reflexivity].
  apply valid_date_spec in Hv. unfold date_ltb. cbn [year month day].
  repeat match goal with
         | |- context [?x <? ?y] => destruct (Z.ltb_spec x y)
         | |- context [?x =? ?y] => destruct (Z.eqb_spec x y)
         end; cbn; try reflexivity; lia.
Qed.

(** X7. The high-water mark is the latest stored day.  On a database the
    application has written, the MAX(date) that [update_stock_data] reads
    for a symbol, a period and an adjust value is NULL when no row is
    stored for them, and otherwise the printed day of one of their rows,
    which the day of none of their rows is after; the look-up does not
    fail. *)
Theorem stored_max_date_is_latest
    (to_datetime : converter) (db : database)
    (symbol period adjust : pystr) :
  datetime_in_range to_datetime ->
  reachable to_datetime db ->
  exists t,
    db = Some t
    /\ match select_max_date db symbol period adjust with
       | Ok (Some m) =>
           exists d, m = strftime d
                     /\ latest_day (t_rows t) symbol period adjust (Some d)
       | Ok None => latest_day (t_rows t) symbol period adjust None
       | Raise _ => False
       end.
Proof.
  intros Hrange Hreach.
  destruct (reachable_inv to_datetime db Hreach) as (t & -> & [_ Hok]).
  exists t. split; [reflexivity|]. cbn [select_max_date].
  pose proof (max_text_date_latest to_datetime Hrange (t_rows t) symbol period adjust Hok)
    as H.
  destruct (max_text_date _) as [m|]; [|exact H].
  destruct H as (d & -> & _ & _ & H). eauto.
Qed.

(** X8. [update_stock_data] does not catch what its look-up raises.
    Without the table the call ends in the OperationalError; with a
    latest date that is not of the form year-month-day it ends in the
    ValueError of [strptime]; in both cases before anything is shown or
    fetched.  [update_multiple_stocks] hands the error of the first symbol
    on. *)
Theorem update_stock_data_errors
    (cfg : request_config) (ak_stock_zh_a_hist : vendor)
    (to_datetime : converter) (today : date) (clock : Z -> date)
    (symbol symbols_str period adjust : pystr) (tr : trace) :
  update_stock_data cfg ak_stock_zh_a_hist to_datetime today symbol period adjust None tr
  = (Raise OperationalError, tr)
  /\ (process_symbols symbols_str <> [] ->
      update_multiple_stocks cfg ak_stock_zh_a_hist to_datetime clock
        symbols_str period adjust None tr
      = (Raise OperationalError, tr))
  /\ (forall t m,
        select_max_date (Some t) symbol period (adjust_param adjust) = Ok (Some m) ->
        m <> [] -> strptime m = None ->
        update_stock_data cfg ak_stock_zh_a_hist to_datetime today
          symbol period adjust (Some t) tr
        = (Raise ValueError, tr)).
Proof.
  split; [reflexivity|]. split.
  - intros Hs. unfold update_multiple_stocks.
    destruct (process_symbols symbols_str) as [|s0 ss]; [done|]. reflexivity.
  - intros t m Hm Hne Hp. unfold update_stock_data. fold (adjust_param adjust).
    rewrite Hm. unfold start_date_of.
    destruct m as [|c m]; [done|]. cbn [truthy]. by rewrite Hp.
Qed.

(* ===================================================================== *)
(** ** [save_stocks_to_db]: errors, stored rows and the returned count *)
(* ===================================================================== *)

Section StoreEdges.

Lemma executemany_committed now data c :
  committed (snd (executemany now data c)) = committed c.
Proof.
  unfold executemany. destruct (working c) as [t|]; [|reflexivity].
  destruct (insert_rows now data t (total_changes c)) as [[[e|] t'] ch]; reflexivity.
Qed.

(** The loop never commits: what is on disk stays as it was. *)
Lemma save_loop_committed now dfs conn n :
  committed (snd (save_loop now dfs conn n)) = committed conn.
Proof.
  revert conn n. induction dfs as [|f dfs IH]; intros conn n; cbn [save_loop];
    [reflexivity|].
  destruct (empty f); [apply IH|].
  destruct (negb (str_in c_symbol (columns f))); [reflexivity|].
  pose proof (executemany_committed now (map (fun r => data_row (snd r)) (rows f)) conn)
    as Hc.
  destruct (executemany now _ conn) as [[u|e] conn']; cbn [snd] in Hc; rewrite IH;
    [exact Hc|]. cbn. exact Hc.
Qed.

(** The only exception that leaves the loop is the KeyError of a frame
    without a symbol column. *)
Lemma save_loop_outcome now dfs conn n :
  if existsb lacks_symbol dfs
  then fst (save_loop now dfs conn n) = Raise KeyError
  else exists n', fst (save_loop now dfs conn n) = Ok n'.
Proof.
  revert conn n. induction dfs as [|f dfs IH]; intros conn n; cbn [save_loop existsb].
  - eauto.
  - unfold lacks_symbol at 1. destruct (empty f); cbn [negb andb orb]; [apply IH|].
    destruct (str_in c_symbol (columns f)); cbn [negb orb]; [|reflexivity].
    destruct (executemany now _ conn) as [[u|e] conn']; apply IH.
Qed.

Lemma insert_or_ignore_changes now t sym dat vals per adj :
  rows_added t (fst (insert_or_ignore now t sym dat vals per adj))
  = if snd (insert_or_ignore now t sym dat vals per adj) then 1 else 0.
Proof.
  unfold insert_or_ignore, rows_added.
  destruct (is_missing sym || is_missing dat); cbn [fst snd t_rows]; [lia|].
  destruct (existsb _ _); cbn [fst snd t_rows]; [lia|].
  rewrite length_app. cbn [length]. lia.
Qed.

(** [total_changes] grows by the number of rows that went in. *)
Lemma insert_rows_changes now data t ch :
  snd (insert_rows now data t ch)
  = ch + rows_added t (snd (fst (insert_rows now data t ch))).
Proof.
  revert t ch. induction data as [|p rest IH]; intros t ch.
  - cbn. unfold rows_added. lia.
  - rewrite insert_rows_cons. destruct (bound p) as [[[[[sym dat] vals] per] adj]|].
    + pose proof (insert_or_ignore_changes now t sym dat vals per adj) as Hc.
      destruct (insert_or_ignore now t sym dat vals per adj) as [t' changed].
      cbn [fst snd] in Hc. rewrite IH. unfold rows_added in *.
      destruct changed; lia.
    + cbn. unfold rows_added. lia.
Qed.

(** The invariant of the loop: the open transaction sees the rows on disk
    followed by new ones, and neither [total_changes] nor the running
    total is below the number of new rows. *)
Lemma save_loop_counts now dfs conn n T W :
  committed conn = Some T -> working conn = Some W ->
  (exists e, t_rows W = t_rows T ++ e) ->
  rows_added T W <= total_changes conn -> rows_added T W <= n -> 0 <= n ->
  exists r conn' W' e',
    save_loop now dfs conn n = (r, conn')
    /\ committed conn' = Some T /\ working conn' = Some W'
    /\ t_rows W' = t_rows T ++ e'
    /\ forall n', r = Ok n' -> rows_added T W' <= n'.
Proof.
  revert conn n W. induction dfs as [|f dfs IH]; intros conn n W HT HW [e He] Hc Hn Hn0;
    cbn [save_loop].
  - exists (Ok n), conn, W, e. repeat split; try done. by intros n' [= <-].
  - destruct (empty f); [apply (IH conn n W); eauto|].
    destruct (negb (str_in c_symbol (columns f))).
    { exists (Raise KeyError), conn, W, e. repeat split; try done. }
    unfold executemany. rewrite HW.
    pose proof (insert_rows_changes now (map (fun r => data_row (snd r)) (rows f)) W
                  (total_changes conn)) as Hch.
    pose proof (insert_rows_extends now (map (fun r => data_row (snd r)) (rows f)) W
                  (total_changes conn)) as [e1 He1].
    destruct (insert_rows now _ W (total_changes conn)) as [[[err|] W1] ch1];
      cbn [fst snd] in *.
    + pose proof (f_equal (@length _) He) as HlW. rewrite length_app in HlW.
      pose proof (f_equal (@length _) He1) as HlW1. rewrite length_app in HlW1.
      apply (IH _ _ T); cbn [rollback committed working total_changes]; try done.
      * exists []. by rewrite app_nil_r.
      * unfold rows_added in *. lia.
      * unfold rows_added. lia.
    + pose proof (f_equal (@length _) He) as HlW. rewrite length_app in HlW.
      pose proof (f_equal (@length _) He1) as HlW1. rewrite length_app in HlW1.
      apply (IH _ _ W1); cbn [committed working total_changes]; try done.
      * exists (e ++ e1). by rewrite He1, He, <- app_assoc.
      * unfold rows_added in *. lia.
      * unfold rows_added in *. lia.
      * unfold rows_added in *. lia.
Qed.

(** Without the table every [executemany] fails and is rolled back. *)
Lemma save_loop_without_table now dfs conn n :
  committed conn = None -> working conn = None ->
  working (snd (save_loop now dfs conn n)) = None
  /\ forall n', fst (save_loop now dfs conn n) = Ok n' -> n' = n.
Proof.
  revert conn n. induction dfs as [|f dfs IH]; intros conn n HT HW; cbn [save_loop].
  - split; [exact HW|]. by intros n' [= <-].
  - destruct (empty f); [by apply IH|].
    destruct (negb (str_in c_symbol (columns f))); [split; [exact HW|discriminate]|].
    unfold executemany. rewrite HW. apply IH; cbn; by rewrite HT.
Qed.

End StoreEdges.


(** X10. [save_stocks_to_db] never removes or changes a stored row: the
    rows of the table before the call are, in order, the first rows of the
    table after it, for every list of frames. *)
Theorem save_stocks_to_db_keeps_rows (now : Z) (df_list : list DataFrame) (t : table) :
  exists t' new_rows,
    snd (save_stocks_to_db now df_list (Some t)) = Some t'
    /\ t_rows t' = t_rows t ++ new_rows.
Proof.
  unfold save_stocks_to_db. destruct df_list as [|f dfs].
  { exists t, []. by rewrite app_nil_r. }
  destruct (save_loop_counts now (f :: dfs) (get_db_connection (Some t)) 0 t t)
    as (r & conn' & W' & e' & -> & HT & HW & He & _); try done.
  - exists []. by rewrite app_nil_r.
  - unfold rows_added. cbn. lia.
  - unfold rows_added. lia.
  - destruct r as [n'|e]; cbn [snd close commit committed].
    + exists W', e'. auto.
    + exists t, []. rewrite app_nil_r. auto.
Qed.

(** X11. On a database whose table was never created [save_stocks_to_db]
    stores nothing and does not create the table; unless a frame lacks the
    symbol column it reports no error either, and returns 0. *)
Theorem save_stocks_to_db_without_table (now : Z) (df_list : list DataFrame) :
  snd (save_stocks_to_db now df_list None) = None
  /\ (existsb lacks_symbol df_list = false ->
      save_stocks_to_db now df_list None = (Ok 0, None)).
Proof.
  unfold save_stocks_to_db. destruct df_list as [|f dfs]; [done|].
  pose proof (save_loop_without_table now (f :: dfs) (get_db_connection None) 0
                eq_refl eq_refl) as [HW Hn].
  pose proof (save_loop_outcome now (f :: dfs) (get_db_connection None) 0) as Ho.
  pose proof (save_loop_committed now (f :: dfs) (get_db_connection None) 0) as Hc.
  destruct (save_loop now (f :: dfs) (get_db_connection None) 0) as [r conn'].
  cbn [fst snd] in *. split.
  - destruct r; cbn [snd close commit committed]; done.
  - intros Hl. rewrite Hl in Ho. destruct Ho as [n' ->].
    rewrite (Hn n' eq_refl). cbn [close commit committed]. by rewrite HW.
Qed.


(* ===================================================================== *)
(** ** The batch functions: [fetch_multiple_stocks], [update_multiple_stocks] *)
(* ===================================================================== *)

Section Batch.

Variable cfg : request_config.
Variable ak_stock_zh_a_hist : vendor.
Variable to_datetime : converter.

Lemma fetches_app t1 t2 : fetches (t1 ++ t2) = fetches t1 ++ fetches t2.
Proof. unfold fetches. apply filter_app. Qed.

Lemma schedule_fetches call a j :
  is_fetch call = true -> Forall (eq call) (filter is_fetch (schedule call a j)).
Proof.
  intros Hc. revert a. induction j as [|j IH]; intros a; cbn [schedule].
  - rewrite filter_cons_bool, Hc. repeat constructor.
  - rewrite !filter_cons_bool, Hc. cbn [is_fetch]. constructor; [done|apply IH].
Qed.

(** One call of [safe_fetch_stock_data]: it returns, the vendor is asked
    for the given symbol and window only, at most [max_retries] times,
    and a frame that comes back is one [process_stock_data] made. *)
Lemma safe_fetch_outcome symbol start_date end_date period adjust max_retries tr :
  exists r new,
    safe_fetch_stock_data cfg ak_stock_zh_a_hist to_datetime
      symbol start_date end_date period adjust max_retries tr = (Ok r, tr ++ new)
    /\ Forall (eq (EvFetch symbol period start_date end_date (adjust_param adjust)))
         (fetches new)
    /\ Z.of_nat (length (fetches new))
       <= Z.max 0 (py_or max_retries (AShare.max_retries cfg))
    /\ (forall df, r = Some df ->
          exists raw, process_stock_data to_datetime raw symbol period adjust = Ok df).
Proof.
  unfold safe_fetch_stock_data. set (m := py_or max_retries (AShare.max_retries cfg)).
  destruct (Z.to_nat m) as [|n] eqn:En.
  - exists None, []. cbn [retry_loop]. rewrite app_nil_r.
    split; [reflexivity|]. split; [constructor|]. split; [cbn; lia|done].
  - destruct (retry_loop_schedule cfg ak_stock_zh_a_hist to_datetime
                symbol start_date end_date period adjust m n 0 tr)
      as (r & new & j & E & Hs & Hj & Hr & _); [lia|].
    exists r, new. split; [exact E|]. rewrite fetches_of_attempts, Hs.
    split; [by apply schedule_fetches|]. split.
    + rewrite fetches_schedule by reflexivity. lia.
    + intros df Hdf. destruct (Hr df Hdf) as (tr0 & raw & _ & _ & H). eauto.
Qed.

(** What the two loops keep of a result. *)
Lemma kept_frame (results : list DataFrame) (r : option DataFrame) :
  exists more,
    match r with
    | Some d => if negb (empty d) then results ++ [d] else results
    | None => results
    end = results ++ more
    /\ (length more <= 1)%nat
    /\ Forall (fun df => empty df = false /\ r = Some df) more.
Proof.
  destruct r as [d|].
  - destruct (empty d) eqn:E; cbn [negb].
    + exists []. rewrite app_nil_r. split; [done|]. split; [cbn; lia|constructor].
    + exists [d]. split; [done|]. split; [cbn; lia|]. repeat constructor; done.
  - exists []. rewrite app_nil_r. split; [done|]. split; [cbn; lia|constructor].
Qed.

Lemma pause_fetches (b : bool) tr :
  exists pause,
    (if b then add_random_delay cfg (Some 2) (Some 4) tr else tr) = tr ++ pause
    /\ fetches pause = [].
Proof.
  destruct b.
  - eexists. split; [reflexivity|reflexivity].
  - exists []. by rewrite app_nil_r.
Qed.

Lemma fetch_loop_outcome start_date end_date period adjust total symbols :
  forall i results tr,
  exists more new,
    fetch_loop cfg ak_stock_zh_a_hist to_datetime start_date end_date period adjust
      total i symbols results tr = (Ok (results ++ more), tr ++ new)
    /\ (length more <= length symbols)%nat
    /\ Forall (fun df =>
         empty df = false
         /\ exists raw symbol,
              symbol ∈ symbols
              /\ process_stock_data to_datetime raw symbol period adjust = Ok df) more
    /\ Forall (fun e =>
         exists symbol,
           symbol ∈ symbols
           /\ e = EvFetch symbol period start_date end_date (adjust_param adjust))
         (fetches new)
    /\ Z.of_nat (length (fetches new))
       <= Z.of_nat (length symbols) * Z.max 0 (AShare.max_retries cfg).
Proof.
  induction symbols as [|symbol rest IH]; intros i results tr; cbn [fetch_loop].
  - exists [], []. rewrite !app_nil_r. split; [reflexivity|].
    change (fetches []) with (@nil event).
    split; [cbn; lia|]. split; [constructor|]. split; [constructor|cbn [length]; lia].
  - destruct (safe_fetch_outcome symbol start_date end_date period adjust None tr)
      as (r & new1 & -> & Hev1 & Hn1 & Hr1).
    destruct (kept_frame results r) as (more1 & -> & Hl1 & Hm1).
    destruct (pause_fetches (i <? total - 1) (tr ++ new1)) as (pause & -> & Hp).
    destruct (IH (i + 1) (results ++ more1) ((tr ++ new1) ++ pause))
      as (more2 & new2 & -> & Hl2 & Hm2 & Hev2 & Hn2).
    exists (more1 ++ more2), (new1 ++ pause ++ new2).
    rewrite <- !app_assoc. split; [reflexivity|].
    rewrite !fetches_app, Hp, !length_app. cbn [app length py_or] in *.
    split; [lia|]. split; [|split].
    + apply Forall_app. split.
      * eapply Forall_impl; [exact Hm1|]. intros df [He Hdf]. split; [exact He|].
        destruct (Hr1 df Hdf) as [raw Hraw]. exists raw, symbol.
        split; [apply elem_of_cons; auto|exact Hraw].
      * eapply Forall_impl; [exact Hm2|]. intros df (He & raw & s & Hs & Hraw).
        split; [exact He|]. exists raw, s. split; [apply elem_of_cons; auto|exact Hraw].
    + apply Forall_app. split.
      * eapply Forall_impl; [exact Hev1|]. intros e <-. exists symbol.
        split; [apply elem_of_cons; auto|reflexivity].
      * eapply Forall_impl; [exact Hev2|]. intros e (s & Hs & ->). exists s.
        split; [apply elem_of_cons; auto|reflexivity].
    + lia.
Qed.

(** What [process_stock_data] raises is no request error. *)
Lemma process_stock_data_raises raw symbol period adjust e :
  process_stock_data to_datetime raw symbol period adjust = Raise e ->
  is_request_exception e = false.
Proof.
  rewrite process_stock_data_unfold.
  destruct (if negb (str_in c_date (columns raw)) then reset_index raw else Ok raw)
    as [df1|e1] eqn:E1; cbn [mbind exc_bind bind_exc].
  - set (df2 := rename _ df1).
    destruct (str_in c_date (columns df2)); [|discriminate].
    unfold convert_dates. destruct (count_label c_date df2) as [|[|n]];
      cbn [mbind exc_bind bind_exc]; try (by intros [= <-]).
    destruct (to_datetime (date_column df2)) as [at_row| |[|]];
      cbn [mbind exc_bind bind_exc]; try discriminate; by intros [= <-].
  - destruct (negb _); [|discriminate]. unfold reset_index in E1.
    destruct (str_in _ (columns raw)); [|discriminate].
    injection E1 as <-. by intros [= <-].
Qed.

Hypothesis to_datetime_range : datetime_in_range to_datetime.

(** One call of [update_stock_data] on a database the application has
    written. *)
Lemma update_stock_data_outcome today symbol period adjust db tr :
  reachable to_datetime db ->
  exists r new start_date,
    update_stock_data cfg ak_stock_zh_a_hist to_datetime today
      symbol period adjust db tr = (Ok r, tr ++ new)
    /\ Forall (eq (EvFetch symbol period start_date (strftime today)
                     (adjust_param adjust))) (fetches new)
    /\ Z.of_nat (length (fetches new)) <= Z.max 0 (AShare.max_retries cfg)
    /\ (forall df, r = Some df ->
          exists raw, process_stock_data to_datetime raw symbol period adjust = Ok df).
Proof.
  intros Hreach.
  destruct (reachable_inv to_datetime db Hreach) as (t & -> & [_ Hok]).
  set (l := filter (matches_triple symbol period (adjust_param adjust)) (t_rows t)).
  assert (Hl : Forall (stored_ok to_datetime) l).
  { apply Forall_forall. intros r Hr. apply list_elem_of_filter in Hr as [_ Hr].
    rewrite Forall_forall in Hok. by apply Hok. }
  destruct (start_date_of_stored to_datetime to_datetime_range l Hl)
    as (start & _ & _ & Hsd & _).
  unfold update_stock_data. fold (adjust_param adjust). cbn [select_max_date].
  fold l. rewrite Hsd.
  destruct (str_gtb (strftime start) (strftime today)).
  - exists None, [EvSt StInfo], (strftime start).
    change (fetches [EvSt StInfo]) with (@nil event).
    split; [reflexivity|]. split; [constructor|]. split; [cbn [length]; lia|done].
  - destruct (safe_fetch_outcome symbol (strftime start) (strftime today) period adjust
                None (tr ++ [EvSt StInfo])) as (r & new & -> & Hev & Hn & Hr).
    exists r, ([EvSt StInfo] ++ new), (strftime start).
    rewrite <- app_assoc. split; [reflexivity|].
    rewrite fetches_app. cbn [app py_or] in *. auto.
Qed.

Lemma update_loop_outcome today period adjust db total symbols :
  reachable to_datetime db ->
  forall i results tr,
  exists more new,
    update_loop cfg ak_stock_zh_a_hist to_datetime today period adjust db
      total i symbols results tr = (Ok (results ++ more), tr ++ new)
    /\ (length more <= length symbols)%nat
    /\ Forall (fun df =>
         empty df = false
         /\ exists raw symbol,
              symbol ∈ symbols
              /\ process_stock_data to_datetime raw symbol period adjust = Ok df) more
    /\ Forall (fun e =>
         exists symbol start_date end_date,
           symbol ∈ symbols
           /\ e = EvFetch symbol period start_date end_date (adjust_param adjust))
         (fetches new)
    /\ Z.of_nat (length (fetches new))
       <= Z.of_nat (length symbols) * Z.max 0 (AShare.max_retries cfg).
Proof.
  intros Hreach.
  induction symbols as [|symbol rest IH]; intros i results tr; cbn [update_loop].
  - exists [], []. rewrite !app_nil_r. split; [reflexivity|].
    change (fetches []) with (@nil event).
    split; [cbn; lia|]. split; [constructor|]. split; [constructor|cbn [length]; lia].
  - destruct (update_stock_data_outcome (today i) symbol period adjust db tr Hreach)
      as (r & new1 & start & -> & Hev1 & Hn1 & Hr1).
    destruct (kept_frame results r) as (more1 & -> & Hl1 & Hm1).
    destruct (pause_fetches (i <? total - 1) (tr ++ new1)) as (pause & -> & Hp).
    destruct (IH (i + 1) (results ++ more1) ((tr ++ new1) ++ pause))
      as (more2 & new2 & -> & Hl2 & Hm2 & Hev2 & Hn2).
    exists (more1 ++ more2), (new1 ++ pause ++ new2).
    rewrite <- !app_assoc. split; [reflexivity|].
    rewrite !fetches_app, Hp, !length_app. cbn [app length] in *.
    split; [lia|]. split; [|split].
    + apply Forall_app. split.
      * eapply Forall_impl; [exact Hm1|]. intros df [He Hdf]. split; [exact He|].
        destruct (Hr1 df Hdf) as [raw Hraw]. exists raw, symbol.
        split; [apply elem_of_cons; auto|exact Hraw].
      * eapply Forall_impl; [exact Hm2|]. intros df (He & raw & s & Hs & Hraw).
        split; [exact He|]. exists raw, s. split; [apply elem_of_cons; auto|exact Hraw].
    + apply Forall_app. split.
      * eapply Forall_impl; [exact Hev1|]. intros e <-. exists symbol, start, (strftime (today i)).
        split; [apply elem_of_cons; auto|reflexivity].
      * eapply Forall_impl; [exact Hev2|]. intros e (s & sd & ed & Hs & ->).
        exists s, sd, ed. split; [apply elem_of_cons; auto|reflexivity].
    + lia.
Qed.

End Batch.



(** X15. Fetching and saving keeps the database as the application
    writes it.  Whatever the vendor returns, the frames of
    [fetch_multiple_stocks] and of [update_multiple_stocks] are frames of
    the pipeline, so that saving them with [save_stocks_to_db] into a
    database the application has written gives such a database again: the
    table is there and holds at most one row for each (symbol, date,
    period, adjust). *)
Theorem acquired_frames_keep_database
    (cfg : request_config) (ak_stock_zh_a_hist : vendor)
    (to_datetime : converter) (today : Z -> date) (now : Z)
    (symbols_str start_date end_date period adjust : pystr)
    (db : database) (tr : trace) :
  datetime_in_range to_datetime ->
  reachable to_datetime db ->
  (exists results tr',
     fetch_multiple_stocks cfg ak_stock_zh_a_hist to_datetime
       symbols_str start_date end_date period adjust tr = (Ok results, tr')
     /\ reachable to_datetime (snd (save_stocks_to_db now results db))
     /\ exists t, snd (save_stocks_to_db now results db) = Some t
                  /\ unique_keys (t_rows t))
  /\ (exists results tr',
        update_multiple_stocks cfg ak_stock_zh_a_hist to_datetime today
          symbols_str period adjust db tr = (Ok results, tr')
        /\ reachable to_datetime (snd (save_stocks_to_db now results db))
        /\ exists t, snd (save_stocks_to_db now results db) = Some t
                     /\ unique_keys (t_rows t)).
Proof.
  intros Hrange Hreach.
  assert (Hsave : forall results,
            Forall (fun df =>
              empty df = false
              /\ exists raw symbol,
                   symbol ∈ process_symbols symbols_str
                   /\ process_stock_data to_datetime raw symbol period adjust = Ok df)
              results ->
            reachable to_datetime (snd (save_stocks_to_db now results db))
            /\ exists t, snd (save_stocks_to_db now results db) = Some t
                         /\ unique_keys (t_rows t)).
  { intros results Hres.
    assert (Hr : reachable to_datetime (snd (save_stocks_to_db now results db))).
    { apply reach_save; [exact Hreach|]. eapply Forall_impl; [exact Hres|].
      intros df (_ & raw & symbol & _ & H). by exists raw, symbol, period, adjust. }
    split; [exact Hr|].
    destruct (reachable_inv to_datetime _ Hr) as (t & Ht & [Hu _]). eauto. }
  split.
  - unfold fetch_multiple_stocks.
    destruct (process_symbols symbols_str) as [|s0 ss] eqn:Es.
    + exists [], (tr ++ [EvSt StError]). split; [reflexivity|]. apply Hsave. constructor.
    + destruct (fetch_loop_outcome cfg ak_stock_zh_a_hist to_datetime
                  start_date end_date period adjust
                  (Z.of_nat (length (s0 :: ss))) (s0 :: ss) 0 [] tr)
        as (more & new & -> & _ & Hm & _). cbn [app].
      exists more, (tr ++ new). split; [reflexivity|]. by apply Hsave.
  - unfold update_multiple_stocks.
    destruct (process_symbols symbols_str) as [|s0 ss] eqn:Es.
    + exists [], tr. split; [reflexivity|]. apply Hsave. constructor.
    + destruct (update_loop_outcome cfg ak_stock_zh_a_hist to_datetime Hrange
                  today period adjust db (Z.of_nat (length (s0 :: ss))) (s0 :: ss)
                  Hreach 0 [] tr)
        as (more & new & -> & _ & Hm & _). cbn [app].
      exists more, (tr ++ new). split; [reflexivity|]. by apply Hsave.
Qed.


(* ===================================================================== *)
(** ** From [process_stock_data] through the table to the query *)
(* ===================================================================== *)

Section SaveThenQuery.

Variable to_datetime : converter.

(** What [save_stocks_to_db] binds for a row of a processed frame. *)
Lemma processed_row_bound symbol period adjust (s : Series) d sym dat vals per adj :
  processed_row to_datetime symbol period adjust s ->
  entries c_date s = [CStr d] ->
  bound (data_row s) = Some (sym, dat, vals, per, adj) ->
  sym = CStr symbol /\ dat = CStr d /\ per = CStr period
  /\ adj = CStr (adjust_marker adjust).
Proof.
  intros [[Hs1 Hs2] [Hp1 Hp2] [Ha1 Ha2] _] Hd. unfold bound.
  destruct (bind_value (q_symbol (data_row s))) as [sym'|] eqn:Es; [|discriminate].
  destruct (bind_value (q_date (data_row s))) as [dat'|] eqn:Ed; [|discriminate].
  destruct (bind_all (q_values (data_row s))); [|discriminate].
  destruct (bind_value (q_period (data_row s))) as [per'|] eqn:Ep; [|discriminate].
  destruct (bind_value (q_adjust (data_row s))) as [adj'|] eqn:Ea; [|discriminate].
  intros [= -> -> -> -> ->].
  unfold data_row in *. cbn [q_symbol q_date q_period q_adjust] in *.
  destruct (series_get_all _ s c_symbol CMissing Hs1 Hs2) as [H|(c & <- & H)];
    rewrite H in Es; [discriminate|]. cbn in Es. injection Es as <-.
  destruct (series_get_all _ s c_period (CStr s_daily) Hp1 Hp2) as [H'|(c & <- & H')];
    rewrite H' in Ep; [discriminate|]. cbn in Ep. injection Ep as <-.
  destruct (series_get_all _ s c_adjust (CStr s_qfq) Ha1 Ha2) as [H''|(c & <- & H'')];
    rewrite H'' in Ea; [discriminate|]. cbn in Ea. injection Ea as <-.
  rewrite series_get_entries, Hd in Ed. cbn in Ed. injection Ed as <-. done.
Qed.

End SaveThenQuery.


(* ===================================================================== *)
(** ** [DataManager]: saving, deleting and listing *)
(* ===================================================================== *)

Section Manager.

Import USStock.

Lemma assign_date_from_frame label data data' :
  assign_date_from label data = Ok data' ->
  length (rows data') = length (rows data)
  /\ forall c, c ∈ columns data -> c ∈ columns data'.
Proof.
  unfold assign_date_from. destruct (count_label label data) as [|[|n]]; try discriminate.
  destruct (forallb _ (rows data)); [|discriminate]. intros [= <-].
  cbn [rows columns]. split; [by rewrite length_map|].
  intros c Hc. destruct (str_in u_date (columns data)); [done|].
  apply elem_of_app. by left.
Qed.

Lemma reset_index_frame data data' :
  reset_index data = Ok data' ->
  length (rows data') = length (rows data)
  /\ columns data' = index_label data :: columns data.
Proof.
  unfold reset_index. fold (index_label data).
  destruct (str_in (index_label data) (columns data)); [discriminate|].
  intros [= <-]. cbn [rows columns]. split; [|done].
  revert data. intros data. generalize 0.
  induction (rows data) as [|r l IH]; intros k; [done|]. cbn. by rewrite IH.
Qed.

Section Inserts.

Variable as_integer : cell -> option Z.

Lemma insert_stock_ok t row t' :
  insert_stock as_integer t row = Ok t' ->
  exists r,
    st_rows t' = st_rows t ++ [r]
    /\ s_symbol r = sql_value (column_value u_symbol row)
    /\ s_date r = sql_value (column_value u_date row)
    /\ is_missing (s_symbol r) = false /\ is_missing (s_date r) = false
    /\ existsb (same_stock_key (s_symbol r) (s_date r)) (st_rows t) = false.
Proof.
  unfold insert_stock.
  destruct (rowid_of as_integer (rowid_cell row)) as [given|]; [|discriminate].
  cbn [mbind exc_bind bind_exc].
  destruct (is_missing (sql_value (column_value u_symbol row))
            || is_missing (sql_value (column_value u_date row)))
    eqn:Em; [discriminate|].
  destruct (match given with Some n => _ | None => false end); [discriminate|].
  destruct (existsb _ (st_rows t)) eqn:Ee; [discriminate|].
  intros [= <-]. eexists. cbn [st_rows st_seq s_symbol s_date].
  apply orb_false_iff in Em as [Hs Hd].
  split; [reflexivity|]. split; [reflexivity|]. split; [reflexivity|]. auto.
Qed.

(** The rows that went in, when [insert_stocks] succeeds. *)
Lemma insert_stocks_ok l :
  forall t t',
  insert_stocks as_integer t l = Ok t' ->
  exists new,
    st_rows t' = st_rows t ++ new /\ length new = length l
    /\ (stocks_unique (st_rows t) -> stocks_unique (st_rows t')).
Proof.
  induction l as [|row l IH]; intros t t'; cbn [insert_stocks].
  - intros [= <-]. exists []. rewrite app_nil_r. repeat split; try done.
  - destruct (insert_stock as_integer t row) as [t1|] eqn:E1; [|discriminate].
    cbn [mbind exc_bind bind_exc]. intros H.
    apply insert_stock_ok in E1 as (r & Hr & _ & _ & Hs & Hd & Hex).
    destruct (IH _ _ H) as (new & Hn & Hl & Hu).
    exists (r :: new). split; [by rewrite Hn, Hr, <- app_assoc|].
    split; [cbn [length]; by rewrite Hl|].
    intros Hu0. apply Hu. rewrite Hr. unfold stocks_unique in *.
    rewrite map_app. cbn [map]. apply NoDup_app. split; [exact Hu0|].
    split; [|apply NoDup_singleton].
    intros k Hk Hk'. apply list_elem_of_singleton in Hk'. subst k.
    apply list_elem_of_fmap in Hk as (r0 & Hkey & Hr0).
    injection Hkey as Hk1 Hk2.
    assert (existsb (same_stock_key (s_symbol r) (s_date r)) (st_rows t) = true);
      [|congruence].
    apply existsb_exists. exists r0. split; [by apply list_elem_of_In|].
    unfold same_stock_key. apply andb_true_iff.
    split; apply sql_eq_true; split; congruence.
Qed.

(** What [save_body] writes is [insert_stocks] on as many rows as the
    frame has, and with rows it needs every column to be one of the table
    or a name of its rowid. *)
Lemma save_body_insert symbol data t t' :
  save_body as_integer symbol data t = Ok t' ->
  exists l,
    insert_stocks as_integer t l = Ok t' /\ length l = length (rows data)
    /\ (rows data <> [] ->
        forall c, c ∈ index_label data :: columns data ->
          str_in (lower (rename_label rename_map c)) (db_columns ++ rowid_names) = true).
Proof.
  unfold save_body.
  destruct (reset_index data) as [d1|] eqn:E1; [|discriminate].
  cbn [mbind exc_bind bind_exc].
  apply reset_index_frame in E1 as [Hl1 Hc1].
  destruct (if str_in u_Date (columns d1) then assign_date_from u_Date d1
            else if str_in u_Datetime (columns d1)
                 then assign_date_from u_Datetime d1 else Ok d1) as [d2|] eqn:E2;
    [|discriminate].
  cbn [mbind exc_bind bind_exc].
  assert (H2 : length (rows d2) = length (rows d1)
               /\ forall c, c ∈ columns d1 -> c ∈ columns d2).
  { destruct (str_in u_Date (columns d1)); [by apply assign_date_from_frame in E2|].
    destruct (str_in u_Datetime (columns d1)); [by apply assign_date_from_frame in E2|].
    injection E2 as <-. done. }
  destruct H2 as [Hl2 Hc2]. unfold to_sql.
  set (d3 := rename rename_map (set_column u_symbol (CStr symbol) d2)).
  assert (Hl3 : length (rows d3) = length (rows data)).
  { subst d3. cbn [rename set_column rows]. rewrite !length_map. congruence. }
  destruct (rows d3) as [|r0 rest] eqn:Er.
  - intros [= <-]. exists []. split; [reflexivity|]. split; [exact Hl3|].
    intros Hne. destruct (rows data); [done|discriminate].
  - destruct (forallb _ _) eqn:Ef; [|discriminate]. intros H.
    eexists. split; [exact H|]. split.
    + rewrite length_map. exact Hl3.
    + intros _ c Hc. rewrite <- Hc1 in Hc. apply Hc2 in Hc.
      rewrite forallb_forall in Ef. apply Ef. apply list_elem_of_In.
      subst d3. cbn [rename columns]. apply list_elem_of_fmap. exists c. split; [done|].
      apply str_in_true. apply set_column_keeps. by apply str_in_true.
Qed.

End Inserts.

Lemma stock_of_true symbol r : stock_of symbol r = true <-> s_symbol r = CStr symbol.
Proof. unfold stock_of. rewrite sql_eq_true. split; [tauto|]. intros ->. done. Qed.

Lemma info_of_true symbol r : info_of symbol r = true <-> i_symbol r = CStr symbol.
Proof. unfold info_of. rewrite sql_eq_true. split; [tauto|]. intros ->. done. Qed.

Lemma elem_of_filter_negb {A} (f : A -> bool) (l : list A) x :
  x ∈ filter (fun r => negb (f r)) l <-> x ∈ l /\ f x = false.
Proof.
  rewrite list_elem_of_filter. split.
  - intros [H ?]. split; [done|]. apply Is_true_true in H. by apply negb_true_iff.
  - intros [? H]. split; [|done]. apply Is_true_true. by apply negb_true_iff.
Qed.

Lemma distinct_cells_elem l x : x ∈ distinct_cells l <-> x ∈ l.
Proof.
  induction l as [|c l IH]; [done|]. cbn [distinct_cells].
  rewrite !elem_of_cons, elem_of_filter_negb, IH. split; [tauto|].
  intros [->|H]; [auto|]. destruct (cell_eqb c x) eqn:E; [|auto].
  apply cell_eqb_eq in E. auto.
Qed.

Lemma distinct_cells_nodup l : NoDup (distinct_cells l).
Proof.
  induction l as [|c l IH]; [constructor|]. cbn [distinct_cells]. constructor.
  - rewrite elem_of_filter_negb. intros [_ H].
    assert (cell_eqb c c = true) by (by apply cell_eqb_eq). congruence.
  - by apply NoDup_filter.
Qed.

Lemma insert_cell_perm c l : insert_cell c l ≡ₚ c :: l.
Proof.
  induction l as [|x l IH]; cbn; [done|].
  destruct (cell_leb c x); [done|]. rewrite IH. apply Permutation_swap.
Qed.

Lemma sort_cells_perm l : sort_cells l ≡ₚ l.
Proof.
  induction l as [|c l IH]; cbn; [done|]. rewrite insert_cell_perm. by rewrite IH.
Qed.

Lemma insert_cell_sorted c l :
  Sorted (fun a b => cell_leb a b = true) l ->
  Sorted (fun a b => cell_leb a b = true) (insert_cell c l).
Proof.
  induction 1 as [|x l Hl IH Hhd]; cbn; [repeat constructor|].
  destruct (cell_leb c x) eqn:E.
  - constructor; [by constructor|by constructor].
  - constructor; [exact IH|]. apply cell_leb_total in E.
    destruct l as [|y l]; cbn; [by constructor|].
    destruct (cell_leb c y); constructor; [done|]. by inversion Hhd.
Qed.

Lemma sort_cells_sorted l : Sorted (fun a b => cell_leb a b = true) (sort_cells l).
Proof.
  induction l as [|c l IH]; cbn; [constructor|]. by apply insert_cell_sorted.
Qed.

Lemma get_stored_symbols_elem db x :
  x ∈ get_stored_symbols db <->
  exists r, r ∈ st_rows (db_stocks db) /\ s_symbol r = x.
Proof.
  unfold get_stored_symbols. rewrite sort_cells_perm, distinct_cells_elem.
  rewrite list_elem_of_fmap. split; intros (r & ? & ?); exists r; auto.
Qed.

End Manager.

(** X17. [save_stock_data] writes all of a frame or nothing.  When it
    returns [True] the table has gained exactly one row for each row of
    the frame, after the rows it had, which are unchanged; when it returns
    [False] the table is as it was.  Either way no two rows of the table
    share (symbol, date), as they are stored, afterwards if none did
    before. *)
Theorem save_stock_data_all_or_nothing
    (as_integer : cell -> option Z)
    (symbol : pystr) (data : DataFrame) (t : USStock.stocks_table) :
  exists ok t',
    USStock.save_stock_data as_integer symbol data t = (ok, t')
    /\ (if ok
        then exists new_rows,
               USStock.st_rows t' = USStock.st_rows t ++ new_rows
               /\ length new_rows = length (rows data)
        else t' = t)
    /\ (stocks_unique (USStock.st_rows t) -> stocks_unique (USStock.st_rows t')).
Proof.
  unfold USStock.save_stock_data.
  destruct (USStock.save_body as_integer symbol data t) as [t'|e] eqn:E.
  - exists true, t'. split; [reflexivity|].
    apply save_body_insert in E as (l & Hins & Hl & _).
    apply insert_stocks_ok in Hins as (new & Hn & Hln & Hu).
    split; [|exact Hu]. exists new. split; [exact Hn|congruence].
  - exists false, t. auto.
Qed.

(** X18. [save_stock_data] refuses every frame with rows and a column
    the table does not have.  The frame written is the whole frame, index
    included, so if the frame has rows and the label of the index ("index"
    when it has no name) or of any column, after the renaming, is none of
    the table's columns and none of the names of its rowid (id, rowid, oid
    and _rowid_; all compared without regard to case), the call returns
    [False] and stores nothing.  This is so for a history at an intraday
    interval, whose index is named "Datetime", and for any history with a
    further column. *)
Theorem save_stock_data_refuses_unknown_column
    (as_integer : cell -> option Z)
    (symbol : pystr) (data : DataFrame) (t : USStock.stocks_table) (c : pystr) :
  rows data <> [] ->
  c ∈ index_label data :: columns data ->
  str_in (lower (rename_label USStock.rename_map c))
         (USStock.db_columns ++ USStock.rowid_names) = false ->
  USStock.save_stock_data as_integer symbol data t = (false, t).
Proof.
  intros Hne Hc Hun. unfold USStock.save_stock_data.
  destruct (USStock.save_body as_integer symbol data t) as [t'|e] eqn:E; [|reflexivity].
  apply save_body_insert in E as (l & _ & _ & Hall). rewrite (Hall Hne c Hc) in Hun.
  discriminate.
Qed.

(** X19. [get_stored_symbols] lists the symbols that have rows in
    [stocks]: each symbol of a stored row, once, in ascending order. *)
Theorem get_stored_symbols_lists_symbols (db : USStock.manager_db) :
  NoDup (USStock.get_stored_symbols db)
  /\ (forall x, x ∈ USStock.get_stored_symbols db <->
                exists r, r ∈ USStock.st_rows (USStock.db_stocks db)
                          /\ USStock.s_symbol r = x)
  /\ Sorted (fun a b => cell_leb a b = true) (USStock.get_stored_symbols db).
Proof.
  split; [|split].
  - unfold USStock.get_stored_symbols. rewrite sort_cells_perm.
    apply distinct_cells_nodup.
  - apply get_stored_symbols_elem.
  - apply sort_cells_sorted.
Qed.

(** X20. [delete_stock_data] returns [True] and removes the symbol from
    both tables and nothing else: a row of [stocks] or of [stock_info] is
    there afterwards exactly when it was there before and its symbol is
    another one; [get_stored_symbols] lists the same symbols as before
    without the deleted one; deleting again changes nothing. *)
Theorem delete_stock_data_removes_symbol (symbol : pystr) (db : USStock.manager_db) :
  let db' := snd (USStock.delete_stock_data symbol db) in
  fst (USStock.delete_stock_data symbol db) = true
  /\ (forall r, r ∈ USStock.st_rows (USStock.db_stocks db') <->
                r ∈ USStock.st_rows (USStock.db_stocks db)
                /\ USStock.s_symbol r <> CStr symbol)
  /\ (forall r, r ∈ USStock.db_info db' <->
                r ∈ USStock.db_info db /\ USStock.i_symbol r <> CStr symbol)
  /\ (forall x, x ∈ USStock.get_stored_symbols db' <->
                x ∈ USStock.get_stored_symbols db /\ x <> CStr symbol)
  /\ USStock.delete_stock_data symbol db' = (true, db').
Proof.
  intros db'. subst db'. cbn [USStock.delete_stock_data fst snd].
  assert (Hs : forall r, USStock.stock_of symbol r = false
                         <-> USStock.s_symbol r <> CStr symbol).
  { intros r. rewrite <- stock_of_true. by destruct (USStock.stock_of symbol r). }
  assert (Hi : forall r, USStock.info_of symbol r = false
                         <-> USStock.i_symbol r <> CStr symbol).
  { intros r. rewrite <- info_of_true. by destruct (USStock.info_of symbol r). }
  split; [reflexivity|]. split; [|split; [|split]].
  - intros r. cbn [USStock.db_stocks USStock.st_rows].
    by rewrite elem_of_filter_negb, Hs.
  - intros r. cbn [USStock.db_info]. by rewrite elem_of_filter_negb, Hi.
  - intros x. rewrite !get_stored_symbols_elem.
    cbn [USStock.db_stocks USStock.st_rows]. split.
    + intros (r & Hr & <-). apply elem_of_filter_negb in Hr as [Hr Hne].
      apply Hs in Hne. eauto.
    + intros [(r & Hr & <-) Hne]. exists r. split; [|done].
      apply elem_of_filter_negb. split; [done|]. by apply Hs.
  - unfold USStock.delete_stock_data.
    cbn [USStock.db_stocks USStock.db_info USStock.st_rows USStock.st_seq].
    f_equal. f_equal; [f_equal|].
    + induction (USStock.st_rows (USStock.db_stocks db)) as [|r l IH]; [done|].
      rewrite filter_cons_bool. destruct (USStock.stock_of symbol r) eqn:E; cbn [negb];
        [exact IH|]. rewrite filter_cons_bool, E. cbn [negb]. by rewrite IH.
    + induction (USStock.db_info db) as [|r l IH]; [done|].
      rewrite filter_cons_bool. destruct (USStock.info_of symbol r) eqn:E; cbn [negb];
        [exact IH|]. rewrite filter_cons_bool, E. cbn [negb]. by rewrite IH.
Qed.

(** X21. After [delete_stock_data] the symbol can be saved again.  A
    daily history of yfinance with one row for each day, tagged for the
    symbol by [fetch_stock_data], is accepted by [save_stock_data] on the
    database [delete_stock_data] leaves for that symbol, whatever was
    stored before: it returns [True] and the rows of the history follow
    the rows that were kept, numbered on from the counter of the table. *)
Theorem delete_then_save_stock_data
    (as_integer : cell -> option Z)
    (symbol : pystr) (h : DataFrame) (db : USStock.manager_db) :
  yf_history h ->
  NoDup (map fst (rows h)) ->
  let t' := USStock.db_stocks (snd (USStock.delete_stock_data symbol db)) in
  USStock.save_stock_data as_integer symbol (USStock.fetched_frame symbol h) t'
  = (true,
     USStock.mkstocks
       (USStock.st_rows t'
        ++ stock_rows_from symbol (USStock.st_seq (USStock.db_stocks db) + 1) (rows h))
       (USStock.st_seq (USStock.db_stocks db) + Z.of_nat (length (rows h)))).
Proof.
  intros Hh Hn t'. unfold USStock.save_stock_data.
  rewrite save_body_history by exact Hh.
  rewrite insert_stocks_fresh; [reflexivity|by destruct Hh|exact Hn|].
  intros r _. subst t'. cbn [USStock.delete_stock_data snd USStock.db_stocks USStock.st_rows].
  destruct (existsb _ _) eqn:E; [|reflexivity].
  apply existsb_exists in E as (r0 & Hr0 & Hk).
  apply list_elem_of_In, elem_of_filter_negb in Hr0 as [_ Hne].
  unfold USStock.same_stock_key in Hk. apply andb_true_iff in Hk as [Hk _].
  unfold USStock.stock_of in Hne. congruence.
Qed.

Section SaveThenList.

Import USStock.

Variable as_integer : cell -> option Z.

(** Every row handed to a successful [insert_stocks] is in the table
    afterwards, under the symbol and date the INSERT took for it. *)
Lemma insert_stocks_stored l :
  forall t t',
  insert_stocks as_integer t l = Ok t' ->
  (forall r, r ∈ st_rows t -> r ∈ st_rows t')
  /\ forall row, row ∈ l ->
       exists r, r ∈ st_rows t'
                 /\ s_symbol r = sql_value (column_value u_symbol row)
                 /\ s_date r = sql_value (column_value u_date row).
Proof.
  induction l as [|row0 l IH]; intros t t'; cbn [insert_stocks].
  - intros [= <-]. split; [done|]. intros row Hrow. by apply elem_of_nil in Hrow.
  - destruct (insert_stock as_integer t row0) as [t1|] eqn:E1; [|discriminate].
    cbn [mbind exc_bind bind_exc]. intros H.
    destruct (IH _ _ H) as [Hkeep Hnew].
    apply insert_stock_ok in E1 as (r1 & H1 & Hs1 & Hd1 & _).
    split.
    + intros r Hr. apply Hkeep. rewrite H1. apply elem_of_app. by left.
    + intros row Hrow. apply elem_of_cons in Hrow as [->|Hrow]; [|by apply Hnew].
      exists r1. split; [|done]. apply Hkeep. rewrite H1. apply elem_of_app. right.
      by apply list_elem_of_singleton.
Qed.

End SaveThenList.

(** X22. A symbol that was saved is listed.  When [save_stock_data]
    accepts a daily history of yfinance tagged for a symbol, every
    Timestamp of the history is stored, as its text, under that symbol,
    and [get_stored_symbols] lists the symbol as soon as the history has a
    row. *)
Theorem saved_symbol_is_listed
    (as_integer : cell -> option Z)
    (symbol : pystr) (h : DataFrame) (db : USStock.manager_db) (t' : USStock.stocks_table) :
  yf_history h ->
  USStock.save_stock_data as_integer symbol (USStock.fetched_frame symbol h)
    (USStock.db_stocks db)
  = (true, t') ->
  (forall r, r ∈ rows h ->
     exists s, s ∈ USStock.st_rows t'
               /\ USStock.s_symbol s = CStr symbol
               /\ USStock.s_date s = USStock.sql_value (fst r))
  /\ (rows h <> [] ->
      CStr symbol ∈ USStock.get_stored_symbols (USStock.mkdb t' (USStock.db_info db))).
Proof.
  intros Hh Hsave. unfold USStock.save_stock_data in Hsave.
  rewrite save_body_history in Hsave by exact Hh.
  destruct (USStock.insert_stocks _ _ _) as [t1|] eqn:E; [|discriminate].
  injection Hsave as <-.
  apply insert_stocks_stored in E as [_ Hnew].
  assert (Hrows : forall r, r ∈ rows h ->
            exists s, s ∈ USStock.st_rows t1
                      /\ USStock.s_symbol s = CStr symbol
                      /\ USStock.s_date s = USStock.sql_value (fst r)).
  { intros r Hr. destruct Hh as [_ _ Hall]. rewrite Forall_forall in Hall.
    destruct (Hall r Hr) as [Hd Hc].
    destruct (prepared_row_values symbol r Hd Hc) as (Hs & Hdt & _).
    destruct (Hnew (prepared_row symbol r)) as (s & Hin & Hs1 & Hs2).
    { apply list_elem_of_fmap. eauto. }
    exists s. split; [exact Hin|]. rewrite Hs1, Hs2, Hs, Hdt. done. }
  split; [exact Hrows|].
  intros Hne. destruct (rows h) as [|r0 rs] eqn:Er; [done|].
  destruct (Hrows r0) as (s & Hin & Hs & _); [apply elem_of_cons; auto|].
  apply get_stored_symbols_elem. exists s. auto.
Qed.

Section Summary.

Import USStock.

Lemma distinct_cells_length l : (length (distinct_cells l) <= length l)%nat.
Proof.
  induction l as [|c l IH]; [done|]. cbn [distinct_cells length].
  pose proof (length_filter (fun x => negb (cell_eqb c x)) (distinct_cells l)). lia.
Qed.

Lemma filter_present (l : list stock_row) :
  Forall (fun r => is_missing (s_symbol r) = false) l ->
  filter (fun c => negb (is_missing c)) (map s_symbol l) = map s_symbol l.
Proof.
  induction 1 as [|r l Hr _ IH]; [done|]. cbn [map]. rewrite filter_cons_bool, Hr.
  cbn [negb]. by rewrite IH.
Qed.

(** MIN over texts: a text of the list that none is below. *)
Lemma min_cell_texts (l : list cell) :
  Forall (fun c => exists s, c = CStr s) l -> l <> [] ->
  exists lo, min_cell l = CStr lo /\ CStr lo ∈ l
             /\ forall s, CStr s ∈ l -> str_leb lo s = true.
Proof.
  induction 1 as [|c l [s0 ->] Hl IH]; [done|]. intros _. cbn [min_cell is_missing].
  destruct l as [|c1 l1].
  - cbn [min_cell]. exists s0. split; [done|]. split; [apply list_elem_of_singleton; done|].
    intros s Hs. apply list_elem_of_singleton in Hs. injection Hs as ->.
    unfold str_leb. by rewrite str_ltb_irrefl.
  - destruct IH as (lo & -> & Hin & Hlo); [done|]. cbn [cell_leb].
    destruct (str_leb s0 lo) eqn:E.
    + exists s0. split; [done|]. split; [apply elem_of_cons; auto|].
      intros s Hs. apply elem_of_cons in Hs as [[= ->]|Hs].
      * unfold str_leb. by rewrite str_ltb_irrefl.
      * eapply str_leb_trans; [exact E|by apply Hlo].
    + exists lo. split; [done|]. split; [apply elem_of_cons; auto|].
      intros s Hs. apply elem_of_cons in Hs as [[= ->]|Hs]; [|by apply Hlo].
      unfold str_leb in *. apply negb_false_iff in E.
      by rewrite (str_ltb_asym _ _ E).
Qed.

(** MAX over texts: a text of the list that none is above. *)
Lemma max_cell_texts (l : list cell) :
  Forall (fun c => exists s, c = CStr s) l -> l <> [] ->
  exists hi, max_cell l = CStr hi /\ CStr hi ∈ l
             /\ forall s, CStr s ∈ l -> str_leb s hi = true.
Proof.
  induction 1 as [|c l [s0 ->] Hl IH]; [done|]. intros _. cbn [max_cell is_missing].
  destruct l as [|c1 l1].
  - cbn [max_cell]. exists s0. split; [done|]. split; [apply list_elem_of_singleton; done|].
    intros s Hs. apply list_elem_of_singleton in Hs. injection Hs as ->.
    unfold str_leb. by rewrite str_ltb_irrefl.
  - destruct IH as (hi & -> & Hin & Hhi); [done|]. cbn [cell_leb].
    destruct (str_leb hi s0) eqn:E.
    + exists s0. split; [done|]. split; [apply elem_of_cons; auto|].
      intros s Hs. apply elem_of_cons in Hs as [[= ->]|Hs].
      * unfold str_leb. by rewrite str_ltb_irrefl.
      * eapply str_leb_trans; [by apply Hhi|exact E].
    + exists hi. split; [done|]. split; [apply elem_of_cons; auto|].
      intros s Hs. apply elem_of_cons in Hs as [[= ->]|Hs]; [|by apply Hhi].
      unfold str_leb in *. apply negb_false_iff in E.
      by rewrite (str_ltb_asym _ _ E).
Qed.

Lemma pad_digits n :
  0 <= n <= 9999 ->
  exists a b c e,
    (0 <= a <= 9 /\ 0 <= b <= 9 /\ 0 <= c <= 9 /\ 0 <= e <= 9)
    /\ n = 1000 * a + 100 * b + 10 * c + e
    /\ pad4 n = [digit a; digit b; digit c; digit e].
Proof.
  intros Hn. exists (n / 1000), (n / 100 mod 10), (n / 10 mod 10), (n mod 10).
  split; [|split; [|reflexivity]]; Z.div_mod_to_equations; lia.
Qed.

(** The ISO text of a day, with whatever follows it, is below that of
    every later day. *)
Lemma isoformat_lt a b ca cb :
  valid_date a = true -> valid_date b = true -> date_ltb a b = true ->
  str_ltb (isoformat a ++ ca) (isoformat b ++ cb) = true.
Proof.
  intros Va Vb. apply valid_date_spec in Va as (Ya & Ma & Da).
  apply valid_date_spec in Vb as (Yb & Mb & Db).
  pose proof (days_in_month_bounds (year a) (month a)).
  pose proof (days_in_month_bounds (year b) (month b)).
  destruct (pad_digits (year a)) as (a3 & a2 & a1 & a0 & ? & Eya & Epa); [lia|].
  destruct (pad_digits (year b)) as (b3 & b2 & b1 & b0 & ? & Eyb & Epb); [lia|].
  destruct (pad2_digits (month a)) as (am1 & am0 & ? & ? & Ema & Epma); [lia|].
  destruct (pad2_digits (month b)) as (bm1 & bm0 & ? & ? & Emb & Epmb); [lia|].
  destruct (pad2_digits (day a)) as (ad1 & ad0 & ? & ? & Eda & Epda); [lia|].
  destruct (pad2_digits (day b)) as (bd1 & bd0 & ? & ? & Edb & Epdb); [lia|].
  rewrite date_ltb_true. unfold isoformat.
  rewrite Epa, Epb, Epma, Epmb, Epda, Epdb, Eya, Eyb, Ema, Emb, Eda, Edb.
  unfold digit. cbn [app str_ltb]. intros Hlt.
  repeat match goal with
         | |- context [?x <? ?y] => destruct (Z.ltb_spec x y)
         end; try reflexivity; lia.
Qed.

End Summary.

(** X25. [get_data_summary] agrees with the table and with
    [get_stored_symbols].  On a table whose rows have a symbol and, as
    date, the text of a Timestamp, which is how [save_stock_data] writes
    the histories, the record count is the number of rows, the stock count
    is the number of symbols [get_stored_symbols] lists and is not above
    the record count, and, when there are rows, the start and end dates
    are the dates of stored rows, with no stored date below the one or
    above the other as texts, and so with no stored row of a day before
    the one or after the other; on the empty table both counts are 0 and
    both dates are missing. *)
Theorem get_data_summary_consistent (db : USStock.manager_db) :
  Forall (fun r => is_missing (USStock.s_symbol r) = false
                   /\ exists d clock, valid_date d = true
                         /\ USStock.s_date r = USStock.sql_value (CTime d clock))
    (USStock.st_rows (USStock.db_stocks db)) ->
  let s := USStock.get_data_summary db in
  USStock.record_count s = Z.of_nat (length (USStock.st_rows (USStock.db_stocks db)))
  /\ USStock.stock_count s = Z.of_nat (length (USStock.get_stored_symbols db))
  /\ USStock.stock_count s <= USStock.record_count s
  /\ (USStock.st_rows (USStock.db_stocks db) = [] ->
      USStock.stock_count s = 0 /\ USStock.record_count s = 0
      /\ USStock.start_date s = CMissing /\ USStock.end_date s = CMissing)
  /\ (USStock.st_rows (USStock.db_stocks db) <> [] ->
      exists lo clock_lo hi clock_hi,
        valid_date lo = true /\ valid_date hi = true
        /\ USStock.start_date s = USStock.sql_value (CTime lo clock_lo)
        /\ USStock.end_date s = USStock.sql_value (CTime hi clock_hi)
        /\ (exists r, r ∈ USStock.st_rows (USStock.db_stocks db)
                      /\ USStock.s_date r = USStock.start_date s)
        /\ (exists r, r ∈ USStock.st_rows (USStock.db_stocks db)
                      /\ USStock.s_date r = USStock.end_date s)
        /\ forall r, r ∈ USStock.st_rows (USStock.db_stocks db) ->
             cell_leb (USStock.start_date s) (USStock.s_date r) = true
             /\ cell_leb (USStock.s_date r) (USStock.end_date s) = true
             /\ forall d clock,
                  valid_date d = true ->
                  USStock.s_date r = USStock.sql_value (CTime d clock) ->
                  date_ltb d lo = false /\ date_ltb hi d = false).
Proof.
  intros Hrows s. subst s. unfold USStock.get_data_summary, USStock.get_stored_symbols.
  cbn [USStock.stock_count USStock.record_count USStock.start_date USStock.end_date].
  set (l := USStock.st_rows (USStock.db_stocks db)) in *.
  assert (Hs : Forall (fun r => is_missing (USStock.s_symbol r) = false) l).
  { eapply Forall_impl; [exact Hrows|]. by intros r [H _]. }
  assert (Hd : Forall (fun c => exists s, c = CStr s) (map USStock.s_date l)).
  { apply Forall_fmap. eapply Forall_impl; [exact Hrows|].
    intros r [_ (d & clock & _ & H)]. unfold compose. rewrite H. cbn. eauto. }
  rewrite filter_present by exact Hs.
  split; [reflexivity|]. split; [by rewrite sort_cells_perm|]. split.
  { pose proof (distinct_cells_length (map USStock.s_symbol l)) as H.
    rewrite length_map in H. lia. }
  split.
  - intros ->. done.
  - intros Hne.
    assert (Hne' : map USStock.s_date l <> []) by (by destruct l).
    destruct (min_cell_texts _ Hd Hne') as (lo & Hlo & Hin & Hmin).
    destruct (max_cell_texts _ Hd Hne') as (hi & Hhi & Hin' & Hmax).
    apply list_elem_of_fmap in Hin as (r1 & Hr1 & Hin).
    apply list_elem_of_fmap in Hin' as (r2 & Hr2 & Hin').
    rewrite Forall_forall in Hrows.
    destruct (Hrows r1 Hin) as [_ (dlo & clo & Vlo & Elo)].
    destruct (Hrows r2 Hin') as [_ (dhi & chi & Vhi & Ehi)].
    exists dlo, clo, dhi, chi. rewrite Hlo, Hhi.
    split; [exact Vlo|]. split; [exact Vhi|].
    split; [congruence|]. split; [congruence|].
    split; [eauto|]. split; [eauto|].
    intros r Hr.
    destruct (Hrows r Hr) as [_ (d0 & c0 & _ & E0)].
    assert (Hrin : USStock.s_date r ∈ map USStock.s_date l).
    { apply list_elem_of_fmap. exists r. auto. }
    rewrite E0 in Hrin |- *. cbn [USStock.sql_value] in Hrin |- *.
    pose proof (Hmin _ Hrin) as Hge. pose proof (Hmax _ Hrin) as Hle.
    cbn [cell_leb]. split; [exact Hge|]. split; [exact Hle|].
    intros d clock Vd Ed.
    assert (Heq : CTime d0 c0 = CTime d clock).
    { apply (sql_value_time_inj (CTime d0 c0) (CTime d clock)); [eauto|eauto|exact Ed]. }
    injection Heq as -> ->.
    assert (Tlo : lo = isoformat dlo ++ clo).
    { rewrite Elo in Hr1. cbn [USStock.sql_value] in Hr1. congruence. }
    assert (Thi : hi = isoformat dhi ++ chi).
    { rewrite Ehi in Hr2. cbn [USStock.sql_value] in Hr2. congruence. }
    subst lo hi. unfold str_leb in Hge, Hle. apply negb_true_iff in Hge, Hle. split.
    + destruct (date_ltb d dlo) eqn:E; [|reflexivity].
      by rewrite (isoformat_lt d dlo clock clo Vd Vlo E) in Hge.
    + destruct (date_ltb dhi d) eqn:E; [|reflexivity].
      by rewrite (isoformat_lt dhi d chi clock Vhi Vd E) in Hle.
Qed.
(* ===================================================================== *)
(** ** [DataManager]: [save_stock_info] and the download loop *)
(* ===================================================================== *)

Section Download.

Import USStock.

Variable yf_Ticker : Z -> pystr -> exc ticker.
Variable today : Z -> date.
Variables start_date end_date : date.
Variable interval : pystr.

Lemma filter_info_of_removed symbol (l : list info_row) :
  filter (info_of symbol) (filter (fun r => negb (info_of symbol r)) l) = [].
Proof.
  induction l as [|r l IH]; [done|]. rewrite filter_cons_bool.
  destruct (info_of symbol r) eqn:E; cbn [negb]; [exact IH|].
  rewrite filter_cons_bool, E. exact IH.
Qed.

Lemma filter_negb_idemp {A} (f : A -> bool) (l : list A) :
  filter (fun r => negb (f r)) (filter (fun r => negb (f r)) l)
  = filter (fun r => negb (f r)) l.
Proof.
  induction l as [|r l IH]; [done|]. rewrite filter_cons_bool.
  destruct (f r) eqn:E; cbn [negb]; [exact IH|].
  rewrite filter_cons_bool, E. cbn [negb]. by rewrite IH.
Qed.

Lemma filter_keys_nodup {A B} (key : A -> B) (f : A -> bool) (l : list A) :
  NoDup (map key l) -> NoDup (map key (filter f l)).
Proof.
  induction l as [|r l IH]; [done|]. cbn [map]. intros Hu.
  apply NoDup_cons in Hu as [Hr Hl]. rewrite filter_cons_bool.
  destruct (f r); [|by apply IH]. cbn [map]. apply NoDup_cons. split; [|by apply IH].
  intros Hin. apply Hr. apply list_elem_of_fmap in Hin as (r' & -> & Hr').
  apply list_elem_of_filter in Hr' as [_ Hr']. apply list_elem_of_fmap. eauto.
Qed.

Lemma save_stock_info_stocks info db :
  db_stocks (snd (save_stock_info info db)) = db_stocks db.
Proof.
  unfold save_stock_info.
  destruct (bind_value (si_name info)), (bind_value (si_sector info)),
    (bind_value (si_industry info)), (bind_value (si_market_cap info)); reflexivity.
Qed.

Lemma save_stock_info_unique info db :
  info_unique (db_info db) -> info_unique (db_info (snd (save_stock_info info db))).
Proof.
  unfold save_stock_info.
  destruct (bind_value (si_name info)), (bind_value (si_sector info)),
    (bind_value (si_industry info)), (bind_value (si_market_cap info)); try done.
  cbn [snd db_info]. unfold info_unique. intros Hu. rewrite map_app. cbn [map].
  apply NoDup_app. split; [|split; [|apply NoDup_singleton]].
  - by apply filter_keys_nodup.
  - intros k Hk Hk'. apply list_elem_of_singleton in Hk'. subst k.
    apply list_elem_of_fmap in Hk as (r & Hkey & Hr). cbn [i_symbol] in Hkey.
    apply list_elem_of_filter in Hr as [Hne _]. apply Is_true_true in Hne.
    apply negb_true_iff in Hne.
    assert (info_of (si_symbol info) r = true) by (by apply info_of_true). congruence.
Qed.

Lemma dict_set_keys k v (d : list (pystr * DataFrame)) :
  map fst (dict_set k v d) = if str_in k (map fst d) then map fst d else map fst d ++ [k].
Proof.
  induction d as [|[k' v'] d IH]; [done|]. cbn [dict_set map fst str_in existsb].
  destruct (str_eqb k k') eqn:E; cbn [orb map fst].
  - apply str_eqb_eq in E. by subst.
  - rewrite IH. fold (str_in k (map fst d)). by destruct (str_in k (map fst d)).
Qed.

Lemma dict_set_entries (P : pystr * DataFrame -> Prop) k v d :
  P (k, v) -> Forall P d -> Forall P (dict_set k v d).
Proof.
  intros Hkv. induction 1 as [|[k' v'] d Hx Hd IH]; cbn [dict_set]; [by repeat constructor|].
  destruct (str_eqb k k'); constructor; auto.
Qed.

Lemma dict_set_nodup k v d : NoDup (map fst d) -> NoDup (map fst (dict_set k v d)).
Proof.
  intros Hn. rewrite dict_set_keys. destruct (str_in k (map fst d)) eqn:E; [done|].
  apply NoDup_app. split; [done|]. split; [|apply NoDup_singleton].
  intros x Hx Hx'. apply list_elem_of_singleton in Hx'. subst x.
  apply str_in_true in Hx. congruence.
Qed.

Lemma fetched_frame_not_empty symbol h :
  empty h = false -> empty (fetched_frame symbol h) = false.
Proof.
  unfold empty, fetched_frame, set_column. cbn [rows columns].
  destruct (rows h) as [|r l]; [discriminate|]. cbn [map].
  destruct (columns h) as [|c cs]; [discriminate|]. intros _.
  destruct (str_in u_Symbol (c :: cs)); reflexivity.
Qed.

Lemma split_length s : length (split 44 s) = S (count_commas s).
Proof.
  induction s as [|c s IH]; [done|]. cbn [split count_commas].
  destruct (c =? 44); cbn [length]; [by rewrite IH|].
  destruct (split 44 s) as [|t ts]; [discriminate|]. exact IH.
Qed.

(** One turn of the loop. *)
Lemma fetch_symbol_outcome i symbol all_data db shown :
  exists all_data' db' level,
    fetch_symbol yf_Ticker today start_date end_date interval i symbol all_data db shown
    = (all_data', db', shown ++ [(symbol, level)])
    /\ db_stocks db' = db_stocks db
    /\ (info_unique (db_info db) -> info_unique (db_info db'))
    /\ (all_data' = all_data
        \/ exists v, fetched_entry yf_Ticker start_date end_date interval (symbol, v)
                     /\ all_data' = dict_set symbol v all_data)
    /\ (level = StSuccess -> all_data' <> all_data \/ symbol ∈ map fst all_data).
Proof.
  unfold fetch_symbol.
  destruct (yf_Ticker i symbol) as [tk|e] eqn:Et; cbn [mbind exc_bind bind_exc].
  2:{ exists all_data, db, StError. repeat split; auto; try discriminate. }
  destruct (history tk start_date end_date interval) as [h|e] eqn:Eh;
    cbn [mbind exc_bind bind_exc].
  2:{ exists all_data, db, StError. repeat split; auto; try discriminate. }
  destruct (empty h) eqn:Ee; cbn [negb].
  { exists all_data, db, StWarning. repeat split; auto; try discriminate. }
  assert (Hentry : fetched_entry yf_Ticker start_date end_date interval
                     (symbol, fetched_frame symbol h)).
  { exists i, tk, h. auto. }
  assert (Hkey : symbol ∈ map fst (dict_set symbol (fetched_frame symbol h) all_data)).
  { rewrite dict_set_keys. destruct (str_in symbol (map fst all_data)) eqn:E.
    - by apply str_in_true.
    - apply elem_of_app. right. by apply list_elem_of_singleton. }
  destruct (info tk) as [inf|e].
  - eexists _, _, StSuccess. split; [reflexivity|].
    split; [apply save_stock_info_stocks|]. split; [apply save_stock_info_unique|].
    split; [right; eauto|]. intros _.
    destruct (str_in symbol (map fst all_data)) eqn:E.
    + right. by apply str_in_true.
    + left. intros Heq. rewrite Heq in Hkey. apply str_in_true in Hkey. congruence.
  - eexists _, _, StError. split; [reflexivity|]. split; [done|]. split; [done|].
    split; [right; eauto|discriminate].
Qed.

Lemma fetch_symbols_outcome symbols :
  forall i all_data db shown,
  NoDup (map fst all_data) ->
  Forall (fetched_entry yf_Ticker start_date end_date interval) all_data ->
  exists all_data' db' shown',
    fetch_symbols yf_Ticker today start_date end_date interval i symbols all_data db shown
    = (all_data', db', shown')
    /\ map fst shown' = map fst shown ++ symbols
    /\ db_stocks db' = db_stocks db
    /\ (info_unique (db_info db) -> info_unique (db_info db'))
    /\ NoDup (map fst all_data')
    /\ Forall (fetched_entry yf_Ticker start_date end_date interval) all_data'
    /\ (forall k, k ∈ map fst all_data' -> k ∈ map fst all_data \/ k ∈ symbols)
    /\ (forall k, k ∈ map fst all_data -> k ∈ map fst all_data')
    /\ (forall s, (s, StSuccess) ∈ shown' ->
          (s, StSuccess) ∈ shown \/ s ∈ map fst all_data').
Proof.
  induction symbols as [|symbol rest IH]; intros i all_data db shown Hn Hf;
    cbn [fetch_symbols].
  - exists all_data, db, shown. rewrite app_nil_r. repeat split; auto.
  - destruct (fetch_symbol_outcome i symbol all_data db shown)
      as (d1 & db1 & level & -> & Hs1 & Hu1 & Hd1 & Hl1).
    assert (Hn1 : NoDup (map fst d1)).
    { destruct Hd1 as [->|(v & _ & ->)]; [done|by apply dict_set_nodup]. }
    assert (Hf1 : Forall (fetched_entry yf_Ticker start_date end_date interval) d1).
    { destruct Hd1 as [->|(v & Hv & ->)]; [done|by apply dict_set_entries]. }
    assert (Hk1 : forall k, k ∈ map fst d1 <->
                            k ∈ map fst all_data \/ (k = symbol /\ d1 <> all_data)).
    { intros k. destruct Hd1 as [->|(v & _ & ->)]; [tauto|].
      rewrite dict_set_keys. destruct (str_in symbol (map fst all_data)) eqn:E.
      - split; [tauto|]. intros [H|[-> _]]; [done|by apply str_in_true].
      - rewrite elem_of_app, list_elem_of_singleton. split.
        + intros [H| ->]; [tauto|]. right. split; [done|].
          intros Heq. apply (f_equal (map fst)) in Heq. rewrite dict_set_keys, E in Heq.
          apply (f_equal (@length _)) in Heq. rewrite length_app in Heq. cbn in Heq. lia.
        + tauto. }
    destruct (IH (i + 1) d1 db1 (shown ++ [(symbol, level)]) Hn1 Hf1)
      as (d2 & db2 & shown2 & -> & Hm2 & Hs2 & Hu2 & Hn2 & Hf2 & Hk2 & Hmono & Hok2).
    exists d2, db2, shown2. split; [reflexivity|].
    split; [rewrite Hm2, map_app, <- app_assoc; reflexivity|].
    split; [congruence|]. split; [auto|]. split; [exact Hn2|]. split; [exact Hf2|].
    split; [|split].
    + intros k Hk. destruct (Hk2 k Hk) as [H|H].
      * apply Hk1 in H as [H|[-> _]]; [auto|]. right. apply elem_of_cons. auto.
      * right. apply elem_of_cons. auto.
    + intros k Hk. apply Hmono. apply Hk1. auto.
    + intros s Hs. destruct (Hok2 s Hs) as [H|H]; [|auto].
      apply elem_of_app in H as [H|H]; [auto|].
      apply list_elem_of_singleton in H. injection H as -> <-.
      right. apply Hmono. apply Hk1. destruct (Hl1 eq_refl) as [H|H]; auto.
Qed.

End Download.

(** X23. [save_stock_info] keeps one row for each symbol.  It returns
    [True] exactly when sqlite3 can bind the name, the sector, the
    industry and the market capitalisation.  Then the row stored under the
    symbol is the new one and the only one, holding the values as they
    were bound, and the rows of the other symbols are as before.
    Otherwise it changes nothing.  It never touches the table [stocks],
    and leaves at most one row for each symbol if there was at most
    one. *)
Theorem save_stock_info_replaces (info : USStock.stock_info) (db : USStock.manager_db) :
  let ok := fst (USStock.save_stock_info info db) in
  let db' := snd (USStock.save_stock_info info db) in
  (ok = true <->
     is_Some (bind_value (USStock.si_name info))
     /\ is_Some (bind_value (USStock.si_sector info))
     /\ is_Some (bind_value (USStock.si_industry info))
     /\ is_Some (bind_value (USStock.si_market_cap info)))
  /\ (ok = true ->
      exists row,
        filter (USStock.info_of (USStock.si_symbol info)) (USStock.db_info db') = [row]
        /\ USStock.i_symbol row = CStr (USStock.si_symbol info)
        /\ bind_value (USStock.si_name info) = Some (USStock.i_name row)
        /\ bind_value (USStock.si_sector info) = Some (USStock.i_sector row)
        /\ bind_value (USStock.si_industry info) = Some (USStock.i_industry row)
        /\ bind_value (USStock.si_market_cap info) = Some (USStock.i_market_cap row)
        /\ USStock.i_last_updated row = USStock.si_last_updated info)
  /\ (ok = false -> db' = db)
  /\ filter (fun r => negb (USStock.info_of (USStock.si_symbol info) r))
        (USStock.db_info db')
     = filter (fun r => negb (USStock.info_of (USStock.si_symbol info) r))
         (USStock.db_info db)
  /\ USStock.db_stocks db' = USStock.db_stocks db
  /\ (info_unique (USStock.db_info db) -> info_unique (USStock.db_info db')).
Proof.
  intros ok db'. subst ok db'.
  pose proof (save_stock_info_unique info db) as Hu.
  pose proof (save_stock_info_stocks info db) as Hs.
  unfold USStock.save_stock_info in *.
  assert (Hno : forall A (x : A), ~ @is_Some A None) by (intros A x [? ?]; discriminate).
  destruct (bind_value (USStock.si_name info)) as [name|] eqn:En.
  2:{ cbn [fst snd]. split; [split; [discriminate|intros (H & _); by destruct H]|].
      repeat split; try done. }
  destruct (bind_value (USStock.si_sector info)) as [sector|].
  2:{ cbn [fst snd]. split; [split; [discriminate|intros (_ & H & _); by destruct H]|].
      repeat split; try done. }
  destruct (bind_value (USStock.si_industry info)) as [industry|].
  2:{ cbn [fst snd]. split; [split; [discriminate|intros (_ & _ & H & _); by destruct H]|].
      repeat split; try done. }
  destruct (bind_value (USStock.si_market_cap info)) as [cap|] eqn:Ec.
  2:{ cbn [fst snd]. split; [split; [discriminate|intros (_ & _ & _ & H); by destruct H]|].
      repeat split; try done. }
  cbn [fst snd USStock.db_info] in *.
  assert (Hnew : USStock.info_of (USStock.si_symbol info)
            (USStock.mkinfo (CStr (USStock.si_symbol info)) name sector industry cap
               (USStock.si_last_updated info)) = true).
  { by apply info_of_true. }
  split; [split; [intros _; repeat split; by eexists|done]|].
  split.
  { intros _. eexists. rewrite filter_app, filter_info_of_removed, filter_cons_bool, Hnew.
    split; [reflexivity|]. repeat split. }
  split; [discriminate|]. split; [|split; [exact Hs|exact Hu]].
  rewrite filter_app, filter_negb_idemp, filter_cons_bool, Hnew.
  cbn [negb]. by rewrite app_nil_r.
Qed.


(* ===================================================================== *)
(** ** The further statements on the sample data *)
(* ===================================================================== *)

Lemma processed_None_pipeline :
  pipeline_frame Samples.sample_to_datetime Samples.processed_None.
Proof.
  exists Samples.canonical_frame, Samples.sym_600000, s_daily, s_None.
  vm_compute. reflexivity.
Qed.

Lemma db_None_reachable : reachable Samples.sample_to_datetime Samples.db_None.
Proof.
  unfold Samples.db_None. apply reach_save; [apply reach_init|].
  constructor; [apply processed_None_pipeline|constructor].
Qed.

Lemma process_symbols_600000 : process_symbols Samples.sym_600000 = [Samples.sym_600000].
Proof. vm_compute. reflexivity. Qed.


(** The sample saved as unadjusted is not read back. *)
Lemma unadjusted_rows_never_found_witness :
  reachable Samples.sample_to_datetime Samples.db_None
  /\ (query_stocks_data Samples.sym_600000 None None s_daily s_None
        (DbFile Samples.db_None)
      = Ok []
      /\ select_max_date Samples.db_None Samples.sym_600000 s_daily (adjust_param s_None)
         = Ok None).
Proof.
  split; [apply db_None_reachable|].
  exact (unadjusted_rows_never_found Samples.sample_to_datetime Samples.db_None
           Samples.sym_600000 Samples.sym_600000 None None s_daily db_None_reachable).
Defined.

(** The update of the unadjusted sample on 2024-01-04. *)
Lemma unadjusted_update_starts_over_witness :
  reachable Samples.sample_to_datetime Samples.db_None
  /\ valid_date (mkdate 2024 1 4) = true /\ 1990 <= year (mkdate 2024 1 4)
  /\ update_stock_data REQUEST_CONFIG Samples.vendor_none Samples.sample_to_datetime
       (mkdate 2024 1 4) Samples.sym_600000 s_daily s_None Samples.db_None []
     = safe_fetch_stock_data REQUEST_CONFIG Samples.vendor_none Samples.sample_to_datetime
         Samples.sym_600000 s_1990_01_01 (strftime (mkdate 2024 1 4)) s_daily s_None None
         ([] ++ [EvSt StInfo]).
Proof.
  assert (Hy : 1990 <= year (mkdate 2024 1 4)) by (cbn; lia).
  split; [apply db_None_reachable|]. split; [reflexivity|]. split; [exact Hy|].
  exact (unadjusted_update_starts_over REQUEST_CONFIG Samples.vendor_none
           Samples.sample_to_datetime (mkdate 2024 1 4) Samples.sym_600000 s_daily
           Samples.db_None [] db_None_reachable eq_refl Hy).
Defined.

(** The latest date of the forward-adjusted sample. *)
Lemma stored_max_date_is_latest_witness :
  datetime_in_range Samples.sample_to_datetime
  /\ reachable Samples.sample_to_datetime Samples.db_qfq
  /\ select_max_date Samples.db_qfq Samples.sym_600000 s_daily s_qfq
     = Ok (Some (strftime (mkdate 2024 1 3)))
  /\ exists t,
       Samples.db_qfq = Some t
       /\ exists d, strftime (mkdate 2024 1 3) = strftime d
                    /\ latest_day (t_rows t) Samples.sym_600000 s_daily s_qfq (Some d).
Proof.
  split; [apply sample_to_datetime_in_range|]. split; [apply db_qfq_reachable|].
  split; [vm_compute; reflexivity|].
  exact (stored_max_date_is_latest Samples.sample_to_datetime Samples.db_qfq
           Samples.sym_600000 s_daily s_qfq
           sample_to_datetime_in_range db_qfq_reachable).
Defined.

(** The frame made of the canonical sample. *)
Lemma process_stock_data_shape_witness :
  process_stock_data Samples.sample_to_datetime Samples.canonical_frame
    Samples.sym_600000 s_daily s_qfq = Ok Samples.processed_qfq
  /\ Forall (fun c => str_in c (columns Samples.processed_qfq) = true)
       [c_date; c_open; c_close; c_high; c_low; c_volume; c_symbol; c_period; c_adjust]
  /\ Forall (fun r => processed_row Samples.sample_to_datetime Samples.sym_600000
                        s_daily s_qfq (snd r)) (rows Samples.processed_qfq)
  /\ adjust_marker s_qfq <> []
  /\ (s_qfq <> [] -> adjust_marker s_qfq = s_qfq)
  /\ (length (rows Samples.processed_qfq) <= length (rows Samples.canonical_frame))%nat.
Proof.
  assert (H : process_stock_data Samples.sample_to_datetime Samples.canonical_frame
                Samples.sym_600000 s_daily s_qfq = Ok Samples.processed_qfq)
    by (vm_compute; reflexivity).
  split; [exact H|].
  exact (process_stock_data_shape Samples.sample_to_datetime Samples.canonical_frame
           Samples.sym_600000 s_daily s_qfq Samples.processed_qfq H).
Defined.

(** The canonical sample has the column "date" once and no other source
    of the date; both of its dates convert. *)
Lemma process_stock_data_canonical_witness :
  labelled Samples.canonical_frame
  /\ count_label c_date Samples.canonical_frame = 1%nat
  /\ existsb maps_to_date (columns Samples.canonical_frame) = false
  /\ exists df,
       process_stock_data Samples.sample_to_datetime Samples.canonical_frame
         Samples.sym_600000 s_daily s_qfq = Ok df
       /\ map (fun r => entries c_date (snd r)) (rows df)
          = [[CStr (strftime (mkdate 2024 1 2))]; [CStr (strftime (mkdate 2024 1 3))]].
Proof.
  assert (Hl : labelled Samples.canonical_frame).
  { repeat constructor. }
  split; [exact Hl|]. split; [reflexivity|]. split; [reflexivity|].
  exact (process_stock_data_canonical Samples.sample_to_datetime Samples.canonical_frame
           Samples.sym_600000 s_daily s_qfq Hl eq_refl eq_refl).
Defined.



(** Fetching the sample symbol and saving what comes back. *)
Lemma acquired_frames_keep_database_witness :
  datetime_in_range Samples.sample_to_datetime
  /\ reachable Samples.sample_to_datetime Samples.db_qfq
  /\ exists results tr',
       fetch_multiple_stocks REQUEST_CONFIG Samples.vendor_none
         Samples.sample_to_datetime Samples.sym_600000 s_1990_01_01 s_1990_01_01
         s_daily s_qfq [] = (Ok results, tr')
       /\ reachable Samples.sample_to_datetime
            (snd (save_stocks_to_db 0 results Samples.db_qfq)).
Proof.
  split; [apply sample_to_datetime_in_range|]. split; [apply db_qfq_reachable|].
  destruct (acquired_frames_keep_database REQUEST_CONFIG Samples.vendor_none
              Samples.sample_to_datetime (fun _ => mkdate 2024 1 4) 0
              Samples.sym_600000 s_1990_01_01 s_1990_01_01 s_daily s_qfq
              Samples.db_qfq [] sample_to_datetime_in_range db_qfq_reachable)
    as [(results & tr' & H & Hr & _) _].
  exists results, tr'. split; [exact H|exact Hr].
Defined.

(** The intraday sample is refused. *)
Lemma save_stock_data_refuses_unknown_column_witness :
  rows Samples.yf_intraday_frame <> []
  /\ USStock.u_Datetime ∈ index_label Samples.yf_intraday_frame
                          :: columns Samples.yf_intraday_frame
  /\ str_in (lower (rename_label USStock.rename_map USStock.u_Datetime))
       (USStock.db_columns ++ USStock.rowid_names) = false
  /\ USStock.save_stock_data Samples.integer_of_digits Samples.sym_AAPL
       Samples.yf_intraday_frame (USStock.init_database None)
     = (false, USStock.init_database None).
Proof.
  assert (Hr : rows Samples.yf_intraday_frame <> []) by discriminate.
  assert (Hc : USStock.u_Datetime ∈ index_label Samples.yf_intraday_frame
                                    :: columns Samples.yf_intraday_frame)
    by constructor.
  split; [exact Hr|]. split; [exact Hc|]. split; [reflexivity|].
  exact (save_stock_data_refuses_unknown_column Samples.integer_of_digits
           Samples.sym_AAPL Samples.yf_intraday_frame
           (USStock.init_database None) USStock.u_Datetime Hr Hc eq_refl).
Defined.

(** The sample history, saved again once AAPL has been deleted. *)
Lemma delete_then_save_stock_data_witness :
  let save := USStock.save_stock_data Samples.integer_of_digits Samples.sym_AAPL
                (USStock.fetched_frame Samples.sym_AAPL Samples.yf_history_frame) in
  yf_history Samples.yf_history_frame
  /\ NoDup (map fst (rows Samples.yf_history_frame))
  /\ fst (save (USStock.db_stocks Samples.manager_db_AAPL)) = false
  /\ fst (save (USStock.db_stocks
                  (snd (USStock.delete_stock_data Samples.sym_AAPL
                          Samples.manager_db_AAPL))))
     = true.
Proof.
  intros save. subst save.
  assert (Hn : NoDup (map fst (rows Samples.yf_history_frame))).
  { apply NoDup_singleton. }
  split; [apply yf_history_sample|]. split; [exact Hn|]. split; [vm_compute; reflexivity|].
  rewrite (delete_then_save_stock_data Samples.integer_of_digits Samples.sym_AAPL
             Samples.yf_history_frame Samples.manager_db_AAPL yf_history_sample Hn).
  reflexivity.
Defined.

(** The sample history saved into a new database, and listed. *)
Lemma saved_symbol_is_listed_witness :
  yf_history Samples.yf_history_frame
  /\ USStock.save_stock_data Samples.integer_of_digits Samples.sym_AAPL
       (USStock.fetched_frame Samples.sym_AAPL Samples.yf_history_frame)
       (USStock.db_stocks (USStock.mkdb (USStock.init_database None) []))
     = (true, USStock.db_stocks Samples.manager_db_AAPL)
  /\ (rows Samples.yf_history_frame <> [] ->
      CStr Samples.sym_AAPL ∈ USStock.get_stored_symbols Samples.manager_db_AAPL).
Proof.
  assert (Hs : USStock.save_stock_data Samples.integer_of_digits Samples.sym_AAPL
                 (USStock.fetched_frame Samples.sym_AAPL Samples.yf_history_frame)
                 (USStock.db_stocks (USStock.mkdb (USStock.init_database None) []))
               = (true, USStock.db_stocks Samples.manager_db_AAPL))
    by (vm_compute; reflexivity).
  split; [apply yf_history_sample|]. split; [exact Hs|].
  exact (proj2 (saved_symbol_is_listed Samples.integer_of_digits Samples.sym_AAPL
                  Samples.yf_history_frame
                  (USStock.mkdb (USStock.init_database None) [])
                  (USStock.db_stocks Samples.manager_db_AAPL) yf_history_sample Hs)).
Defined.

(** The summary of the database holding the sample history. *)
Lemma get_data_summary_consistent_witness :
  Forall (fun r => is_missing (USStock.s_symbol r) = false
                   /\ exists d clock, valid_date d = true
                         /\ USStock.s_date r = USStock.sql_value (CTime d clock))
    (USStock.st_rows (USStock.db_stocks Samples.manager_db_AAPL))
  /\ USStock.stock_count (USStock.get_data_summary Samples.manager_db_AAPL) = 1
  /\ USStock.record_count (USStock.get_data_summary Samples.manager_db_AAPL)
     = Z.of_nat (length (USStock.st_rows (USStock.db_stocks Samples.manager_db_AAPL))).
Proof.
  assert (H : Forall (fun r => is_missing (USStock.s_symbol r) = false
                               /\ exists d clock, valid_date d = true
                                     /\ USStock.s_date r
                                        = USStock.sql_value (CTime d clock))
                (USStock.st_rows (USStock.db_stocks Samples.manager_db_AAPL))).
  { constructor; [|constructor]. split; [reflexivity|].
    exists (mkdate 2024 1 2), Samples.midnight_est. split; reflexivity. }
  split; [exact H|]. split; [reflexivity|].
  exact (proj1 (get_data_summary_consistent Samples.manager_db_AAPL H)).
Defined.


